(** * The sample-data loader of the global inequality database (load_data.py)

    A shallow embedding of [load_data.py] and the properties of the rows it
    writes.

    Modelling choices.
    - Python floats are modelled at two levels. The program of the first
      part computes with exact rationals ([Q]); this is the level of the
      properties that do not depend on how an operation rounds: the number
      of rows, their keys, the draws consumed, the ranges of the columns,
      what a run prints and where it fails. The four generators are then
      given once more in double precision ([Module Double]): a float is the
      rational it denotes and every operation returns the double nearest to
      its exact result, ties to even ([fl]); this is the level of the
      properties that say which value a column stores. [x ** n] is there
      whatever the [pow] of the C library returns, a parameter.
    - [round(x, 2)] is rounding to the nearest hundredth, ties to even; a
      stored hundredth stands for the double nearest to it.
    - The generator [random] is a stream [rnd : nat -> Q] of the successive
      values of [random.random()], each in [0, 1), and a read position kept in
      the world; [random.uniform(a, b)] is [a + (b - a) * random()].
    - A division by a computed divisor raises [ZeroDivisionError] on zero;
      divisions by a literal are plain divisions.
    - The SQLite file is a finite map from table names to lists of rows;
      [to_sql] with [if_exists='replace'] overwrites the rows of its table.
    - The outside world that can make a stage fail (the schema file, the DDL
      script, a failing write, a failing connect) is a record [environment].
    - Python exceptions are the [Raise] outcome of a state-and-error monad;
      [print] appends an event to the console of the world. *)

From Stdlib Require Import QArith Qround Qpower Qabs Lqa ZArith Lia List String Ascii.
From stdpp Require Import gmap strings list fin_maps.
Import ListNotations.

Local Open Scope Q_scope.
Local Open Scope string_scope.

(* ===================================================================== *)
(** * Numbers *)
(* ===================================================================== *)

(** Nearest integer, ties to even. *)
Definition round_half_even (x : Q) : Z :=
  let f := Qfloor x in
  match Qcompare (x - inject_Z f) (1 # 2) with
  | Lt => f
  | Gt => (f + 1)%Z
  | Eq => if Z.even f then f else (f + 1)%Z
  end.

(** [round(x, 2)] *)
Definition round2 (x : Q) : Q := round_half_even (x * 100) # 100.

(** [min(a, b)] and [max(a, b)] of Python: the first argument wins a tie. *)
Definition py_min (a b : Q) : Q :=
  match Qcompare b a with Lt => b | _ => a end.

Definition py_max (a b : Q) : Q :=
  match Qcompare b a with Gt => b | _ => a end.

(** The value [random.uniform(a, b)] computes from the draw [u] of
    [random.random()]. *)
Definition uniform_value (a b u : Q) : Q := a + (b - a) * u.

(** [range(a, b)] *)
Definition range (a b : Z) : list Z :=
  map (fun i => (a + Z.of_nat i)%Z) (seq 0 (Z.to_nat (b - a))).

(** ** Double precision *)

Definition pow2 (k : Z) : Q := 2 ^ k.

(** [floor (log2 x)] of a positive [x]. *)
Definition ilog2 (x : Q) : Z :=
  let k := (Z.log2 (Qnum x) - Z.log2 (Zpos (Qden x)))%Z in
  if Qle_bool (pow2 k) x then k else (k - 1)%Z.

(** The exponent of the last place of the double nearest to [x]: 53
    significant bits, and never below the smallest subnormal, 2^-1074. *)
Definition fexp (x : Q) : Z := Z.max (ilog2 (Qabs x) - 52) (-1074).

(** The double nearest to [x], ties to even: what every float operation of
    Python returns for an exact result [x]. Results beyond the largest
    double, which no value of this program comes near, are not modelled. *)
Definition fl (x : Q) : Q :=
  match Qcompare x 0 with
  | Eq => 0
  | _ => Qred (inject_Z (round_half_even (x / pow2 (fexp x))) * pow2 (fexp x))
  end.

(** [x + y], [x - y], [x * y] and [x / y] on floats. *)
Definition fadd (x y : Q) : Q := fl (x + y).
Definition fsub (x y : Q) : Q := fl (x - y).
Definition fmul (x y : Q) : Q := fl (x * y).
Definition fdiv (x y : Q) : Q := fl (x / y).

(* ===================================================================== *)
(** * Data model *)
(* ===================================================================== *)

(** A row of the country frame ([population_2023] is the added column). *)
Record country := Country {
  country_code : string;
  country_name : string;
  region : string;
  income_group : string;
  population_2023 : option Z
}.

Record gdp_record := GdpRecord {
  gdp_country_code : string;
  gdp_year : Z;
  gdp_per_capita_current_usd : Q;
  gdp_total_current_usd : option Q;
  gdp_growth_annual_pct : Q
}.

Record inequality_record := InequalityRecord {
  ineq_country_code : string;
  ineq_year : Z;
  gini_coefficient : Q;
  income_share_lowest_20pct : Q;
  income_share_highest_20pct : Q;
  palma_ratio : Q
}.

Record poverty_record := PovertyRecord {
  pov_country_code : string;
  pov_year : Z;
  poverty_headcount_215_pct : Q;
  poverty_headcount_365_pct : Q;
  poverty_headcount_685_pct : Q;
  poverty_gap : option Q
}.

Record trade_record := TradeRecord {
  te_country_code : string;
  te_year : Z;
  trade_pct_gdp : Q;
  secondary_enrollment_rate : Q;
  tertiary_enrollment_rate : Q;
  government_expenditure_education_pct : Q
}.

(** A row of any of the five tables. *)
Inductive row :=
| RCountry (c : country)
| RGdp (r : gdp_record)
| RInequality (r : inequality_record)
| RPoverty (r : poverty_record)
| RTrade (r : trade_record).

(** The database file: table name to rows. *)
Abbreviation database := (gmap string (list row)).

(* ===================================================================== *)
(** * Effects *)
(* ===================================================================== *)

Inductive exn :=
| KeyError (key : string)
| ZeroDivisionError
| ValueError (msg : string)
| OSError (path : string)
| DatabaseError (what : string).

Inductive result (A : Type) :=
| Ok (a : A)
| Raise (e : exn).
Arguments Ok {A} a.
Arguments Raise {A} e.

(** What [print] writes. *)
Inductive event :=
| Line (text : string)
| LoadedLine (n : nat) (what : string)
| CountLine (table : string) (n : nat)
| ErrorLine (e : exn)
| TracebackLine (e : exn).

Record world := World {
  rng_pos : nat;
  db : database;
  console : list event;
  conn_open : bool
}.

(** What the run does not control. *)
Record environment := Environment {
  connect_error : option exn;
  schema_sql : result string;
  run_script : string -> database -> result unit * database;
  write_error : string -> database -> option exn
}.

Definition M (A : Type) : Type := world -> result A * world.

Definition ret {A} (a : A) : M A := fun w => (Ok a, w).

Definition raise {A} (e : exn) : M A := fun w => (Raise e, w).

Definition bind {A B} (m : M A) (k : A -> M B) : M B :=
  fun w =>
    match m w with
    | (Ok a, w') => k a w'
    | (Raise e, w') => (Raise e, w')
    end.

Notation "x <- m ;; k" := (bind m (fun x => k))
  (at level 100, m at next level, right associativity).
Notation "m ;;; k" := (bind m (fun _ => k))
  (at level 100, right associativity).

(** [try: body except Exception as e: handler(e)] *)
Definition try_except {A} (body : M A) (handler : exn -> M A) : M A :=
  fun w =>
    match body w with
    | (Ok a, w') => (Ok a, w')
    | (Raise e, w') => handler e w'
    end.

(** [try: body finally: cleanup] *)
Definition try_finally {A} (body : M A) (cleanup : M unit) : M A :=
  fun w =>
    match body w with
    | (r, w') =>
        match cleanup w' with
        | (Ok _, w'') => (r, w'')
        | (Raise e, w'') => (Raise e, w'')
        end
    end.

(** [for x in xs: body], the variables the body assigns threaded as [s]. *)
Fixpoint for_each {A S} (xs : list A) (body : A -> S -> M S) (s : S) : M S :=
  match xs with
  | [] => ret s
  | x :: xs' => s' <- body x s ;; for_each xs' body s'
  end.

Definition emit (e : event) : M unit :=
  fun w => (Ok tt, World (rng_pos w) (db w) (console w ++ [e])%list (conn_open w)).

Definition print (text : string) : M unit := emit (Line text).

(** [a / b] on floats: a zero divisor raises. *)
Definition true_div (a b : Q) : M Q :=
  if Qeq_bool b 0 then raise ZeroDivisionError else ret (a / b).

(** [d[k]] on a dict literal. *)
Definition dict_get {V} (d : gmap string V) (k : string) : M V :=
  match d !! k with
  | Some v => ret v
  | None => raise (KeyError k)
  end.

(* ===================================================================== *)
(** * The program *)
(* ===================================================================== *)

Definition DB_PATH : string := "global_inequality.db".

(** The [if_exists] argument of [DataFrame.to_sql]. *)
Inductive if_exists_mode := IfExistsFail | IfExistsReplace | IfExistsAppend.

(** The connection handle. *)
Inductive connection := Connection (path : string).

Section Program.

(** The successive values of [random.random()]. *)
Variable rnd : nat -> Q.
Variable env : environment.

Definition random : M Q :=
  fun w => (Ok (rnd (rng_pos w)),
            World (S (rng_pos w)) (db w) (console w) (conn_open w)).

(** [random.uniform(a, b)] *)
Definition uniform (a b : Q) : M Q :=
  u <- random ;; ret (uniform_value a b u).

Definition set_db (d : database) : M unit :=
  fun w => (Ok tt, World (rng_pos w) d (console w) (conn_open w)).

Definition get_db : M database := fun w => (Ok (db w), w).

(** [sqlite3.connect(path)] *)
Definition sqlite3_connect (path : string) : M connection :=
  match connect_error env with
  | Some e => raise e
  | None =>
      fun w => (Ok (Connection path),
                World (rng_pos w) (db w) (console w) true)
  end.

(** [conn.close()] *)
Definition conn_close (conn : connection) : M unit :=
  fun w => (Ok tt, World (rng_pos w) (db w) (console w) false).

(** [open(path).read()] *)
Definition open_read (path : string) : M string :=
  match schema_sql env with
  | Ok text => ret text
  | Raise e => raise e
  end.

(** [conn.executescript(text)] *)
Definition executescript (conn : connection) (text : string) : M unit :=
  d <- get_db ;;
  let '(r, d') := run_script env text d in
  set_db d' ;;;
  match r with
  | Ok _ => ret tt
  | Raise e => raise e
  end.

(** [df.to_sql(name, conn, if_exists=mode, index=False)] *)
Definition to_sql (df : list row) (name : string) (conn : connection)
    (mode : if_exists_mode) : M unit :=
  d <- get_db ;;
  match write_error env name d with
  | Some e => raise e
  | None =>
      match mode, d !! name with
      | IfExistsFail, Some _ => raise (ValueError name)
      | IfExistsAppend, Some old => set_db (<[name := (old ++ df)%list]> d)
      | _, _ => set_db (<[name := df]> d)
      end
  end.

(** [pd.read_sql("SELECT COUNT(*) as cnt FROM table", conn)['cnt'][0]] *)
Definition read_count (table : string) (conn : connection) : M nat :=
  d <- get_db ;;
  match d !! table with
  | Some rows => ret (length rows)
  | None => raise (DatabaseError table)
  end.

(** ** [load_country_metadata] *)

(** [pd.DataFrame(data)] on the dict of the four columns the loaders read:
    one row per position; columns of different lengths are refused. The
    column [population_2023] does not exist yet and reads [None]. *)
Definition DataFrame (data : list (string * list string)) : result (list country) :=
  let cols : gmap string (list string) := list_to_map data in
  match cols !! "country_code", cols !! "country_name",
        cols !! "region", cols !! "income_group" with
  | Some codes, Some names, Some regions, Some groups =>
      if (length names =? length codes)%nat
         && (length regions =? length codes)%nat
         && (length groups =? length codes)%nat
      then Ok (zip_with (fun '(c, n) '(r, g) => Country c n r g None)
                        (zip codes names) (zip regions groups))
      else Raise (ValueError "All arrays must be of the same length")
  | _, _, _, _ => Raise (KeyError "country_code")
  end.

Definition lift {A} (r : result A) : M A :=
  match r with
  | Ok a => ret a
  | Raise e => raise e
  end.

Definition countries_data : list (string * list string) :=
  [ ("country_code",
    [
     "USA"; "GBR"; "DEU"; "FRA"; "JPN"; "CHN"; "IND"; "BRA"; "ZAF"; "NGA";
     "KEN"; "ETH"; "MEX"; "ARG"; "CHL"; "POL"; "CZE"; "HUN"; "RUS"; "TUR";
     "IDN"; "THA"; "VNM"; "PHL"; "EGY"; "MAR"; "GHA"; "TZA"; "UGA"; "RWA";
     "SWE"; "NOR"; "DNK"; "FIN"; "NLD"; "BEL"; "AUT"; "CHE"; "ITA"; "ESP";
     "PRT"; "GRC"; "CAN"; "AUS"; "NZL"; "KOR"; "SGP"; "MYS" ]);
    ("country_name",
    [
     "United States"; "United Kingdom"; "Germany"; "France"; "Japan";
     "China"; "India"; "Brazil"; "South Africa"; "Nigeria"; "Kenya";
     "Ethiopia"; "Mexico"; "Argentina"; "Chile"; "Poland"; "Czech Republic";
     "Hungary"; "Russia"; "Turkey"; "Indonesia"; "Thailand"; "Vietnam";
     "Philippines"; "Egypt"; "Morocco"; "Ghana"; "Tanzania"; "Uganda";
     "Rwanda"; "Sweden"; "Norway"; "Denmark"; "Finland"; "Netherlands";
     "Belgium"; "Austria"; "Switzerland"; "Italy"; "Spain"; "Portugal";
     "Greece"; "Canada"; "Australia"; "New Zealand"; "South Korea";
     "Singapore"; "Malaysia" ]);
    ("region",
    [
     "North America"; "Europe & Central Asia"; "Europe & Central Asia";
     "Europe & Central Asia"; "East Asia & Pacific"; "East Asia & Pacific";
     "South Asia"; "Latin America & Caribbean"; "Sub-Saharan Africa";
     "Sub-Saharan Africa"; "Sub-Saharan Africa"; "Sub-Saharan Africa";
     "Latin America & Caribbean"; "Latin America & Caribbean";
     "Latin America & Caribbean"; "Europe & Central Asia";
     "Europe & Central Asia"; "Europe & Central Asia";
     "Europe & Central Asia"; "Europe & Central Asia"; "East Asia & Pacific";
     "East Asia & Pacific"; "East Asia & Pacific"; "East Asia & Pacific";
     "Middle East & North Africa"; "Middle East & North Africa";
     "Sub-Saharan Africa"; "Sub-Saharan Africa"; "Sub-Saharan Africa";
     "Sub-Saharan Africa"; "Europe & Central Asia"; "Europe & Central Asia";
     "Europe & Central Asia"; "Europe & Central Asia";
     "Europe & Central Asia"; "Europe & Central Asia";
     "Europe & Central Asia"; "Europe & Central Asia";
     "Europe & Central Asia"; "Europe & Central Asia";
     "Europe & Central Asia"; "Europe & Central Asia"; "North America";
     "East Asia & Pacific"; "East Asia & Pacific"; "East Asia & Pacific";
     "East Asia & Pacific"; "East Asia & Pacific" ]);
    ("income_group",
    [
     "High income"; "High income"; "High income"; "High income";
     "High income"; "Upper middle income"; "Lower middle income";
     "Upper middle income"; "Upper middle income"; "Lower middle income";
     "Lower middle income"; "Low income"; "Upper middle income";
     "Upper middle income"; "High income"; "High income"; "High income";
     "High income"; "Upper middle income"; "Upper middle income";
     "Upper middle income"; "Upper middle income"; "Lower middle income";
     "Lower middle income"; "Lower middle income"; "Lower middle income";
     "Lower middle income"; "Lower middle income"; "Low income";
     "Low income"; "High income"; "High income"; "High income";
     "High income"; "High income"; "High income"; "High income";
     "High income"; "High income"; "High income"; "High income";
     "High income"; "High income"; "High income"; "High income";
     "High income"; "High income"; "Upper middle income" ]) ].

(** [df[population_2023] = v] *)
Definition set_population_2023 (v : option Z) (df : list country) : list country :=
  map (fun c => Country (country_code c) (country_name c) (region c)
                  (income_group c) v) df.

Definition load_country_metadata (conn : connection) : M (list country) :=
  print "Loading country metadata..." ;;;
  df <- lift (DataFrame countries_data) ;;
  let df := set_population_2023 None df in
  to_sql (map RCountry df) "country_metadata" conn IfExistsReplace ;;;
  emit (LoadedLine (length df) "countries") ;;;
  ret df.

(** ** [load_gdp_data] *)

Definition gdp_ranges : gmap string (Q * Q) :=
  list_to_map
    [ ("High income", (40000, 80000));
      ("Upper middle income", (8000, 20000));
      ("Lower middle income", (2000, 8000));
      ("Low income", (500, 2000)) ].

(** The loop nest that fills [data]. *)
Definition gdp_rows (countries : list country) : M (list gdp_record) :=
  for_each countries (fun country data =>
    let country_code := country_code country in
    let income_group := income_group country in
    bounds <- dict_get gdp_ranges income_group ;;
    let '(min_gdp, max_gdp) := bounds in
    base_gdp <- uniform min_gdp max_gdp ;;
    for_each (range 2015 2024) (fun year data =>
      growth <- (if String.eqb income_group "High income" then uniform 1 3
                 else if String.eqb income_group "Upper middle income" then uniform 3 7
                 else if String.eqb income_group "Lower middle income" then uniform 4 8
                 else uniform 3 6) ;;
      growth <- (if (year =? 2020)%Z then uniform (-5) (-2) else ret growth) ;;
      let years_since_base := (year - 2015)%Z in
      let gdp := base_gdp * ((1 + growth / 100) ^ years_since_base) in
      ret (data ++ [ GdpRecord country_code year (round2 gdp) None (round2 growth) ])%list)
      data) [].

Definition load_gdp_data (conn : connection) (countries : list country) : M unit :=
  print "Creating GDP data..." ;;;
  df <- gdp_rows countries ;;
  to_sql (map RGdp df) "gdp_data" conn IfExistsReplace ;;;
  emit (LoadedLine (length df) "GDP records").

(** ** [load_inequality_data] *)

Definition gini_ranges : gmap string (Q * Q) :=
  list_to_map
    [ ("Latin America & Caribbean", (45, 55));
      ("Sub-Saharan Africa", (40, 65));
      ("Middle East & North Africa", (35, 42));
      ("South Asia", (32, 38));
      ("East Asia & Pacific", (30, 45));
      ("Europe & Central Asia", (25, 38));
      ("North America", (38, 42)) ].

Definition survey_years : list Z := [2015; 2017; 2019; 2021; 2023]%Z.

Definition inequality_rows (countries : list country) : M (list inequality_record) :=
  let years := survey_years in
  for_each countries (fun country data =>
    let country_code := country_code country in
    let region := region country in
    bounds <- dict_get gini_ranges region ;;
    let '(min_gini, max_gini) := bounds in
    base_gini <- uniform min_gini max_gini ;;
    for_each years (fun year data =>
      noise <- uniform (-3) 3 ;;
      let gini := base_gini + noise in
      let gini := py_max 20 (py_min 70 gini) in
      lowest_20 <- uniform 4 9 ;;
      highest_20 <- uniform 40 55 ;;
      ratio <- true_div highest_20 (lowest_20 * 2) ;;
      let palma := round2 ratio in
      ret (data ++ [ InequalityRecord country_code year (round2 gini)
                       (round2 lowest_20) (round2 highest_20) palma ])%list)
      data) [].

Definition load_inequality_data (conn : connection) (countries : list country) : M unit :=
  print "Creating inequality data..." ;;;
  df <- inequality_rows countries ;;
  to_sql (map RInequality df) "inequality_metrics" conn IfExistsReplace ;;;
  emit (LoadedLine (length df) "inequality records").

(** ** [load_poverty_data] *)

(** [x in xs] on a list of strings. *)
Definition str_in (x : string) (xs : list string) : bool :=
  existsb (String.eqb x) xs.

Definition poverty_rows (countries : list country) : M (list poverty_record) :=
  let years := survey_years in
  for_each countries (fun country data =>
    let country_code := country_code country in
    let income_group := income_group country in
    if str_in income_group
         ["Low income"; "Lower middle income"; "Upper middle income"]
    then
      bases <-
        (if String.eqb income_group "Low income" then
           b215 <- uniform 40 70 ;;
           b365 <- uniform 60 85 ;;
           b685 <- uniform 75 95 ;;
           ret (b215, b365, b685)
         else if String.eqb income_group "Lower middle income" then
           b215 <- uniform 10 40 ;;
           b365 <- uniform 25 60 ;;
           b685 <- uniform 50 80 ;;
           ret (b215, b365, b685)
         else
           b215 <- uniform 1 15 ;;
           b365 <- uniform 5 30 ;;
           b685 <- uniform 15 50 ;;
           ret (b215, b365, b685)) ;;
      let '(base_215, base_365, base_685) := bases in
      for_each years (fun year data =>
        let years_since_2015 := inject_Z (year - 2015) / 8 in
        let reduction_factor := 1 - (years_since_2015 * 0.15) in
        ret (data ++ [ PovertyRecord country_code year
                         (round2 (base_215 * reduction_factor))
                         (round2 (base_365 * reduction_factor))
                         (round2 (base_685 * reduction_factor))
                         None ])%list)
        data
    else ret data) [].

Definition load_poverty_data (conn : connection) (countries : list country) : M unit :=
  print "Creating poverty data..." ;;;
  df <- poverty_rows countries ;;
  to_sql (map RPoverty df) "poverty_indicators" conn IfExistsReplace ;;;
  emit (LoadedLine (length df) "poverty records").

(** ** [load_trade_education] *)

Definition trade_rows (countries : list country) : M (list trade_record) :=
  for_each countries (fun country data =>
    let country_code := country_code country in
    let income_group := income_group country in
    base_trade <- uniform 40 150 ;;
    bases <-
      (if String.eqb income_group "High income" then
         s <- uniform 95 105 ;;
         t <- uniform 60 90 ;;
         g <- uniform 4 6 ;;
         ret (s, t, g)
       else if String.eqb income_group "Upper middle income" then
         s <- uniform 75 95 ;;
         t <- uniform 30 60 ;;
         g <- uniform 3.5 5.5 ;;
         ret (s, t, g)
       else if String.eqb income_group "Lower middle income" then
         s <- uniform 50 80 ;;
         t <- uniform 15 40 ;;
         g <- uniform 3 5 ;;
         ret (s, t, g)
       else
         s <- uniform 30 60 ;;
         t <- uniform 5 20 ;;
         g <- uniform 2 4 ;;
         ret (s, t, g)) ;;
    let '(sec_enrollment, ter_enrollment, gov_edu_exp) := bases in
    for_each (range 2015 2024) (fun year data =>
      let years_since_2015 := inject_Z (year - 2015) in
      let sec_improvement := sec_enrollment + (years_since_2015 * 0.5) in
      let ter_improvement := ter_enrollment + (years_since_2015 * 0.3) in
      trade_noise <- uniform (-10) 10 ;;
      edu_noise <- uniform (-0.5) 0.5 ;;
      ret (data ++ [ TradeRecord country_code year
                       (round2 (base_trade + trade_noise))
                       (round2 (py_min 105 sec_improvement))
                       (round2 ter_improvement)
                       (round2 (gov_edu_exp + edu_noise)) ])%list)
      data) [].

Definition load_trade_education (conn : connection) (countries : list country) : M unit :=
  print "Creating trade and education data..." ;;;
  df <- trade_rows countries ;;
  to_sql (map RTrade df) "trade_education" conn IfExistsReplace ;;;
  emit (LoadedLine (length df) "trade/education records").

(** ** [main] *)

Definition tables : list string :=
  [ "country_metadata"; "gdp_data"; "inequality_metrics";
    "poverty_indicators"; "trade_education" ].

(** [s * n] on a string. *)
Fixpoint str_mul (s : string) (n : nat) : string :=
  match n with
  | O => ""
  | S n' => s ++ str_mul s n'
  end.

Definition rule : string := str_mul "=" 70.

(** The texts [main] prints, one per call of [print], without the blank
    lines and the check marks. *)
Definition banner : list string :=
  [ rule;
    "BASIC GLOBAL INEQUALITY DATABASE LOADER";
    "Sample data for SQL portfolio demonstration";
    rule ].

Definition summary_header : list string :=
  [ rule; "DATA LOADING SUMMARY"; rule ].

Definition next_steps : list string :=
  [ "Database successfully created: " ++ DB_PATH;
    rule;
    "NEXT STEPS";
    rule;
    "1. Open DB Browser for SQLite";
    "2. Load global_inequality.db";
    "3. Run queries from queries.sql";
    "4. Export results and build visualizations";
    "Note: This is SAMPLE data for demonstration.";
    "For real data, see instructions in README.md" ].

Definition print_all (texts : list string) : M unit :=
  for_each texts (fun text _ => print text) tt.

(** The body of the [try] block. *)
Definition main_try (conn : connection) : M unit :=
  print "Creating database schema..." ;;;
  text <- open_read "schema.sql" ;;
  executescript conn text ;;;
  print "Schema created" ;;;
  countries <- load_country_metadata conn ;;
  load_gdp_data conn countries ;;;
  load_inequality_data conn countries ;;;
  load_poverty_data conn countries ;;;
  load_trade_education conn countries ;;;
  print_all summary_header ;;;
  for_each tables (fun table _ =>
    count <- read_count table conn ;;
    emit (CountLine table count)) tt ;;;
  print_all next_steps.

(** The [except Exception as e] block. *)
Definition main_except (e : exn) : M unit :=
  emit (ErrorLine e) ;;;
  emit (TracebackLine e).

Definition main : M unit :=
  print_all banner ;;;
  conn <- sqlite3_connect DB_PATH ;;
  try_finally
    (try_except (main_try conn) main_except)
    (conn_close conn).

End Program.

(* ===================================================================== *)
(** * Vocabulary of the statements *)
(* ===================================================================== *)

(** ** Effects *)

(** A computation that touches nothing but the generator's position. *)
Definition only_rng (w w' : world) : Prop :=
  db w' = db w /\ console w' = console w /\ conn_open w' = conn_open w.

Definition frame {A} (m : M A) : Prop :=
  forall w, only_rng w (snd (m w)).

(** A computation that leaves the database file as it is. *)
Definition keeps_db {A} (m : M A) : Prop :=
  forall w, db (snd (m w)) = db w.

(** How often the line [s] occurs in an output. *)
Definition count_line (s : string) (evs : list event) : nat :=
  length (List.filter (fun e => match e with
                                | Line t => String.eqb t s
                                | _ => false
                                end) evs).

(** A computation that prints nothing. *)
Definition quiet {A} (m : M A) : Prop :=
  forall w, console (snd (m w)) = console w.

(** A computation that prints the line [s] at most [n] times, however it
    ends. *)
Definition prints_at_most {A} (s : string) (n : nat) (m : M A) : Prop :=
  forall w, exists evs,
    console (snd (m w)) = (console w ++ evs)%list /\ (count_line s evs <= n)%nat.

(** A computation that raises nothing. *)
Definition returns {A} (m : M A) : Prop :=
  forall w, exists a w', m w = (Ok a, w').

(** The run of a loop that appends one block per item: the block of each
    item with the world before and after it. *)
Inductive loop_trace {A R} (P : A -> world -> list R -> world -> Prop) :
    world -> list A -> list (list R) -> world -> Prop :=
| loop_trace_nil w : loop_trace P w [] [] w
| loop_trace_cons w x new w1 xs blocks w' :
    P x w new w1 ->
    loop_trace P w1 xs blocks w' ->
    loop_trace P w (x :: xs) (new :: blocks) w'.

(** ** The catalog and sample inputs *)

(** The country frame the hardcoded dict yields. *)
Definition catalog : list country :=
  Eval vm_compute in
    match DataFrame countries_data with
    | Ok df => df
    | Raise _ => []
    end.

(** The catalog countries the poverty table covers. *)
Definition non_high_income (c : country) : bool :=
  negb (String.eqb (income_group c) "High income").

(** A sample run: every draw is one half, nothing in the environment fails,
    the database file is new. *)
Definition sample_rnd (n : nat) : Q := 1 # 2.

(** Draws that put the first base of a country high and the second low. *)
Definition skewed_rnd (n : nat) : Q :=
  match (n mod 3)%nat with
  | O => 9 # 10
  | S O => 1 # 10
  | _ => 1 # 2
  end.

(** Draws that differ from [sample_rnd] from the fifth on. *)
Definition redrawn_rnd (n : nat) : Q :=
  if (n <? 4)%nat then 1 # 2 else 1 # 4.

Definition sample_env : environment :=
  Environment None (Ok "CREATE TABLE IF NOT EXISTS country_metadata (country_code TEXT);")
    (fun _ d => (Ok tt, d)) (fun _ _ => None).

(** An environment in which writing [inequality_metrics] fails. *)
Definition failing_env : environment :=
  Environment None (Ok "CREATE TABLE IF NOT EXISTS country_metadata (country_code TEXT);")
    (fun _ d => (Ok tt, d))
    (fun name _ =>
       if String.eqb name "inequality_metrics"
       then Some (DatabaseError "database or disk is full")
       else None).

Definition new_world : world := World 0 ∅ [] false.

Definition sample_conn : connection := Connection DB_PATH.

(** ** The GDP table *)

(** The growth range of an income group outside 2020. *)
Definition growth_range_of (income_group : string) : Q * Q :=
  if String.eqb income_group "High income" then (1, 3)
  else if String.eqb income_group "Upper middle income" then (3, 7)
  else if String.eqb income_group "Lower middle income" then (4, 8)
  else (3, 6).

(** The GDP row of country [c] in [year], from the base of the country and
    the draw number [k]: the growth is that one draw, from [-5, -2] in 2020,
    and it alone is raised to the number of years elapsed. *)
Definition gdp_row (rnd : nat -> Q) (c : country) (base_gdp : Q) (year : Z)
    (k : nat) : gdp_record :=
  let '(lo, hi) := if (year =? 2020)%Z then (-5, -2)
                   else growth_range_of (income_group c) in
  let growth := uniform_value lo hi (rnd k) in
  GdpRecord (country_code c) year
    (round2 (base_gdp * (1 + growth / 100) ^ (year - 2015)))
    None (round2 growth).

(** The draw that gives the growth of [year] in a block whose first draw,
    the base, is the draw number [pos]: one draw per year, and in 2020 a
    second one that replaces the first. *)
Definition growth_draw (pos : nat) (year : Z) : nat :=
  (pos + 1 + Z.to_nat (year - 2015) + (if (2020 <=? year)%Z then 1 else 0))%nat.

(** The GDP rows of country [c] when its base is the draw number [pos]. *)
Definition gdp_block_at (rnd : nat -> Q) (c : country) (pos : nat)
    (block : list gdp_record) : Prop :=
  exists min_gdp max_gdp,
    gdp_ranges !! income_group c = Some (min_gdp, max_gdp) /\
    block = map (fun year =>
                   gdp_row rnd c (uniform_value min_gdp max_gdp (rnd pos)) year
                     (growth_draw pos year))
              (range 2015 2024).

(** ** The poverty table *)

(** The decay the poverty loops apply in [year]. *)
Definition reduction_factor (year : Z) : Q :=
  1 - (inject_Z (year - 2015) / 8 * 0.15).

(** What the poverty loops append for country [c] in [year], from the three
    bases of the country. *)
Definition poverty_row_of (c : country) (base_215 base_365 base_685 : Q)
    (year : Z) (r : poverty_record) : Prop :=
  pov_country_code r = country_code c /\
  pov_year r = year /\
  poverty_headcount_215_pct r = round2 (base_215 * reduction_factor year) /\
  poverty_headcount_365_pct r = round2 (base_365 * reduction_factor year) /\
  poverty_headcount_685_pct r = round2 (base_685 * reduction_factor year).

(** The three sampling ranges of an income group, as
    [(lo215, hi215, lo365, hi365, lo685, hi685)]. *)
Definition poverty_ranges : list (Q * Q * Q * Q * Q * Q) :=
  [ (40, 70, 60, 85, 75, 95);
    (10, 40, 25, 60, 50, 80);
    (1, 15, 5, 30, 15, 50) ].

(** The rows of one country: none outside the three groups, else three
    bases drawn once and one row per survey year. *)
Definition poverty_block_of (rnd : nat -> Q) (c : country)
    (block : list poverty_record) : Prop :=
  (str_in (income_group c)
     ["Low income"; "Lower middle income"; "Upper middle income"] = false /\
   block = []) \/
  (str_in (income_group c)
     ["Low income"; "Lower middle income"; "Upper middle income"] = true /\
   exists lo215 hi215 lo365 hi365 lo685 hi685 k1 k2 k3,
     In (lo215, hi215, lo365, hi365, lo685, hi685) poverty_ranges /\
     Forall2 (poverty_row_of c (uniform_value lo215 hi215 (rnd k1))
                (uniform_value lo365 hi365 (rnd k2))
                (uniform_value lo685 hi685 (rnd k3)))
       survey_years block).

(** ** The trade and education table *)

(** The sampling ranges of the two enrollment bases and of the expenditure
    base of an income group, as [(slo, shi, tlo, thi, glo, ghi)]. *)
Definition enrollment_ranges_of (income_group : string) : Q * Q * Q * Q * Q * Q :=
  if String.eqb income_group "High income" then (95, 105, 60, 90, 4, 6)
  else if String.eqb income_group "Upper middle income" then (75, 95, 30, 60, 3.5, 5.5)
  else if String.eqb income_group "Lower middle income" then (50, 80, 15, 40, 3, 5)
  else (30, 60, 5, 20, 2, 4).

(** What the trade and education loops append for country [c] in [year],
    from the four bases of the country: the two enrollment rates are the
    base plus the linear term; trade and expenditure add one draw each. *)
Definition trade_row_of (rnd : nat -> Q) (c : country)
    (base_trade sec_enrollment ter_enrollment gov_edu_exp : Q)
    (year : Z) (r : trade_record) : Prop :=
  te_country_code r = country_code c /\
  te_year r = year /\
  secondary_enrollment_rate r
    = round2 (py_min 105 (sec_enrollment + inject_Z (year - 2015) * 0.5)) /\
  tertiary_enrollment_rate r
    = round2 (ter_enrollment + inject_Z (year - 2015) * 0.3) /\
  exists k1 k2,
    trade_pct_gdp r = round2 (base_trade + uniform_value (-10) 10 (rnd k1)) /\
    government_expenditure_education_pct r
      = round2 (gov_edu_exp + uniform_value (-0.5) 0.5 (rnd k2)).

(** The rows of one country when its first draw is the draw number [pos]. *)
Definition trade_block_at (rnd : nat -> Q) (c : country) (pos : nat)
    (block : list trade_record) : Prop :=
  let '(slo, shi, tlo, thi, glo, ghi) := enrollment_ranges_of (income_group c) in
  Forall2 (trade_row_of rnd c
             (uniform_value 40 150 (rnd pos))
             (uniform_value slo shi (rnd (1 + pos)%nat))
             (uniform_value tlo thi (rnd (2 + pos)%nat))
             (uniform_value glo ghi (rnd (3 + pos)%nat)))
    (range 2015 2024) block.

(** ** The run *)

(** The number of rows of a table, [None] when there is no such table. *)
Definition row_count (d : database) (table : string) : option nat :=
  length <$> d !! table.

(** A run that went through prints this line last; a run that failed prints
    the traceback last. *)
Definition completed (w : world) : Prop :=
  last (console w) = Some (Line "For real data, see instructions in README.md").

(** The world [main] enters its [try] block in. *)
Definition entered (w : world) : world :=
  World (rng_pos w) (db w) (console w ++ map Line banner) true.

(** The line each stage of a run announces itself with. *)
Definition stage_lines : list string :=
  [ "Creating database schema...";
    "Loading country metadata...";
    "Creating GDP data...";
    "Creating inequality data...";
    "Creating poverty data...";
    "Creating trade and education data..." ].

(** ** Keys of the generated tables *)

(** The keys of a table that holds one row per code of [codes] and year of
    [years], code by code. *)
Definition panel (codes : list string) (years : list Z) : list (string * Z) :=
  concat (map (fun code => map (fun year => (code, year)) years) codes).

Definition gdp_key (r : gdp_record) : string * Z :=
  (gdp_country_code r, gdp_year r).

Definition inequality_key (r : inequality_record) : string * Z :=
  (ineq_country_code r, ineq_year r).

Definition poverty_key (r : poverty_record) : string * Z :=
  (pov_country_code r, pov_year r).

Definition trade_key (r : trade_record) : string * Z :=
  (te_country_code r, te_year r).

(** ** The inequality table *)

(** The inequality row of country [c] in [year], from the base of the
    country and the three draws of the row, of which [k] is the first. *)
Definition inequality_row_of (rnd : nat -> Q) (c : country) (base_gini : Q)
    (year : Z) (k : nat) : inequality_record :=
  let gini := py_max 20 (py_min 70 (base_gini + uniform_value (-3) 3 (rnd k))) in
  let lowest_20 := uniform_value 4 9 (rnd (1 + k)%nat) in
  let highest_20 := uniform_value 40 55 (rnd (2 + k)%nat) in
  InequalityRecord (country_code c) year (round2 gini)
    (round2 lowest_20) (round2 highest_20)
    (round2 (highest_20 / (lowest_20 * 2))).

(** The first of the three draws of the row of [year] in a block whose
    first draw, the base, is the draw number [pos]: the surveys are two
    years apart. *)
Definition survey_draw (pos : nat) (year : Z) : nat :=
  (pos + 1 + 3 * Z.to_nat ((year - 2015) / 2))%nat.

(** The inequality rows of country [c] when its base is the draw number
    [pos]. *)
Definition inequality_block_at (rnd : nat -> Q) (c : country) (pos : nat)
    (block : list inequality_record) : Prop :=
  exists min_gini max_gini,
    gini_ranges !! region c = Some (min_gini, max_gini) /\
    block = map (fun year =>
                   inequality_row_of rnd c
                     (uniform_value min_gini max_gini (rnd pos)) year
                     (survey_draw pos year))
              survey_years.

(** ** The poverty table, continued *)

(** The countries [load_poverty_data] generates rows for. *)
Definition poverty_covered (c : country) : bool :=
  str_in (income_group c)
    ["Low income"; "Lower middle income"; "Upper middle income"].

(** ** The run, continued *)

(** The key of a row: its country code and, in the tables that have one,
    its year. *)
Definition row_key (r : row) : string * option Z :=
  match r with
  | RCountry c => (country_code c, None)
  | RGdp r => (gdp_country_code r, Some (gdp_year r))
  | RInequality r => (ineq_country_code r, Some (ineq_year r))
  | RPoverty r => (pov_country_code r, Some (pov_year r))
  | RTrade r => (te_country_code r, Some (te_year r))
  end.

(** What a run that goes through prints. *)
Definition completed_output : list event :=
  (map Line banner
   ++ [ Line "Creating database schema...";
        Line "Schema created";
        Line "Loading country metadata...";
        LoadedLine 48 "countries";
        Line "Creating GDP data...";
        LoadedLine 432 "GDP records";
        Line "Creating inequality data...";
        LoadedLine 240 "inequality records";
        Line "Creating poverty data...";
        LoadedLine 110 "poverty records";
        Line "Creating trade and education data...";
        LoadedLine 432 "trade/education records" ]
   ++ map Line summary_header
   ++ [ CountLine "country_metadata" 48;
        CountLine "gdp_data" 432;
        CountLine "inequality_metrics" 240;
        CountLine "poverty_indicators" 110;
        CountLine "trade_education" 432 ]
   ++ map Line next_steps)%list.

(** A computation whose result and draws depend on the world it starts in
    through the position of the generator alone. *)
Definition reads_rng_only {A} (m : M A) : Prop :=
  forall w v,
    rng_pos w = rng_pos v ->
    fst (m w) = fst (m v) /\ rng_pos (snd (m w)) = rng_pos (snd (m v)).

(** An environment in which the schema script fails. *)
Definition bad_script_env : environment :=
  Environment None (Ok "CREATE TABEL country_metadata;")
    (fun _ d => (Raise (DatabaseError "near TABEL: syntax error"), d))
    (fun _ _ => None).

(** An environment in which the schema file cannot be read. *)
Definition no_schema_env : environment :=
  Environment None (Raise (OSError "schema.sql"))
    (fun _ d => (Ok tt, d)) (fun _ _ => None).

(** ** Draws of the poverty and of the trade and education table *)

(** The three sampling ranges of an income group the poverty table covers,
    as [(lo215, hi215, lo365, hi365, lo685, hi685)]. *)
Definition poverty_ranges_of (income_group : string) : Q * Q * Q * Q * Q * Q :=
  if String.eqb income_group "Low income" then (40, 70, 60, 85, 75, 95)
  else if String.eqb income_group "Lower middle income" then (10, 40, 25, 60, 50, 80)
  else (1, 15, 5, 30, 15, 50).

(** The draws the poverty loops consume for one country. *)
Definition poverty_draws (c : country) : nat :=
  if poverty_covered c then 3 else 0.

(** The draws the poverty loops have consumed when they reach the country
    number [i] of the frame. *)
Definition poverty_draws_before (countries : list country) (i : nat) : nat :=
  list_sum (map poverty_draws (take i countries)).

(** The first of the two draws of the row of [year] in a block of the trade
    and education table whose first draw is the draw number [pos]: four
    draws per country, then two per year. *)
Definition noise_draw (pos : nat) (year : Z) : nat :=
  (pos + 4 + 2 * Z.to_nat (year - 2015))%nat.

(** Draws, each of them a double, that put the first base of a country high
    and the second low. *)
Definition skewed_draws (n : nat) : Q :=
  match (n mod 3)%nat with
  | O => fl (9 # 10)
  | S O => fl (1 # 10)
  | _ => 1 # 2
  end.

(* ===================================================================== *)
(** * The generators in double precision *)
(* ===================================================================== *)

(** The loops of the four generators once more, with the arithmetic of
    Python floats: every operation rounds its exact result to the nearest
    double. The literals 0.5, 3.5 and 5.5 are doubles; 0.15 and 0.3 are not
    and stand for the nearest double. *)
Module Double.

Section Program.

(** The successive values of [random.random()]. *)
Variable rnd : nat -> Q.
Variable env : environment.

(** [x ** n] on a float and an int: the [pow] of the C library. *)
Variable pow : Q -> Z -> Q.

(** The value [random.uniform(a, b)] computes from the draw [u]:
    [a + (b - a) * u]. *)
Definition uniform_value (a b u : Q) : Q := fadd a (fmul (fsub b a) u).

(** [random.uniform(a, b)] *)
Definition uniform (a b : Q) : M Q :=
  u <- random rnd ;; ret (uniform_value a b u).

(** [a / b] on floats: a zero divisor raises. *)
Definition true_div (a b : Q) : M Q :=
  if Qeq_bool b 0 then raise ZeroDivisionError else ret (fdiv a b).

(** ** [load_gdp_data] *)

Definition gdp_rows (countries : list country) : M (list gdp_record) :=
  for_each countries (fun country data =>
    let country_code := country_code country in
    let income_group := income_group country in
    bounds <- dict_get gdp_ranges income_group ;;
    let '(min_gdp, max_gdp) := bounds in
    base_gdp <- uniform min_gdp max_gdp ;;
    for_each (range 2015 2024) (fun year data =>
      growth <- (if String.eqb income_group "High income" then uniform 1 3
                 else if String.eqb income_group "Upper middle income" then uniform 3 7
                 else if String.eqb income_group "Lower middle income" then uniform 4 8
                 else uniform 3 6) ;;
      growth <- (if (year =? 2020)%Z then uniform (-5) (-2) else ret growth) ;;
      let years_since_base := (year - 2015)%Z in
      let gdp := fmul base_gdp (pow (fadd 1 (fdiv growth 100)) years_since_base) in
      ret (data ++ [ GdpRecord country_code year (round2 gdp) None (round2 growth) ])%list)
      data) [].

Definition load_gdp_data (conn : connection) (countries : list country) : M unit :=
  print "Creating GDP data..." ;;;
  df <- gdp_rows countries ;;
  to_sql env (map RGdp df) "gdp_data" conn IfExistsReplace ;;;
  emit (LoadedLine (length df) "GDP records").

(** ** [load_inequality_data] *)

Definition inequality_rows (countries : list country) : M (list inequality_record) :=
  let years := survey_years in
  for_each countries (fun country data =>
    let country_code := country_code country in
    let region := region country in
    bounds <- dict_get gini_ranges region ;;
    let '(min_gini, max_gini) := bounds in
    base_gini <- uniform min_gini max_gini ;;
    for_each years (fun year data =>
      noise <- uniform (-3) 3 ;;
      let gini := fadd base_gini noise in
      let gini := py_max 20 (py_min 70 gini) in
      lowest_20 <- uniform 4 9 ;;
      highest_20 <- uniform 40 55 ;;
      ratio <- true_div highest_20 (fmul lowest_20 2) ;;
      let palma := round2 ratio in
      ret (data ++ [ InequalityRecord country_code year (round2 gini)
                       (round2 lowest_20) (round2 highest_20) palma ])%list)
      data) [].

Definition load_inequality_data (conn : connection) (countries : list country) : M unit :=
  print "Creating inequality data..." ;;;
  df <- inequality_rows countries ;;
  to_sql env (map RInequality df) "inequality_metrics" conn IfExistsReplace ;;;
  emit (LoadedLine (length df) "inequality records").

(** ** [load_poverty_data] *)

Definition poverty_rows (countries : list country) : M (list poverty_record) :=
  let years := survey_years in
  for_each countries (fun country data =>
    let country_code := country_code country in
    let income_group := income_group country in
    if str_in income_group
         ["Low income"; "Lower middle income"; "Upper middle income"]
    then
      bases <-
        (if String.eqb income_group "Low income" then
           b215 <- uniform 40 70 ;;
           b365 <- uniform 60 85 ;;
           b685 <- uniform 75 95 ;;
           ret (b215, b365, b685)
         else if String.eqb income_group "Lower middle income" then
           b215 <- uniform 10 40 ;;
           b365 <- uniform 25 60 ;;
           b685 <- uniform 50 80 ;;
           ret (b215, b365, b685)
         else
           b215 <- uniform 1 15 ;;
           b365 <- uniform 5 30 ;;
           b685 <- uniform 15 50 ;;
           ret (b215, b365, b685)) ;;
      let '(base_215, base_365, base_685) := bases in
      for_each years (fun year data =>
        let years_since_2015 := fdiv (inject_Z (year - 2015)) 8 in
        let reduction_factor := fsub 1 (fmul years_since_2015 (fl 0.15)) in
        ret (data ++ [ PovertyRecord country_code year
                         (round2 (fmul base_215 reduction_factor))
                         (round2 (fmul base_365 reduction_factor))
                         (round2 (fmul base_685 reduction_factor))
                         None ])%list)
        data
    else ret data) [].

Definition load_poverty_data (conn : connection) (countries : list country) : M unit :=
  print "Creating poverty data..." ;;;
  df <- poverty_rows countries ;;
  to_sql env (map RPoverty df) "poverty_indicators" conn IfExistsReplace ;;;
  emit (LoadedLine (length df) "poverty records").

(** ** [load_trade_education] *)

Definition trade_rows (countries : list country) : M (list trade_record) :=
  for_each countries (fun country data =>
    let country_code := country_code country in
    let income_group := income_group country in
    base_trade <- uniform 40 150 ;;
    bases <-
      (if String.eqb income_group "High income" then
         s <- uniform 95 105 ;;
         t <- uniform 60 90 ;;
         g <- uniform 4 6 ;;
         ret (s, t, g)
       else if String.eqb income_group "Upper middle income" then
         s <- uniform 75 95 ;;
         t <- uniform 30 60 ;;
         g <- uniform 3.5 5.5 ;;
         ret (s, t, g)
       else if String.eqb income_group "Lower middle income" then
         s <- uniform 50 80 ;;
         t <- uniform 15 40 ;;
         g <- uniform 3 5 ;;
         ret (s, t, g)
       else
         s <- uniform 30 60 ;;
         t <- uniform 5 20 ;;
         g <- uniform 2 4 ;;
         ret (s, t, g)) ;;
    let '(sec_enrollment, ter_enrollment, gov_edu_exp) := bases in
    for_each (range 2015 2024) (fun year data =>
      let years_since_2015 := inject_Z (year - 2015) in
      let sec_improvement := fadd sec_enrollment (fmul years_since_2015 0.5) in
      let ter_improvement := fadd ter_enrollment (fmul years_since_2015 (fl 0.3)) in
      trade_noise <- uniform (-10) 10 ;;
      edu_noise <- uniform (-0.5) 0.5 ;;
      ret (data ++ [ TradeRecord country_code year
                       (round2 (fadd base_trade trade_noise))
                       (round2 (py_min 105 sec_improvement))
                       (round2 ter_improvement)
                       (round2 (fadd gov_edu_exp edu_noise)) ])%list)
      data) [].

Definition load_trade_education (conn : connection) (countries : list country) : M unit :=
  print "Creating trade and education data..." ;;;
  df <- trade_rows countries ;;
  to_sql env (map RTrade df) "trade_education" conn IfExistsReplace ;;;
  emit (LoadedLine (length df) "trade/education records").

End Program.

(** ** The rows, draw by draw *)

(** The GDP row of country [c] in [year], from the base of the country and
    the draw number [k]: the growth is that one draw, from [-5, -2] in 2020,
    and it alone is raised to the number of years elapsed. *)
Definition gdp_row (rnd : nat -> Q) (pow : Q -> Z -> Q) (c : country)
    (base_gdp : Q) (year : Z) (k : nat) : gdp_record :=
  let '(lo, hi) := if (year =? 2020)%Z then (-5, -2)
                   else growth_range_of (income_group c) in
  let growth := uniform_value lo hi (rnd k) in
  GdpRecord (country_code c) year
    (round2 (fmul base_gdp (pow (fadd 1 (fdiv growth 100)) (year - 2015)%Z)))
    None (round2 growth).

(** The GDP rows of country [c] when its base is the draw number [pos]. *)
Definition gdp_block_at (rnd : nat -> Q) (pow : Q -> Z -> Q) (c : country)
    (pos : nat) (block : list gdp_record) : Prop :=
  exists min_gdp max_gdp,
    gdp_ranges !! income_group c = Some (min_gdp, max_gdp) /\
    block = map (fun year =>
                   gdp_row rnd pow c (uniform_value min_gdp max_gdp (rnd pos))
                     year (growth_draw pos year))
              (range 2015 2024).

(** The inequality row of country [c] in [year], from the base of the
    country and the three draws of the row, of which [k] is the first. *)
Definition inequality_row_of (rnd : nat -> Q) (c : country) (base_gini : Q)
    (year : Z) (k : nat) : inequality_record :=
  let gini := py_max 20 (py_min 70 (fadd base_gini (uniform_value (-3) 3 (rnd k)))) in
  let lowest_20 := uniform_value 4 9 (rnd (1 + k)%nat) in
  let highest_20 := uniform_value 40 55 (rnd (2 + k)%nat) in
  InequalityRecord (country_code c) year (round2 gini)
    (round2 lowest_20) (round2 highest_20)
    (round2 (fdiv highest_20 (fmul lowest_20 2))).

(** The inequality rows of country [c] when its base is the draw number
    [pos]. *)
Definition inequality_block_at (rnd : nat -> Q) (c : country) (pos : nat)
    (block : list inequality_record) : Prop :=
  exists min_gini max_gini,
    gini_ranges !! region c = Some (min_gini, max_gini) /\
    block = map (fun year =>
                   inequality_row_of rnd c
                     (uniform_value min_gini max_gini (rnd pos)) year
                     (survey_draw pos year))
              survey_years.

(** The decay the poverty loops apply in [year]. *)
Definition reduction_factor (year : Z) : Q :=
  fsub 1 (fmul (fdiv (inject_Z (year - 2015)) 8) (fl 0.15)).

(** The poverty row of country [c] in [year], from the three bases of the
    country. *)
Definition poverty_row (c : country) (base_215 base_365 base_685 : Q)
    (year : Z) : poverty_record :=
  PovertyRecord (country_code c) year
    (round2 (fmul base_215 (reduction_factor year)))
    (round2 (fmul base_365 (reduction_factor year)))
    (round2 (fmul base_685 (reduction_factor year)))
    None.

(** The poverty rows of country [c] when the next draw is the draw number
    [pos]: none outside the three groups, else three bases drawn once and
    one row per survey year. *)
Definition poverty_block_at (rnd : nat -> Q) (c : country) (pos : nat)
    (block : list poverty_record) : Prop :=
  if poverty_covered c then
    let '(lo215, hi215, lo365, hi365, lo685, hi685) :=
      poverty_ranges_of (income_group c) in
    block = map (poverty_row c
                   (uniform_value lo215 hi215 (rnd pos))
                   (uniform_value lo365 hi365 (rnd (1 + pos)%nat))
                   (uniform_value lo685 hi685 (rnd (2 + pos)%nat)))
              survey_years
  else block = [].

(** The trade and education row of country [c] in [year], from the four
    bases of the country and the two draws of the row, of which [k] is the
    first: the two enrollment rates are the base plus the linear term; trade
    and expenditure add one draw each. *)
Definition trade_row (rnd : nat -> Q) (c : country)
    (base_trade sec_enrollment ter_enrollment gov_edu_exp : Q)
    (year : Z) (k : nat) : trade_record :=
  TradeRecord (country_code c) year
    (round2 (fadd base_trade (uniform_value (-10) 10 (rnd k))))
    (round2 (py_min 105 (fadd sec_enrollment (fmul (inject_Z (year - 2015)) 0.5))))
    (round2 (fadd ter_enrollment (fmul (inject_Z (year - 2015)) (fl 0.3))))
    (round2 (fadd gov_edu_exp (uniform_value (-0.5) 0.5 (rnd (1 + k)%nat)))).

(** The rows of one country when its first draw is the draw number [pos]. *)
Definition trade_block_at (rnd : nat -> Q) (c : country) (pos : nat)
    (block : list trade_record) : Prop :=
  let '(slo, shi, tlo, thi, glo, ghi) := enrollment_ranges_of (income_group c) in
  block = map (fun year =>
                 trade_row rnd c
                   (uniform_value 40 150 (rnd pos))
                   (uniform_value slo shi (rnd (1 + pos)%nat))
                   (uniform_value tlo thi (rnd (2 + pos)%nat))
                   (uniform_value glo ghi (rnd (3 + pos)%nat))
                   year (noise_draw pos year))
              (range 2015 2024).

(** The rows the trade and education loops return for one country on a new
    world. *)
Definition trade_rows_of (rnd : nat -> Q) (c : country) : list trade_record :=
  match trade_rows rnd [c] new_world with
  | (Ok rows, _) => rows
  | (Raise _, _) => []
  end.

(** An attribute of the trade and education rows includes per-year noise
    when redrawing the per-year draws of a country, its four per-country
    draws kept, can change the attribute. *)
Definition includes_per_year_noise (attr : trade_record -> Q) : Prop :=
  exists (c : country) (rnd1 rnd2 : nat -> Q),
    (forall n, 0 <= rnd1 n < 1) /\
    (forall n, 0 <= rnd2 n < 1) /\
    (forall n, (n < 4)%nat -> rnd1 n = rnd2 n) /\
    map attr (trade_rows_of rnd1 c) <> map attr (trade_rows_of rnd2 c).

(** A [pow] that rounds the exact power to the nearest double. *)
Definition pow_rounded (x : Q) (n : Z) : Q := fl (x ^ n).

End Double.

(* ===================================================================== *)
(** * Rounding and clamping *)
(* ===================================================================== *)

Lemma Qcompare_cases (a b : Q) :
  (Qcompare a b = Eq /\ a == b) \/
  (Qcompare a b = Lt /\ a < b) \/
  (Qcompare a b = Gt /\ b < a).
Proof.
  destruct (Qcompare a b) eqn:E.
  - left. split; [reflexivity | now apply Qeq_alt].
  - right; left. split; [reflexivity | now apply Qlt_alt].
  - right; right. split; [reflexivity | now apply Qgt_alt].
Qed.

Lemma inject_Z_succ (z : Z) : inject_Z (z + 1) == inject_Z z + 1.
Proof. rewrite inject_Z_plus. reflexivity. Qed.

(** The rounded value is within one half of the argument. *)
Lemma round_half_even_near (x : Q) :
  x - (1 # 2) <= inject_Z (round_half_even x) <= x + (1 # 2).
Proof.
  unfold round_half_even.
  pose proof (Qfloor_le x) as Hlo.
  pose proof (Qlt_floor x) as Hhi.
  rewrite inject_Z_succ in Hhi.
  destruct (Qcompare_cases (x - inject_Z (Qfloor x)) (1 # 2))
    as [[-> H] | [[-> H] | [-> H]]].
  - destruct (Z.even (Qfloor x)); rewrite ?inject_Z_succ; lra.
  - lra.
  - rewrite inject_Z_succ. lra.
Qed.

Lemma round_half_even_comp (x y : Q) :
  x == y -> round_half_even x = round_half_even y.
Proof.
  intros H. unfold round_half_even.
  rewrite (Qfloor_comp x y H).
  assert (Hc : Qcompare (x - inject_Z (Qfloor y)) (1 # 2)
               = Qcompare (y - inject_Z (Qfloor y)) (1 # 2)).
  { apply Qcompare_comp; [rewrite H|]; reflexivity. }
  rewrite Hc. reflexivity.
Qed.

Lemma inject_Z_lt_succ (a b : Z) : (a < b)%Z -> inject_Z a + 1 <= inject_Z b.
Proof.
  intros H. rewrite <- inject_Z_succ. rewrite <- Zle_Qle. lia.
Qed.

Lemma round_half_even_mono (x y : Q) :
  x <= y -> (round_half_even x <= round_half_even y)%Z.
Proof.
  intros Hxy.
  pose proof (Qfloor_resp_le x y Hxy) as Hf.
  destruct (Z.eq_dec (Qfloor x) (Qfloor y)) as [E | N].
  - unfold round_half_even. rewrite E.
    destruct (Qcompare_cases (x - inject_Z (Qfloor y)) (1 # 2))
      as [[-> Hx] | [[-> Hx] | [-> Hx]]];
    destruct (Qcompare_cases (y - inject_Z (Qfloor y)) (1 # 2))
      as [[-> Hy] | [[-> Hy] | [-> Hy]]];
    try destruct (Z.even (Qfloor y)); try lia; exfalso; lra.
  - assert (Hlt : (Qfloor x < Qfloor y)%Z) by lia.
    assert (Hx : (round_half_even x <= Qfloor x + 1)%Z).
    { unfold round_half_even.
      destruct (Qcompare _ _); try destruct (Z.even _); lia. }
    assert (Hy : (Qfloor y <= round_half_even y)%Z).
    { unfold round_half_even.
      destruct (Qcompare _ _); try destruct (Z.even _); lia. }
    lia.
Qed.

Lemma round_half_even_Z (z : Z) : round_half_even (inject_Z z) = z.
Proof.
  unfold round_half_even. rewrite Qfloor_Z.
  destruct (Qcompare_cases (inject_Z z - inject_Z z) (1 # 2))
    as [[-> H] | [[-> H] | [-> H]]]; try reflexivity; exfalso; lra.
Qed.

Lemma Qmake_100 (z : Z) : z # 100 == inject_Z z / 100.
Proof.
  unfold Qeq, Qdiv, Qmult, Qinv, inject_Z. simpl. lia.
Qed.

Lemma round2_near (x : Q) : x - (1 # 200) <= round2 x <= x + (1 # 200).
Proof.
  unfold round2. rewrite Qmake_100.
  pose proof (round_half_even_near (x * 100)) as H.
  set (r := inject_Z (round_half_even (x * 100))) in *.
  split.
  - apply Qle_shift_div_l; lra.
  - apply Qle_shift_div_r; lra.
Qed.


Lemma round2_mono (x y : Q) : x <= y -> round2 x <= round2 y.
Proof.
  intros H. unfold round2.
  assert (Hz : (round_half_even (x * 100) <= round_half_even (y * 100))%Z).
  { apply round_half_even_mono. lra. }
  unfold Qle. simpl. lia.
Qed.

(** Whole numbers are fixed points of [round2]. *)
Lemma round2_Z (z : Z) : round2 (inject_Z z) == inject_Z z.
Proof.
  unfold round2.
  assert (H : inject_Z z * 100 == inject_Z (z * 100)).
  { rewrite inject_Z_mult. reflexivity. }
  rewrite (round_half_even_comp _ _ H), round_half_even_Z.
  unfold Qeq, inject_Z. simpl. lia.
Qed.

Lemma round2_le_Z (x : Q) (z : Z) : x <= inject_Z z -> round2 x <= inject_Z z.
Proof.
  intros H. rewrite <- (round2_Z z). now apply round2_mono.
Qed.

Lemma round2_ge_Z (x : Q) (z : Z) : inject_Z z <= x -> inject_Z z <= round2 x.
Proof.
  intros H. rewrite <- (round2_Z z). now apply round2_mono.
Qed.

Lemma round2_lt (x y : Q) : x + (1 # 100) < y -> round2 x < round2 y.
Proof.
  intros H.
  pose proof (round2_near x) as [_ Hx].
  pose proof (round2_near y) as [Hy _].
  lra.
Qed.

Lemma py_min_spec (a b : Q) :
  (b < a /\ py_min a b = b) \/ (a <= b /\ py_min a b = a).
Proof.
  unfold py_min.
  destruct (Qcompare_cases b a) as [[-> H] | [[-> H] | [-> H]]].
  - right. split; [lra | reflexivity].
  - left. split; [lra | reflexivity].
  - right. split; [lra | reflexivity].
Qed.

Lemma py_max_spec (a b : Q) :
  (a < b /\ py_max a b = b) \/ (b <= a /\ py_max a b = a).
Proof.
  unfold py_max.
  destruct (Qcompare_cases b a) as [[-> H] | [[-> H] | [-> H]]].
  - right. split; [lra | reflexivity].
  - right. split; [lra | reflexivity].
  - left. split; [lra | reflexivity].
Qed.

Lemma py_min_le_l (a b : Q) : py_min a b <= a.
Proof. destruct (py_min_spec a b) as [[H ->] | [H ->]]; lra. Qed.

(** [max(lo, min(hi, x))] stays in [lo, hi]. *)
Lemma clamp_bounds (lo hi x : Q) :
  lo <= hi -> lo <= py_max lo (py_min hi x) <= hi.
Proof.
  intros H.
  destruct (py_max_spec lo (py_min hi x)) as [[H1 ->] | [H1 ->]].
  - pose proof (py_min_le_l hi x). lra.
  - lra.
Qed.

Lemma uniform_value_range a b u :
  a <= b -> 0 <= u < 1 -> a <= uniform_value a b u <= b.
Proof. unfold uniform_value. intros. nra. Qed.

(* ===================================================================== *)
(** * Lists and ranges *)
(* ===================================================================== *)

Lemma Forall2_concat_Forall {A R} (P : R -> Prop) (xs : list A) (blocks : list (list R)) :
  Forall2 (fun _ new => Forall P new) xs blocks -> Forall P (concat blocks).
Proof.
  induction 1; simpl.
  - constructor.
  - apply Forall_app. auto.
Qed.

Lemma Forall2_concat_singletons {A R} (P : A -> R -> Prop) (xs : list A)
    (blocks : list (list R)) :
  Forall2 (fun x new => exists r, new = [r] /\ P x r) xs blocks ->
  Forall2 P xs (concat blocks).
Proof.
  induction 1 as [| x new xs blocks (r & -> & HP) _ IH]; simpl.
  - constructor.
  - constructor; assumption.
Qed.

Lemma Forall2_In_r {A R} (P : A -> R -> Prop) (xs : list A) (rs : list R) r :
  Forall2 P xs rs -> In r rs -> exists x, In x xs /\ P x r.
Proof.
  induction 1 as [| x r0 xs rs HP _ IH]; intros Hin.
  - destruct Hin.
  - destruct Hin as [<- | Hin].
    + exists x. split; [now left | exact HP].
    + destruct (IH Hin) as (x' & Hx' & HP'). exists x'. split; [now right | exact HP'].
Qed.

Lemma In_concat_block {A R} (B : A -> list R -> Prop) (xs : list A)
    (blocks : list (list R)) r :
  Forall2 B xs blocks -> In r (concat blocks) ->
  exists x new, In x xs /\ B x new /\ In r new.
Proof.
  intros HF Hin. apply in_concat in Hin as (new & Hnew & Hr).
  destruct (Forall2_In_r _ _ _ _ HF Hnew) as (x & Hx & HB).
  exists x, new. auto.
Qed.

Lemma Forall2_map_self {A R} (P : A -> R -> Prop) (f : A -> R) (xs : list A) :
  (forall x, In x xs -> P x (f x)) -> Forall2 P xs (map f xs).
Proof.
  induction xs as [| x xs IH]; intros H; simpl; constructor.
  - apply H. now left.
  - apply IH. intros y Hy. apply H. now right.
Qed.

Lemma Forall2_map_eq {A R V} (P : A -> R -> Prop) (f : R -> V) (g : A -> V)
    (xs : list A) (rs : list R) :
  (forall x r, P x r -> f r = g x) -> Forall2 P xs rs -> map f rs = map g xs.
Proof.
  intros Hfg. induction 1 as [| x r xs rs HP _ IH]; simpl.
  - reflexivity.
  - rewrite (Hfg x r HP), IH. reflexivity.
Qed.

Lemma Forall2_length_eq {A R} (P : A -> R -> Prop) (xs : list A) (rs : list R) :
  Forall2 P xs rs -> length rs = length xs.
Proof. induction 1; simpl; congruence. Qed.

Lemma Forall2_concat_length_sum {A R} (f : A -> nat) (xs : list A)
    (blocks : list (list R)) :
  Forall2 (fun x new => length new = f x) xs blocks ->
  length (concat blocks) = list_sum (map f xs).
Proof.
  induction 1 as [| x new xs blocks Hn _ IH]; simpl.
  - reflexivity.
  - rewrite length_app, IH, Hn. reflexivity.
Qed.

Lemma concat_length_const {R} (n : nat) (blocks : list (list R)) :
  Forall (fun block => length block = n) blocks ->
  length (concat blocks) = (n * length blocks)%nat.
Proof.
  induction 1 as [| block blocks Hn _ IH]; simpl.
  - lia.
  - rewrite length_app, IH, Hn. lia.
Qed.

Lemma list_sum_const {A} (n : nat) (xs : list A) :
  list_sum (map (fun _ => n) xs) = (n * length xs)%nat.
Proof. induction xs as [| x xs IH]; simpl; lia. Qed.

Lemma list_sum_filter {A} (p : A -> bool) (n : nat) (xs : list A) :
  list_sum (map (fun x => if p x then n else 0%nat) xs)
  = (n * length (List.filter p xs))%nat.
Proof.
  induction xs as [| x xs IH]; simpl; [lia |].
  destruct (p x); simpl; lia.
Qed.

Lemma NoDup_map_In_eq {A K} (f : A -> K) (xs : list A) a b :
  NoDup (map f xs) -> In a xs -> In b xs -> f a = f b -> a = b.
Proof.
  induction xs as [| x xs IH]; simpl; intros Hnd Ha Hb Hf.
  - destruct Ha.
  - inversion Hnd as [| ? ? Hnotin Hnd']; subst.
    destruct Ha as [-> | Ha], Hb as [-> | Hb]; auto.
    + exfalso. apply Hnotin. rewrite <- list_elem_of_In in Hb.
      apply list_elem_of_In. rewrite Hf. apply in_map. now apply list_elem_of_In.
    + exfalso. apply Hnotin.
      apply list_elem_of_In. rewrite <- Hf. now apply in_map.
Qed.

(** Two rows with one key lie in one block when the keys of the items are
    distinct and each block carries the key of its item. *)
Lemma same_key_same_block {A R K} (ka : A -> K) (kr : R -> K)
    (B : A -> list R -> Prop) (xs : list A) (blocks : list (list R)) r1 r2 :
  NoDup (map ka xs) ->
  (forall x new r, B x new -> In r new -> kr r = ka x) ->
  Forall2 B xs blocks ->
  In r1 (concat blocks) -> In r2 (concat blocks) -> kr r1 = kr r2 ->
  exists x new, In x xs /\ B x new /\ In r1 new /\ In r2 new.
Proof.
  intros Hnd Hkey HF. revert Hnd.
  induction HF as [| x new xs blocks HB HF IH]; intros Hnd H1 H2 Hk.
  - destruct H1.
  - inversion Hnd as [| ? ? Hnotin Hnd']; subst.
    assert (Hrest : forall r, In r (concat blocks) -> In (kr r) (map ka xs)).
    { intros r Hr.
      destruct (In_concat_block _ _ _ _ HF Hr) as (x' & new' & Hx' & HB' & Hr').
      rewrite (Hkey _ _ _ HB' Hr'). now apply in_map. }
    simpl in H1, H2. apply in_app_or in H1, H2.
    destruct H1 as [H1 | H1], H2 as [H2 | H2].
    + exists x, new. repeat split; auto. now left.
    + exfalso. apply Hnotin. apply list_elem_of_In.
      rewrite <- (Hkey _ _ _ HB H1), Hk. now apply Hrest.
    + exfalso. apply Hnotin. apply list_elem_of_In.
      rewrite <- (Hkey _ _ _ HB H2), <- Hk. now apply Hrest.
    + destruct (IH Hnd' H1 H2 Hk) as (x' & new' & Hx' & HB' & Hr1 & Hr2).
      exists x', new'. repeat split; auto. now right.
Qed.

Lemma In_range (a b y : Z) : In y (range a b) -> (a <= y < b)%Z.
Proof.
  unfold range. intros H. apply in_map_iff in H as (i & <- & Hi).
  apply in_seq in Hi. lia.
Qed.

Lemma range_2015_2024 :
  range 2015 2024 = [2015; 2016; 2017; 2018; 2019; 2020; 2021; 2022; 2023]%Z.
Proof. reflexivity. Qed.

Lemma inject_Z_elapsed (year : Z) :
  In year (range 2015 2024) -> 0 <= inject_Z (year - 2015) <= 8.
Proof.
  intros H. apply In_range in H.
  split.
  - change 0 with (inject_Z 0). rewrite <- Zle_Qle. lia.
  - change 8 with (inject_Z 8). rewrite <- Zle_Qle. lia.
Qed.

(* ===================================================================== *)
(** * The monad *)
(* ===================================================================== *)

Lemma bind_Ok_inv {A B} (m : M A) (k : A -> M B) w b w' :
  bind m k w = (Ok b, w') ->
  exists a w1, m w = (Ok a, w1) /\ k a w1 = (Ok b, w').
Proof.
  unfold bind. destruct (m w) as [[a | e] w1]; intros H.
  - eauto.
  - discriminate.
Qed.

Lemma bind_Raise_inv {A B} (m : M A) (k : A -> M B) w e w' :
  bind m k w = (Raise e, w') ->
  m w = (Raise e, w') \/
  exists a w1, m w = (Ok a, w1) /\ k a w1 = (Raise e, w').
Proof.
  unfold bind. destruct (m w) as [[a | e1] w1]; intros H.
  - right. eauto.
  - left. congruence.
Qed.

Lemma bind_Ok {A B} (m : M A) (k : A -> M B) w a w1 :
  m w = (Ok a, w1) -> bind m k w = k a w1.
Proof. unfold bind. now intros ->. Qed.

Lemma bind_ret {A B} (a : A) (k : A -> M B) w : bind (ret a) k w = k a w.
Proof. reflexivity. Qed.

Lemma uniform_Ok_inv rnd a b w v w' :
  uniform rnd a b w = (Ok v, w') ->
  v = uniform_value a b (rnd (rng_pos w)) /\
  w' = World (S (rng_pos w)) (db w) (console w) (conn_open w).
Proof. intros H. inversion H. auto. Qed.

Lemma uniform_eval rnd a b w :
  uniform rnd a b w =
  (Ok (uniform_value a b (rnd (rng_pos w))),
   World (S (rng_pos w)) (db w) (console w) (conn_open w)).
Proof. reflexivity. Qed.

Lemma true_div_Ok_inv a b w q w' :
  true_div a b w = (Ok q, w') -> q = a / b /\ w' = w /\ ~ b == 0.
Proof.
  unfold true_div. destruct (Qeq_bool b 0) eqn:E; intros H; inversion H; subst.
  repeat split. intros Hb. apply Qeq_bool_iff in Hb. congruence.
Qed.

Lemma true_div_eval a b w : ~ b == 0 -> true_div a b w = (Ok (a / b), w).
Proof.
  intros Hb. unfold true_div. destruct (Qeq_bool b 0) eqn:E.
  - apply Qeq_bool_iff in E. contradiction.
  - reflexivity.
Qed.


Lemma dict_get_Ok_inv {V} (d : gmap string V) k w v w' :
  dict_get d k w = (Ok v, w') -> d !! k = Some v /\ w' = w.
Proof.
  unfold dict_get. destruct (d !! k); intros H; inversion H; auto.
Qed.


(** Peel one [x <- m ;; k] off a run that returned. *)
Ltac peel H :=
  let a := fresh "v" in
  let w := fresh "w" in
  let H1 := fresh "Hstep" in
  apply bind_Ok_inv in H as (a & w & H1 & H);
  first
    [ apply uniform_Ok_inv in H1 as [-> ->]
    | apply true_div_Ok_inv in H1 as (-> & -> & H1)
    | apply dict_get_Ok_inv in H1 as [H1 ->]
    | idtac ].

(** ** Loops *)

(** A loop whose body only appends to [data] appends one block per item. *)
Lemma for_each_blocks {A R} (B : A -> list R -> Prop)
    (body : A -> list R -> M (list R)) (xs : list A) :
  (forall x data w data' w',
      In x xs -> body x data w = (Ok data', w') ->
      exists new, data' = (data ++ new)%list /\ B x new) ->
  forall data w data' w',
    for_each xs body data w = (Ok data', w') ->
    exists blocks, data' = (data ++ concat blocks)%list /\ Forall2 B xs blocks.
Proof.
  induction xs as [| x xs IH]; intros Hbody data w data' w' H.
  - inversion H; subst. exists []. simpl. rewrite app_nil_r. auto.
  - simpl in H. apply bind_Ok_inv in H as (d1 & w1 & H1 & H2).
    apply Hbody in H1 as (new & -> & HB); [| now left].
    apply IH in H2 as (blocks & -> & HF).
    + exists (new :: blocks). simpl. rewrite app_assoc. auto.
    + intros y d v d' v' Hy. apply Hbody. now right.
Qed.

(** Every row a run of a generator returns satisfies what each appended row
    satisfies. *)
Lemma for_each_rows {A R} (P : R -> Prop)
    (body : A -> list R -> M (list R)) (xs : list A) :
  (forall x data w data' w',
      In x xs -> body x data w = (Ok data', w') ->
      exists new, data' = (data ++ new)%list /\ Forall P new) ->
  forall data w data' w',
    for_each xs body data w = (Ok data', w') ->
    exists new, data' = (data ++ new)%list /\ Forall P new.
Proof.
  intros Hbody data w data' w' H.
  apply (for_each_blocks (fun _ new => Forall P new)) in H as (blocks & -> & HF);
    [| exact Hbody].
  exists (concat blocks). split; [reflexivity |].
  eapply Forall2_concat_Forall; eauto.
Qed.

(** A loop whose body appends exactly one row per item. *)
Lemma for_each_row_per_item {A R} (P : A -> R -> Prop)
    (body : A -> list R -> M (list R)) (xs : list A) :
  (forall x data w data' w',
      In x xs -> body x data w = (Ok data', w') ->
      exists r, data' = (data ++ [r])%list /\ P x r) ->
  forall data w data' w',
    for_each xs body data w = (Ok data', w') ->
    exists new, data' = (data ++ new)%list /\ Forall2 P xs new.
Proof.
  intros Hbody data w data' w' H.
  apply (for_each_blocks (fun x new => exists r, new = [r] /\ P x r)) in H
    as (blocks & -> & HF).
  - exists (concat blocks). split; [reflexivity |].
    now apply Forall2_concat_singletons.
  - intros x d v d' v' Hx Hb.
    destruct (Hbody x d v d' v' Hx Hb) as (r & -> & HP). eauto.
Qed.

(** As [for_each_blocks], the block predicate seeing the world at the start
    of a block; the first block starts in the world the loop starts in. *)
Lemma for_each_blocks_at {A R} (B : A -> world -> list R -> Prop)
    (body : A -> list R -> M (list R)) (xs : list A) :
  (forall x data w data' w',
      In x xs -> body x data w = (Ok data', w') ->
      exists new, data' = (data ++ new)%list /\ B x w new) ->
  forall data w data' w',
    for_each xs body data w = (Ok data', w') ->
    exists blocks,
      data' = (data ++ concat blocks)%list /\
      Forall2 (fun x new => exists w0, B x w0 new) xs blocks /\
      match xs, blocks with
      | x :: _, new :: _ => B x w new
      | _, _ => True
      end.
Proof.
  induction xs as [| x xs IH]; intros Hbody data w data' w' H.
  - inversion H; subst. exists []. simpl. rewrite app_nil_r. auto.
  - simpl in H. apply bind_Ok_inv in H as (d1 & w1 & H1 & H2).
    apply Hbody in H1 as (new & -> & HB); [| now left].
    apply IH in H2 as (blocks & -> & HF & _).
    + exists (new :: blocks). simpl. rewrite app_assoc. eauto.
    + intros y d v d' v' Hy. apply Hbody. now right.
Qed.

Lemma for_each_trace {A R} (P : A -> world -> list R -> world -> Prop)
    (body : A -> list R -> M (list R)) (xs : list A) :
  (forall x data w data' w',
      In x xs -> body x data w = (Ok data', w') ->
      exists new, data' = (data ++ new)%list /\ P x w new w') ->
  forall data w data' w',
    for_each xs body data w = (Ok data', w') ->
    exists blocks,
      data' = (data ++ concat blocks)%list /\ loop_trace P w xs blocks w'.
Proof.
  induction xs as [| x xs IH]; intros Hbody data w data' w' H.
  - inversion H; subst. exists []. simpl. rewrite app_nil_r.
    split; [reflexivity | constructor].
  - simpl in H. apply bind_Ok_inv in H as (d1 & w1 & H1 & H2).
    apply Hbody in H1 as (new & -> & HP); [| now left].
    apply IH in H2 as (blocks & -> & HT).
    + exists (new :: blocks). simpl. rewrite app_assoc.
      split; [reflexivity | econstructor; eassumption].
    + intros y d v d' v' Hy. apply Hbody. now right.
Qed.

(** When every item consumes [n] draws, the block of the item number [i]
    starts [n * i] draws after the loop. *)
Lemma loop_trace_lookup {A R} (P : A -> world -> list R -> world -> Prop)
    (B : A -> nat -> list R -> Prop) (n : nat) :
  (forall x w new w', P x w new w' ->
     B x (rng_pos w) new /\ rng_pos w' = (rng_pos w + n)%nat) ->
  forall w xs blocks w',
    loop_trace P w xs blocks w' ->
    length blocks = length xs /\
    forall i x new,
      xs !! i = Some x -> blocks !! i = Some new ->
      B x (rng_pos w + n * i)%nat new.
Proof.
  intros HP w xs blocks w' HT.
  induction HT as [w | w x new w1 xs blocks w' Hstep HT IH].
  - split; [reflexivity |]. intros i x new Hx. destruct i; discriminate.
  - destruct (HP _ _ _ _ Hstep) as [HB Hpos].
    destruct IH as [Hlen IH]. split; [simpl; congruence |].
    intros [| i] y b Hy Hb; simpl in Hy, Hb.
    + inversion Hy; inversion Hb; subst.
      replace (rng_pos w + n * 0)%nat with (rng_pos w) by lia. exact HB.
    + specialize (IH i y b Hy Hb). rewrite Hpos in IH.
      replace (rng_pos w + n * S i)%nat with (rng_pos w + n + n * i)%nat by lia.
      exact IH.
Qed.


(** A loop whose body always returns, returns. *)
Lemma for_each_total {A S} (body : A -> S -> M S) (xs : list A) :
  (forall x s w, In x xs -> exists s' w', body x s w = (Ok s', w')) ->
  forall s w, exists s' w', for_each xs body s w = (Ok s', w').
Proof.
  induction xs as [| x xs IH]; intros Hbody s w.
  - simpl. unfold ret. eauto.
  - simpl. destruct (Hbody x s w) as (s1 & w1 & H1); [now left |].
    rewrite (bind_Ok _ _ _ _ _ H1). apply IH.
    intros y t v Hy. apply Hbody. now right.
Qed.

(** ** Computations that only draw *)

Lemma only_rng_refl w : only_rng w w.
Proof. unfold only_rng. auto. Qed.

Lemma only_rng_trans w1 w2 w3 :
  only_rng w1 w2 -> only_rng w2 w3 -> only_rng w1 w3.
Proof. unfold only_rng. intros (? & ? & ?) (? & ? & ?). repeat split; congruence. Qed.

Lemma frame_ret {A} (a : A) : frame (ret a).
Proof. intros w. apply only_rng_refl. Qed.

Lemma frame_raise {A} (e : exn) : frame (@raise A e).
Proof. intros w. apply only_rng_refl. Qed.

Lemma frame_bind {A B} (m : M A) (k : A -> M B) :
  frame m -> (forall a, frame (k a)) -> frame (bind m k).
Proof.
  intros Hm Hk w. unfold bind. specialize (Hm w).
  destruct (m w) as [[a | e] w1]; simpl in *.
  - eapply only_rng_trans; [exact Hm | apply Hk].
  - exact Hm.
Qed.

Lemma frame_for_each {A S} (body : A -> S -> M S) (xs : list A) :
  (forall x s, frame (body x s)) -> forall s, frame (for_each xs body s).
Proof.
  intros Hbody. induction xs as [| x xs IH]; intros s; simpl.
  - apply frame_ret.
  - apply frame_bind; auto.
Qed.

Lemma frame_uniform rnd a b : frame (uniform rnd a b).
Proof. intros w. unfold only_rng. simpl. auto. Qed.

Lemma frame_dict_get {V} (d : gmap string V) k : frame (dict_get d k).
Proof. unfold dict_get. destruct (d !! k); [apply frame_ret | apply frame_raise]. Qed.

Lemma frame_true_div a b : frame (true_div a b).
Proof. unfold true_div. destruct (Qeq_bool b 0); [apply frame_raise | apply frame_ret]. Qed.

Ltac frame_step :=
  lazymatch goal with
  | |- frame (if ?b then _ else _) => destruct b
  | |- frame (let '(_, _) := ?p in _) => destruct p
  | |- frame (ret _) => apply frame_ret
  | |- frame (raise _) => apply frame_raise
  | |- frame (uniform _ _ _) => apply frame_uniform
  | |- frame (dict_get _ _) => apply frame_dict_get
  | |- frame (true_div _ _) => apply frame_true_div
  | |- frame (bind _ _) => apply frame_bind; [| intros ?]
  | |- frame (for_each _ _ _) => apply frame_for_each; intros ? ?
  end.

Ltac frame_solve := repeat frame_step.

Lemma frame_gdp_rows rnd countries : frame (gdp_rows rnd countries).
Proof. unfold gdp_rows. frame_solve. Qed.

Lemma frame_inequality_rows rnd countries : frame (inequality_rows rnd countries).
Proof. unfold inequality_rows. frame_solve. Qed.

Lemma frame_poverty_rows rnd countries : frame (poverty_rows rnd countries).
Proof. unfold poverty_rows. frame_solve. Qed.

Lemma frame_trade_rows rnd countries : frame (trade_rows rnd countries).
Proof. unfold trade_rows. frame_solve. Qed.

(** ** Computations that return *)

Lemma returns_ret {A} (a : A) : returns (ret a).
Proof. intros w. unfold ret. eauto. Qed.

Lemma returns_bind {A B} (m : M A) (k : A -> M B) :
  returns m -> (forall a, returns (k a)) -> returns (bind m k).
Proof.
  intros Hm Hk w. destruct (Hm w) as (a & w1 & H1).
  rewrite (bind_Ok _ _ _ _ _ H1). apply Hk.
Qed.

Lemma returns_uniform rnd a b : returns (uniform rnd a b).
Proof. intros w. rewrite uniform_eval. eauto. Qed.

Lemma returns_for_each {A S} (body : A -> S -> M S) (xs : list A) :
  (forall x s, returns (body x s)) -> forall s, returns (for_each xs body s).
Proof.
  intros Hbody s w. apply for_each_total. intros x t v _. apply Hbody.
Qed.

Lemma returns_emit (e : event) : returns (emit e).
Proof. intros w. unfold emit. eauto. Qed.

Ltac returns_step :=
  lazymatch goal with
  | |- returns (if ?b then _ else _) => destruct b
  | |- returns (let '(_, _) := ?p in _) => destruct p
  | |- returns (ret _) => apply returns_ret
  | |- returns (uniform _ _ _) => apply returns_uniform
  | |- returns (bind _ _) => apply returns_bind; [| intros ?]
  | |- returns (for_each _ _ _) => apply returns_for_each; intros ? ?
  end.

(* ===================================================================== *)
(** * Writing a frame to its table *)
(* ===================================================================== *)

Lemma to_sql_replace_Ok_inv env df name conn w u w' :
  to_sql env df name conn IfExistsReplace w = (Ok u, w') ->
  w' = World (rng_pos w) (<[name := df]> (db w)) (console w) (conn_open w).
Proof.
  unfold to_sql, bind, get_db, set_db, raise.
  destruct (write_error env name (db w)); [discriminate |].
  destruct (db w !! name); intros H; inversion H; reflexivity.
Qed.

Lemma returns_to_sql_replace env df name conn :
  (forall d, write_error env name d = None) ->
  returns (to_sql env df name conn IfExistsReplace).
Proof.
  intros Hw w. unfold to_sql, bind, get_db, set_db. rewrite Hw.
  destruct (db w !! name); eauto.
Qed.

(** The shape the four generated tables share: announce, build the frame,
    replace the table, report the number of rows. *)
Lemma load_table_Ok_inv {R} env (gen : M (list R)) (inj : R -> row)
    (start name what : string) conn w u w' :
  frame gen ->
  (print start ;;;
   df <- gen ;;
   to_sql env (map inj df) name conn IfExistsReplace ;;;
   emit (LoadedLine (length df) what)) w = (Ok u, w') ->
  exists rows w1,
    gen (snd (print start w)) = (Ok rows, w1) /\
    w' = World (rng_pos w1) (<[name := map inj rows]> (db w))
           (console w ++ [Line start; LoadedLine (length rows) what])
           (conn_open w).
Proof.
  intros F H.
  apply bind_Ok_inv in H as (u0 & w0 & Hp & H).
  apply bind_Ok_inv in H as (rows & w1 & Hg & H).
  apply bind_Ok_inv in H as (u1 & w2 & Hw & H).
  inversion Hp; subst; clear Hp.
  apply to_sql_replace_Ok_inv in Hw. subst w2.
  inversion H; subst; clear H.
  exists rows, w1. split; [exact Hg |].
  specialize (F (World (rng_pos w) (db w) (console w ++ [Line start]) (conn_open w))).
  rewrite Hg in F. destruct F as (Hdb & Hco & Hop). simpl in *.
  rewrite Hdb, Hco, Hop, <- app_assoc. reflexivity.
Qed.

Lemma load_table_returns {R} env (gen : M (list R)) (inj : R -> row)
    (start name what : string) conn :
  returns gen ->
  (forall d, write_error env name d = None) ->
  returns (print start ;;;
           df <- gen ;;
           to_sql env (map inj df) name conn IfExistsReplace ;;;
           emit (LoadedLine (length df) what)).
Proof.
  intros Hgen Hw.
  apply returns_bind; [apply returns_emit | intros _].
  apply returns_bind; [exact Hgen | intros df].
  apply returns_bind; [now apply returns_to_sql_replace | intros _].
  apply returns_emit.
Qed.

(* ===================================================================== *)
(** * The inequality generator *)
(* ===================================================================== *)

Section Inequality.

Variable rnd : nat -> Q.


Hypothesis rnd_range : forall n, 0 <= rnd n < 1.


(** On a frame whose regions are all keys of [gini_ranges] they return. *)
Lemma inequality_rows_total countries w :
  Forall (fun c => gini_ranges !! region c <> None) countries ->
  exists rows w', inequality_rows rnd countries w = (Ok rows, w').
Proof.
  intros Hreg. unfold inequality_rows.
  apply for_each_total. intros c data w1 Hc.
  rewrite Forall_forall in Hreg. apply list_elem_of_In in Hc.
  specialize (Hreg c Hc).
  unfold dict_get at 1.
  destruct (gini_ranges !! region c) as [[min_gini max_gini] |]; [| contradiction].
  unfold bind at 1, ret at 1. rewrite (bind_Ok _ _ _ _ _ (uniform_eval _ _ _ _)).
  apply for_each_total. clear - rnd_range. intros year data w _.
  rewrite (bind_Ok _ _ _ _ _ (uniform_eval _ _ _ _)).
  rewrite (bind_Ok _ _ _ _ _ (uniform_eval _ _ _ _)).
  rewrite (bind_Ok _ _ _ _ _ (uniform_eval _ _ _ _)).
  erewrite bind_Ok; [unfold ret; eauto |].
  apply true_div_eval. cbn [rng_pos].
  pose proof (uniform_value_range 4 9 (rnd (S (rng_pos w)))) as Hr.
  specialize (Hr ltac:(lra) (rnd_range _)). lra.
Qed.

End Inequality.

Lemma catalog_regions_known :
  Forall (fun c => gini_ranges !! region c <> None) catalog.
Proof.
  unfold catalog. repeat (constructor; [vm_compute; discriminate |]). constructor.
Qed.

Lemma inequality_rows_length rnd countries w rows w' :
  inequality_rows rnd countries w = (Ok rows, w') ->
  length rows = (5 * length countries)%nat.
Proof.
  unfold inequality_rows. intros H.
  apply (for_each_blocks (fun _ new => length new = 5%nat)) in H
    as (blocks & -> & HF).
  { cbn [app].
    rewrite (Forall2_concat_length_sum (fun _ => 5%nat) countries blocks HF).
    apply list_sum_const. }
  clear. intros c data w data' w' _ H.
  peel H. destruct v as [min_gini max_gini]. peel H.
  apply (for_each_row_per_item (fun _ _ => True)) in H as (new & -> & HF).
  { exists new. split; [reflexivity |].
    now rewrite (Forall2_length_eq _ _ _ HF). }
  clear. intros year row_data wy row_data' wy' _ H.
  do 4 peel H. inversion H; subst. eauto.
Qed.

Lemma load_inequality_data_Ok_inv rnd env conn countries w u w' :
  load_inequality_data rnd env conn countries w = (Ok u, w') ->
  exists rows w1,
    inequality_rows rnd countries (snd (print "Creating inequality data..." w))
      = (Ok rows, w1) /\
    w' = World (rng_pos w1) (<["inequality_metrics" := map RInequality rows]> (db w))
           (console w ++ [Line "Creating inequality data...";
                          LoadedLine (length rows) "inequality records"])
           (conn_open w).
Proof.
  unfold load_inequality_data.
  apply load_table_Ok_inv, frame_inequality_rows.
Qed.

Lemma load_inequality_data_returns rnd env conn countries :
  returns (inequality_rows rnd countries) ->
  (forall d, write_error env "inequality_metrics" d = None) ->
  returns (load_inequality_data rnd env conn countries).
Proof. unfold load_inequality_data. apply load_table_returns. Qed.

(** ** Claims on the inequality table *)



(* ===================================================================== *)
(** * The GDP generator *)
(* ===================================================================== *)

Lemma growth_range_of_eval rnd group w :
  (if String.eqb group "High income" then uniform rnd 1 3
   else if String.eqb group "Upper middle income" then uniform rnd 3 7
   else if String.eqb group "Lower middle income" then uniform rnd 4 8
   else uniform rnd 3 6) w
  = (Ok (uniform_value (fst (growth_range_of group)) (snd (growth_range_of group))
           (rnd (rng_pos w))),
     World (S (rng_pos w)) (db w) (console w) (conn_open w)).
Proof.
  unfold growth_range_of.
  destruct (String.eqb group "High income"); [reflexivity |].
  destruct (String.eqb group "Upper middle income"); [reflexivity |].
  destruct (String.eqb group "Lower middle income"); reflexivity.
Qed.

(** The GDP table, draw by draw. *)
Lemma gdp_rows_trace rnd countries w rows w' :
  gdp_rows rnd countries w = (Ok rows, w') ->
  exists blocks,
    rows = concat blocks /\
    length blocks = length countries /\
    forall i c block,
      countries !! i = Some c -> blocks !! i = Some block ->
      gdp_block_at rnd c (rng_pos w + 11 * i) block.
Proof.
  unfold gdp_rows. intros H.
  apply (for_each_trace (fun c w0 block w1 =>
           gdp_block_at rnd c (rng_pos w0) block /\
           rng_pos w1 = (rng_pos w0 + 11)%nat)) in H as (blocks & -> & HT).
  { exists blocks. split; [reflexivity |].
    eapply (loop_trace_lookup _ (gdp_block_at rnd) 11); [| exact HT].
    intros c w0 block w1 HP. exact HP. }
  clear. intros c data w data' w' _ H.
  peel H. destruct v as [min_gdp max_gdp]. peel H.
  set (base_gdp := uniform_value min_gdp max_gdp (rnd (rng_pos w))) in *.
  apply (for_each_trace (fun year w0 new w1 =>
           new = [gdp_row rnd c base_gdp year
                    (if (year =? 2020)%Z then S (rng_pos w0) else rng_pos w0)] /\
           rng_pos w1 = (if (year =? 2020)%Z then S (S (rng_pos w0))
                         else S (rng_pos w0)))) in H as (blocks & -> & HT).
  - exists (concat blocks). split; [reflexivity |].
    rewrite range_2015_2024 in HT.
    repeat match goal with
           | HT : loop_trace _ _ (_ :: _) _ _ |- _ =>
               inversion HT as [| ? ? ? ? ? ? ? [-> ?] ?]; subst; clear HT
           | HT : loop_trace _ _ [] _ _ |- _ =>
               inversion HT; subst; clear HT
           end.
    simpl (_ =? _)%Z in *. cbn [rng_pos] in *.
    split; [| lia].
    exists min_gdp, max_gdp. split; [assumption |].
    rewrite range_2015_2024. cbn [concat app map].
    fold base_gdp.
    repeat (f_equal; try (f_equal; unfold growth_draw; cbn; lia)).
  - clear. intros year row_data wy row_data' wy' _ H.
    rewrite (bind_Ok _ _ _ _ _ (growth_range_of_eval rnd _ _)) in H.
    unfold gdp_row.
    destruct (year =? 2020)%Z.
    + rewrite (bind_Ok _ _ _ _ _ (uniform_eval rnd _ _ _)) in H.
      inversion H; subst; clear H.
      eexists. split; [reflexivity |]. split; reflexivity.
    + rewrite bind_ret in H. inversion H; subst; clear H.
      eexists. split; [reflexivity |].
      destruct (growth_range_of (income_group c)) as [lo hi].
      split; reflexivity.
Qed.

(** No two rows of the table share their growth draw, and no growth draw is
    the base draw of a block. *)
Lemma growth_draw_fresh (pos i1 i2 : nat) (y1 y2 : Z) :
  (2015 <= y1 < 2024)%Z -> (2015 <= y2 < 2024)%Z ->
  (growth_draw (pos + 11 * i1) y1 = growth_draw (pos + 11 * i2) y2 ->
   i1 = i2 /\ y1 = y2) /\
  growth_draw (pos + 11 * i1) y1 <> (pos + 11 * i2)%nat.
Proof.
  intros H1 H2. unfold growth_draw.
  destruct (Z.leb_spec 2020 y1), (Z.leb_spec 2020 y2); split; intros; lia.
Qed.

Lemma gdp_rows_length rnd countries w rows w' :
  gdp_rows rnd countries w = (Ok rows, w') ->
  length rows = (9 * length countries)%nat.
Proof.
  intros H. apply gdp_rows_trace in H as (blocks & -> & Hlen & Hblocks).
  rewrite <- Hlen. apply concat_length_const.
  apply Forall_lookup. intros i block Hb.
  destruct (lookup_lt_is_Some_2 countries i) as [c Hc].
  { rewrite <- Hlen. eapply lookup_lt_Some. exact Hb. }
  destruct (Hblocks i c block Hc Hb) as (min_gdp & max_gdp & _ & ->).
  reflexivity.
Qed.

(** The loops of the GDP generator return on a frame whose income groups
    are all keys of [gdp_ranges]. *)
Lemma gdp_rows_total rnd countries :
  Forall (fun c => gdp_ranges !! income_group c <> None) countries ->
  returns (gdp_rows rnd countries).
Proof.
  intros Hgroups w. unfold gdp_rows.
  apply for_each_total. intros c data w1 Hc.
  rewrite Forall_forall in Hgroups. apply list_elem_of_In in Hc.
  specialize (Hgroups c Hc).
  unfold dict_get at 1.
  destruct (gdp_ranges !! income_group c) as [[min_gdp max_gdp] |];
    [| contradiction].
  unfold bind at 1, ret at 1.
  refine ((_ : returns _) w1).
  repeat returns_step.
Qed.

Lemma catalog_groups_known :
  Forall (fun c => gdp_ranges !! income_group c <> None) catalog.
Proof.
  unfold catalog. repeat (constructor; [vm_compute; discriminate |]). constructor.
Qed.

Lemma load_gdp_data_Ok_inv rnd env conn countries w u w' :
  load_gdp_data rnd env conn countries w = (Ok u, w') ->
  exists rows w1,
    gdp_rows rnd countries (snd (print "Creating GDP data..." w)) = (Ok rows, w1) /\
    w' = World (rng_pos w1) (<["gdp_data" := map RGdp rows]> (db w))
           (console w ++ [Line "Creating GDP data...";
                          LoadedLine (length rows) "GDP records"])
           (conn_open w).
Proof.
  unfold load_gdp_data. apply load_table_Ok_inv, frame_gdp_rows.
Qed.

Lemma load_gdp_data_returns rnd env conn countries :
  returns (gdp_rows rnd countries) ->
  (forall d, write_error env "gdp_data" d = None) ->
  returns (load_gdp_data rnd env conn countries).
Proof. unfold load_gdp_data. apply load_table_returns. Qed.

(** A failing write makes its loader raise, the table left as it was. *)
Lemma load_gdp_data_write_fails rnd env conn countries w e :
  returns (gdp_rows rnd countries) ->
  write_error env "gdp_data" (db w) = Some e ->
  exists w',
    load_gdp_data rnd env conn countries w = (Raise e, w') /\ db w' = db w.
Proof.
  intros Hret Hw. unfold load_gdp_data.
  set (w0 := snd (print "Creating GDP data..." w)).
  destruct (Hret w0) as (rows & w1 & Hrows).
  pose proof (frame_gdp_rows rnd countries w0) as F.
  rewrite Hrows in F. destruct F as (Hdb & _). simpl in Hdb.
  exists w1. split; [| exact Hdb].
  unfold bind at 1. simpl. fold w0.
  rewrite (bind_Ok _ _ _ _ _ Hrows).
  unfold to_sql, get_db. unfold bind. rewrite Hdb, Hw. reflexivity.
Qed.

(* ===================================================================== *)
(** * The poverty generator *)
(* ===================================================================== *)

Lemma poverty_rows_blocks rnd countries w rows w' :
  poverty_rows rnd countries w = (Ok rows, w') ->
  exists blocks,
    rows = concat blocks /\ Forall2 (poverty_block_of rnd) countries blocks.
Proof.
  unfold poverty_rows. intros H.
  apply (for_each_blocks (poverty_block_of rnd)) in H as (blocks & -> & HF).
  { exists blocks. auto. }
  clear. intros c data w data' w' _ H.
  unfold poverty_block_of.
  destruct (str_in (income_group c) _) eqn:Hin.
  2: { inversion H; subst. exists []. rewrite app_nil_r. auto. }
  apply bind_Ok_inv in H as (bases & w1 & Hb & H).
  assert (Hbases : exists lo215 hi215 lo365 hi365 lo685 hi685 k1 k2 k3,
            In (lo215, hi215, lo365, hi365, lo685, hi685) poverty_ranges /\
            bases = (uniform_value lo215 hi215 (rnd k1),
                     uniform_value lo365 hi365 (rnd k2),
                     uniform_value lo685 hi685 (rnd k3))).
  { repeat match type of Hb with
           | (if ?b then _ else _) _ = _ => destruct b
           end;
    do 3 peel Hb; inversion Hb; subst;
    eexists _, _, _, _, _, _, _, _, _; (split; [| reflexivity]);
    unfold poverty_ranges; simpl; auto. }
  destruct Hbases as (lo215 & hi215 & lo365 & hi365 & lo685 & hi685
                      & k1 & k2 & k3 & Hr & ->).
  apply (for_each_row_per_item
           (poverty_row_of c (uniform_value lo215 hi215 (rnd k1))
              (uniform_value lo365 hi365 (rnd k2))
              (uniform_value lo685 hi685 (rnd k3))))
    in H as (new & -> & HF).
  { exists new. split; [reflexivity |]. right. split; [reflexivity |].
    exists lo215, hi215, lo365, hi365, lo685, hi685, k1, k2, k3. auto. }
  clear. intros year row_data wy row_data' wy' _ H.
  inversion H; subst; clear H.
  eexists. split; [reflexivity |].
  unfold poverty_row_of, reduction_factor. simpl. auto.
Qed.

(** The poverty loops raise nothing. *)
Lemma poverty_rows_total rnd countries w :
  exists rows w', poverty_rows rnd countries w = (Ok rows, w').
Proof.
  unfold poverty_rows. apply for_each_total. intros c data w1 _.
  destruct (str_in _ _); [| unfold ret; eauto].
  assert (Hb : forall (k : Q * Q * Q -> M (list poverty_record)),
            (forall bases v, exists s' v', k bases v = (Ok s', v')) ->
            exists s' v',
              bind (if String.eqb (income_group c) "Low income" then
                      b215 <- uniform rnd 40 70 ;;
                      b365 <- uniform rnd 60 85 ;;
                      b685 <- uniform rnd 75 95 ;;
                      ret (b215, b365, b685)
                    else if String.eqb (income_group c) "Lower middle income" then
                      b215 <- uniform rnd 10 40 ;;
                      b365 <- uniform rnd 25 60 ;;
                      b685 <- uniform rnd 50 80 ;;
                      ret (b215, b365, b685)
                    else
                      b215 <- uniform rnd 1 15 ;;
                      b365 <- uniform rnd 5 30 ;;
                      b685 <- uniform rnd 15 50 ;;
                      ret (b215, b365, b685)) k w1 = (Ok s', v')).
  { intros k Hk.
    destruct (String.eqb _ "Low income"); [| destruct (String.eqb _ _)];
      unfold bind, uniform, random, ret; simpl; apply Hk. }
  apply Hb. intros [[b215 b365] b685] v.
  apply for_each_total. intros year row_data wy _. unfold ret. eauto.
Qed.

Lemma poverty_rows_length rnd countries w rows w' :
  poverty_rows rnd countries w = (Ok rows, w') ->
  length rows
  = (5 * length (List.filter
                   (fun c => str_in (income_group c)
                      ["Low income"; "Lower middle income"; "Upper middle income"])
                   countries))%nat.
Proof.
  intros H. apply poverty_rows_blocks in H as (blocks & -> & HF).
  rewrite <- list_sum_filter.
  apply Forall2_concat_length_sum.
  eapply Forall2_impl; [exact HF |].
  intros c block [[-> ->] | (-> & lo215 & hi215 & lo365 & hi365 & lo685 & hi685
                              & k1 & k2 & k3 & _ & Hb)].
  - reflexivity.
  - now rewrite (Forall2_length_eq _ _ _ Hb).
Qed.

Lemma reduction_factor_survey (year : Z) :
  In year survey_years -> (17 # 20) <= reduction_factor year <= 1.
Proof.
  unfold survey_years. simpl.
  intros [<- | [<- | [<- | [<- | [<- | []]]]]]; vm_compute; split; discriminate.
Qed.

Lemma load_poverty_data_Ok_inv rnd env conn countries w u w' :
  load_poverty_data rnd env conn countries w = (Ok u, w') ->
  exists rows w1,
    poverty_rows rnd countries (snd (print "Creating poverty data..." w)) = (Ok rows, w1) /\
    w' = World (rng_pos w1) (<["poverty_indicators" := map RPoverty rows]> (db w))
           (console w ++ [Line "Creating poverty data...";
                          LoadedLine (length rows) "poverty records"])
           (conn_open w).
Proof.
  unfold load_poverty_data. apply load_table_Ok_inv, frame_poverty_rows.
Qed.

Lemma load_poverty_data_returns rnd env conn countries :
  returns (poverty_rows rnd countries) ->
  (forall d, write_error env "poverty_indicators" d = None) ->
  returns (load_poverty_data rnd env conn countries).
Proof. unfold load_poverty_data. apply load_table_returns. Qed.

(* ===================================================================== *)
(** * The trade and education generator *)
(* ===================================================================== *)

Lemma trade_rows_returns rnd countries : returns (trade_rows rnd countries).
Proof. unfold trade_rows. repeat returns_step. Qed.

Lemma trade_rows_blocks rnd countries w rows w' :
  trade_rows rnd countries w = (Ok rows, w') ->
  exists blocks,
    rows = concat blocks /\
    Forall2 (fun c block => exists pos, trade_block_at rnd c pos block)
      countries blocks /\
    match countries, blocks with
    | c :: _, block :: _ => trade_block_at rnd c (rng_pos w) block
    | _, _ => True
    end.
Proof.
  unfold trade_rows. intros H.
  apply (for_each_blocks_at (fun c w0 block => trade_block_at rnd c (rng_pos w0) block))
    in H as (blocks & -> & HF & Hhead).
  { exists blocks. split; [reflexivity |]. split; [| exact Hhead].
    eapply Forall2_impl; [exact HF |].
    intros c block (w0 & HB). eauto. }
  clear. intros c data w data' w' _ H.
  peel H.
  apply bind_Ok_inv in H as (bases & w1 & Hb & H).
  unfold trade_block_at, enrollment_ranges_of.
  repeat match type of Hb with
         | (if ?b then _ else _) _ = _ => destruct b
         end;
    do 3 peel Hb; inversion Hb; subst; clear Hb;
    (eapply for_each_row_per_item; [| exact H]);
    clear; intros year row_data wy row_data' wy' _ H;
    do 2 peel H; inversion H; subst; clear H;
    (eexists; split; [reflexivity |]);
    unfold trade_row_of; simpl;
    repeat (split; [reflexivity |]); eexists _, _; split; reflexivity.
Qed.

Lemma trade_rows_length rnd countries w rows w' :
  trade_rows rnd countries w = (Ok rows, w') ->
  length rows = (9 * length countries)%nat.
Proof.
  intros H. apply trade_rows_blocks in H as (blocks & -> & HF & _).
  rewrite (Forall2_concat_length_sum (fun _ => 9%nat) countries blocks).
  - apply list_sum_const.
  - eapply Forall2_impl; [exact HF |].
    intros c block (pos & Hb). unfold trade_block_at in Hb.
    destruct (enrollment_ranges_of (income_group c))
      as [[[[[slo shi] tlo] thi] glo] ghi].
    now rewrite (Forall2_length_eq _ _ _ Hb).
Qed.

(** The tertiary base is drawn below 90 in every income group. *)
Lemma enrollment_ranges_of_tertiary group slo shi tlo thi glo ghi :
  enrollment_ranges_of group = (slo, shi, tlo, thi, glo, ghi) ->
  tlo <= thi /\ thi <= 90.
Proof.
  unfold enrollment_ranges_of.
  repeat match goal with
         | |- (if ?b then _ else _) = _ -> _ => destruct b
         end;
    intros H; inversion H; subst; lra.
Qed.

Lemma load_trade_education_Ok_inv rnd env conn countries w u w' :
  load_trade_education rnd env conn countries w = (Ok u, w') ->
  exists rows w1,
    trade_rows rnd countries (snd (print "Creating trade and education data..." w))
      = (Ok rows, w1) /\
    w' = World (rng_pos w1) (<["trade_education" := map RTrade rows]> (db w))
           (console w ++ [Line "Creating trade and education data...";
                          LoadedLine (length rows) "trade/education records"])
           (conn_open w).
Proof.
  unfold load_trade_education. apply load_table_Ok_inv, frame_trade_rows.
Qed.

Lemma load_trade_education_returns rnd env conn countries :
  returns (trade_rows rnd countries) ->
  (forall d, write_error env "trade_education" d = None) ->
  returns (load_trade_education rnd env conn countries).
Proof. unfold load_trade_education. apply load_table_returns. Qed.

(** ** Claims on the trade and education table *)

(** C6. With draws in [0, 1), every row a successful
    [load_trade_education] stores has a [secondary_enrollment_rate] of at
    most 105 and a [tertiary_enrollment_rate] of at most 105. *)
Theorem C6_enrollment_rates_capped rnd env conn countries w w' :
  (forall n, 0 <= rnd n < 1) ->
  load_trade_education rnd env conn countries w = (Ok tt, w') ->
  exists rows,
    db w' !! "trade_education" = Some (map RTrade rows) /\
    Forall (fun r =>
      secondary_enrollment_rate r <= 105 /\
      tertiary_enrollment_rate r <= 105) rows.
Proof.
  intros Hrange H.
  apply load_trade_education_Ok_inv in H as (rows & w1 & Hrows & ->).
  exists rows. split; [apply lookup_insert_eq |].
  apply trade_rows_blocks in Hrows as (blocks & -> & HF & _).
  apply Forall_forall. intros r Hr. apply list_elem_of_In in Hr.
  destruct (In_concat_block _ _ _ _ HF Hr) as (c & block & _ & (pos & HB) & Hrb).
  unfold trade_block_at in HB.
  destruct (enrollment_ranges_of (income_group c))
    as [[[[[slo shi] tlo] thi] glo] ghi] eqn:Eranges.
  apply enrollment_ranges_of_tertiary in Eranges as [Hlo Hhi].
  destruct (Forall2_In_r _ _ _ _ HB Hrb) as (year & Hyear & _ & _ & Hsec & Hter & _).
  rewrite Hsec, Hter. split.
  - apply (round2_le_Z _ 105). apply py_min_le_l.
  - apply (round2_le_Z _ 105).
    pose proof (inject_Z_elapsed year Hyear) as Hk.
    pose proof (uniform_value_range tlo thi (rnd (2 + pos)%nat) Hlo (Hrange _)) as Hu.
    change (inject_Z 105) with 105.
    set (t := uniform_value tlo thi (rnd (2 + pos)%nat)) in *.
    set (k := inject_Z (year - 2015)) in *.
    lra.
Qed.

Lemma C6_witness :
  exists rows,
    db (snd (load_trade_education sample_rnd sample_env sample_conn catalog new_world))
      !! "trade_education" = Some (map RTrade rows) /\
    Forall (fun r =>
      secondary_enrollment_rate r <= 105 /\
      tertiary_enrollment_rate r <= 105) rows.
Proof.
  apply (C6_enrollment_rates_capped sample_rnd sample_env sample_conn catalog new_world).
  - intros n. unfold sample_rnd. lra.
  - vm_compute. reflexivity.
Defined.

(* ===================================================================== *)
(** * The run *)
(* ===================================================================== *)

Lemma DataFrame_countries_data : DataFrame countries_data = Ok catalog.
Proof. vm_compute. reflexivity. Qed.

Lemma catalog_length : length catalog = 48%nat.
Proof. reflexivity. Qed.

Lemma catalog_non_high_income : length (List.filter non_high_income catalog) = 22%nat.
Proof. vm_compute. reflexivity. Qed.

(** On the catalog the poverty table covers the countries that are not
    High income. *)
Lemma catalog_poverty_countries :
  List.filter (fun c => str_in (income_group c)
                 ["Low income"; "Lower middle income"; "Upper middle income"])
    catalog
  = List.filter non_high_income catalog.
Proof. vm_compute. reflexivity. Qed.

Lemma load_country_metadata_Ok_inv env conn w df w' :
  load_country_metadata env conn w = (Ok df, w') ->
  df = catalog /\
  w' = World (rng_pos w) (<["country_metadata" := map RCountry catalog]> (db w))
         (console w ++ [Line "Loading country metadata...";
                        LoadedLine (length catalog) "countries"])
         (conn_open w).
Proof.
  unfold load_country_metadata. rewrite DataFrame_countries_data. intros H.
  apply bind_Ok_inv in H as (u0 & w0 & Hp & H).
  apply bind_Ok_inv in H as (df0 & w1 & Hd & H).
  apply bind_Ok_inv in H as (u1 & w2 & Hw & H).
  apply bind_Ok_inv in H as (u2 & w3 & He & H).
  inversion Hp; subst; clear Hp. inversion Hd; subst; clear Hd.
  apply to_sql_replace_Ok_inv in Hw. subst w2.
  inversion He; subst; clear He. inversion H; subst; clear H.
  split; [reflexivity |]. simpl. rewrite <- app_assoc. reflexivity.
Qed.

Lemma load_country_metadata_returns env conn :
  (forall d, write_error env "country_metadata" d = None) ->
  returns (load_country_metadata env conn).
Proof.
  intros Hw. unfold load_country_metadata. rewrite DataFrame_countries_data.
  apply returns_bind; [apply returns_emit | intros _].
  apply returns_bind; [apply returns_ret | intros df].
  apply returns_bind; [now apply returns_to_sql_replace | intros _].
  apply returns_bind; [apply returns_emit | intros _].
  apply returns_ret.
Qed.

Lemma keeps_db_ret {A} (a : A) : keeps_db (ret a).
Proof. intros w. reflexivity. Qed.

Lemma keeps_db_emit (e : event) : keeps_db (emit e).
Proof. intros w. reflexivity. Qed.

Lemma keeps_db_bind {A B} (m : M A) (k : A -> M B) :
  keeps_db m -> (forall a, keeps_db (k a)) -> keeps_db (bind m k).
Proof.
  intros Hm Hk w. unfold bind. specialize (Hm w).
  destruct (m w) as [[a | e] w1]; simpl in *.
  - rewrite Hk. exact Hm.
  - exact Hm.
Qed.

Lemma keeps_db_for_each {A S} (body : A -> S -> M S) (xs : list A) :
  (forall x s, keeps_db (body x s)) -> forall s, keeps_db (for_each xs body s).
Proof.
  intros Hbody. induction xs as [| x xs IH]; intros s; simpl.
  - apply keeps_db_ret.
  - apply keeps_db_bind; auto.
Qed.

Lemma keeps_db_read_count table conn : keeps_db (read_count table conn).
Proof.
  intros w. unfold read_count, bind, get_db.
  destruct (db w !! table); reflexivity.
Qed.

Lemma keeps_db_print_all texts : keeps_db (print_all texts).
Proof.
  unfold print_all. apply keeps_db_for_each. intros x s. apply keeps_db_emit.
Qed.

Lemma print_all_eval texts w :
  print_all texts w
  = (Ok tt, World (rng_pos w) (db w) (console w ++ map Line texts) (conn_open w)).
Proof.
  unfold print_all. revert w.
  induction texts as [| text texts IH]; intros w.
  - simpl. unfold ret. rewrite app_nil_r. destruct w; reflexivity.
  - simpl. unfold bind, print, emit. rewrite IH. simpl.
    rewrite <- app_assoc. reflexivity.
Qed.

(** The summary loop returns when every table it counts exists. *)
Lemma summary_loop_eval conn (ts : list string) w :
  Forall (fun t => is_Some (db w !! t)) ts ->
  exists evs,
    for_each ts (fun table _ =>
       count <- read_count table conn ;;
       emit (CountLine table count)) tt w
    = (Ok tt, World (rng_pos w) (db w) (console w ++ evs) (conn_open w)).
Proof.
  revert w. induction ts as [| t ts IH]; intros w Hts.
  - exists []. simpl. unfold ret. rewrite app_nil_r. destruct w; reflexivity.
  - inversion Hts as [| ? ? [rows Hrows] Hrest]; subst.
    set (w1 := World (rng_pos w) (db w)
                 (console w ++ [CountLine t (length rows)]) (conn_open w)).
    destruct (IH w1 Hrest) as (evs & Hevs).
    exists (CountLine t (length rows) :: evs).
    assert (Hstep : (count <- read_count t conn ;;
                     emit (CountLine t count)) w = (Ok tt, w1)).
    { unfold read_count, bind, get_db. rewrite Hrows. reflexivity. }
    cbn [for_each]. rewrite (bind_Ok _ _ _ _ _ Hstep), Hevs.
    subst w1. cbn [rng_pos db console conn_open].
    rewrite <- app_assoc. reflexivity.
Qed.

(** When the [try] block of [main] returns, each of the five tables holds
    the frame this run built for it, whatever the file held before. *)
Lemma main_try_Ok_counts rnd env conn w u w' :
  main_try rnd env conn w = (Ok u, w') ->
  map (row_count (db w')) tables
  = [Some 48; Some 432; Some 240; Some 110; Some 432]%nat.
Proof.
  unfold main_try. intros H.
  apply bind_Ok_inv in H as (u0 & w0 & _ & H).
  apply bind_Ok_inv in H as (text & w1 & _ & H).
  apply bind_Ok_inv in H as (u1 & w2 & _ & H).
  apply bind_Ok_inv in H as (u2 & w3 & _ & H).
  apply bind_Ok_inv in H as (countries & w4 & Hc & H).
  apply load_country_metadata_Ok_inv in Hc as [-> ->].
  apply bind_Ok_inv in H as (u3 & w5 & Hg & H).
  apply load_gdp_data_Ok_inv in Hg as (gdp & v1 & Hgdp & ->).
  apply gdp_rows_length in Hgdp.
  apply bind_Ok_inv in H as (u4 & w6 & Hi & H).
  apply load_inequality_data_Ok_inv in Hi as (ineq & v2 & Hineq & ->).
  apply inequality_rows_length in Hineq.
  apply bind_Ok_inv in H as (u5 & w7 & Hp & H).
  apply load_poverty_data_Ok_inv in Hp as (pov & v3 & Hpov & ->).
  apply poverty_rows_length in Hpov.
  rewrite catalog_poverty_countries, catalog_non_high_income in Hpov.
  apply bind_Ok_inv in H as (u6 & w8 & Ht & H).
  apply load_trade_education_Ok_inv in Ht as (trade & v4 & Htrade & ->).
  apply trade_rows_length in Htrade.
  rewrite catalog_length in Hgdp, Hineq, Htrade.
  match type of H with
  | ?m _ = _ => assert (K : keeps_db m)
  end.
  { apply keeps_db_bind; [apply keeps_db_print_all | intros _].
    apply keeps_db_bind; [| intros _; apply keeps_db_print_all].
    apply keeps_db_for_each. intros table s.
    apply keeps_db_bind; [apply keeps_db_read_count | intros n; apply keeps_db_emit]. }
  match type of H with
  | _ ?w0 = _ => specialize (K w0)
  end.
  rewrite H in K. cbn [snd db] in K. rewrite K.
  unfold tables, row_count. cbn [map].
  rewrite !lookup_insert_ne by discriminate.
  repeat (rewrite lookup_insert_eq || rewrite lookup_insert_ne by discriminate).
  cbn [fmap option_fmap option_map].
  rewrite !length_map, Hgdp, Hineq, Hpov, Htrade, catalog_length.
  reflexivity.
Qed.

(** What [main] does around its [try] block. *)
Lemma main_unfold rnd env w :
  main rnd env w =
  match connect_error env with
  | Some e =>
      (Raise e,
       World (rng_pos w) (db w) (console w ++ map Line banner) (conn_open w))
  | None =>
      match main_try rnd env (Connection DB_PATH) (entered w) with
      | (Ok u, w2) =>
          (Ok u, World (rng_pos w2) (db w2) (console w2) false)
      | (Raise e, w2) =>
          (Ok tt,
           World (rng_pos w2) (db w2)
             (console w2 ++ [ErrorLine e; TracebackLine e]) false)
      end
  end.
Proof.
  unfold main, sqlite3_connect, entered.
  destruct (connect_error env) as [e |].
  - unfold bind, print_all, raise. simpl. rewrite <- !app_assoc. reflexivity.
  - unfold bind at 1. unfold print_all at 1.
    cbn [for_each banner bind print emit ret].
    cbn [rng_pos db console conn_open].
    rewrite <- !app_assoc. cbn [app map banner].
    unfold try_finally, try_except, conn_close.
    destruct (main_try rnd env (Connection DB_PATH) _) as [[u | e] w2].
    + reflexivity.
    + unfold main_except, bind, emit. cbn [rng_pos db console conn_open].
      rewrite <- app_assoc. reflexivity.
Qed.

(** A run whose last line is the closing line went through its [try]
    block. *)
Lemma main_completed rnd env w w' :
  main rnd env w = (Ok tt, w') -> completed w' ->
  exists w2,
    main_try rnd env (Connection DB_PATH) (entered w) = (Ok tt, w2) /\
    db w' = db w2.
Proof.
  rewrite main_unfold. intros H Hlast.
  destruct (connect_error env); [discriminate |].
  destruct (main_try rnd env (Connection DB_PATH) (entered w)) as [[[] | e] w2].
  - inversion H; subst. exists w2. auto.
  - inversion H; subst. unfold completed in Hlast. simpl in Hlast.
    change [ErrorLine e; TracebackLine e]
      with ([ErrorLine e] ++ [TracebackLine e])%list in Hlast.
    rewrite app_assoc, last_snoc in Hlast. discriminate.
Qed.

Lemma completed_run_counts rnd env w w' :
  main rnd env w = (Ok tt, w') -> completed w' ->
  map (row_count (db w')) tables
  = [Some 48; Some 432; Some 240; Some 110; Some 432]%nat.
Proof.
  intros H Hlast.
  destruct (main_completed rnd env w w' H Hlast) as (w2 & Htry & ->).
  eapply main_try_Ok_counts. exact Htry.
Qed.

(** With draws in [0, 1), a connection that opens, a schema file that
    reads, a script that does not raise and writes that do not fail, a run
    goes through. *)
Lemma main_completes rnd env w text :
  (forall n, 0 <= rnd n < 1) ->
  connect_error env = None ->
  schema_sql env = Ok text ->
  (forall d, fst (run_script env text d) = Ok tt) ->
  (forall name d, write_error env name d = None) ->
  exists w', main rnd env w = (Ok tt, w') /\ completed w'.
Proof.
  intros Hrange Hconn Hschema Hscript Hwrite.
  rewrite main_unfold, Hconn.
  assert (Htry : exists w2,
             main_try rnd env (Connection DB_PATH) (entered w) = (Ok tt, w2) /\
             completed w2).
  { generalize (entered w). clear w. intros w.
    unfold main_try.
    unfold bind at 1. cbn [print emit].
    unfold bind at 1. unfold open_read at 1. rewrite Hschema. unfold ret at 1.
    unfold bind at 1. unfold executescript at 1.
    unfold bind at 1, get_db at 1. cbn [db].
    specialize (Hscript (db w)).
    destruct (run_script env text (db w)) as [r d'] eqn:Erun.
    simpl in Hscript. subst r.
    unfold bind at 1, set_db at 1, ret at 1.
    unfold bind at 1. cbn [print emit].
    cbn [rng_pos db console conn_open].
    match goal with
    | |- context [bind (load_country_metadata env ?c) ?k ?w0] =>
        destruct (load_country_metadata_returns env c (Hwrite _) w0) as (df & w4 & E4);
        rewrite (bind_Ok _ _ _ _ _ E4);
        apply load_country_metadata_Ok_inv in E4 as [-> ->]
    end.
    cbn [rng_pos db console conn_open].
    match goal with
    | |- context [bind (load_gdp_data rnd env ?c catalog) ?k ?w0] =>
        destruct (load_gdp_data_returns rnd env c catalog
                    (gdp_rows_total rnd catalog catalog_groups_known)
                    (Hwrite _) w0) as ([] & w5 & E5);
        rewrite (bind_Ok _ _ _ _ _ E5);
        apply load_gdp_data_Ok_inv in E5 as (gdp & v1 & _ & ->)
    end.
    cbn [rng_pos db console conn_open].
    match goal with
    | |- context [bind (load_inequality_data rnd env ?c catalog) ?k ?w0] =>
        destruct (load_inequality_data_returns rnd env c catalog
                    (fun v => inequality_rows_total rnd Hrange catalog v
                                catalog_regions_known)
                    (Hwrite _) w0) as ([] & w6 & E6);
        rewrite (bind_Ok _ _ _ _ _ E6);
        apply load_inequality_data_Ok_inv in E6 as (ineq & v2 & _ & ->)
    end.
    cbn [rng_pos db console conn_open].
    match goal with
    | |- context [bind (load_poverty_data rnd env ?c catalog) ?k ?w0] =>
        destruct (load_poverty_data_returns rnd env c catalog
                    (poverty_rows_total rnd catalog)
                    (Hwrite _) w0) as ([] & w7 & E7);
        rewrite (bind_Ok _ _ _ _ _ E7);
        apply load_poverty_data_Ok_inv in E7 as (pov & v3 & _ & ->)
    end.
    cbn [rng_pos db console conn_open].
    match goal with
    | |- context [bind (load_trade_education rnd env ?c catalog) ?k ?w0] =>
        destruct (load_trade_education_returns rnd env c catalog
                    (trade_rows_returns rnd catalog)
                    (Hwrite _) w0) as ([] & w8 & E8);
        rewrite (bind_Ok _ _ _ _ _ E8);
        apply load_trade_education_Ok_inv in E8 as (trade & v4 & _ & ->)
    end.
    cbn [rng_pos db console conn_open].
    rewrite (bind_Ok _ _ _ _ _ (print_all_eval _ _)).
    cbn [rng_pos db console conn_open].
    match goal with
    | |- context [bind (for_each tables ?body tt) ?k ?w0] =>
        destruct (summary_loop_eval (Connection DB_PATH) tables w0) as (evs & Eloop)
    end.
    { unfold tables. cbn [db].
      repeat (constructor;
              [ eexists;
                repeat (rewrite lookup_insert_eq
                        || rewrite lookup_insert_ne by discriminate);
                reflexivity |]).
      constructor. }
    rewrite (bind_Ok _ _ _ _ _ Eloop).
    eexists. split; [apply print_all_eval |].
    unfold completed. cbn [console].
    change (map Line next_steps)
      with (map Line (removelast next_steps)
            ++ [Line "For real data, see instructions in README.md"])%list.
    rewrite !app_assoc. apply last_snoc. }
  destruct Htry as (w2 & -> & Hlast).
  eexists. split; [reflexivity | exact Hlast].
Qed.

(** An unreadable schema file makes the [try] block raise at once. *)
Lemma main_try_schema_unreadable rnd env conn w e :
  schema_sql env = Raise e ->
  main_try rnd env conn w
  = (Raise e,
     World (rng_pos w) (db w) (console w ++ [Line "Creating database schema..."])
       (conn_open w)).
Proof.
  intros H. unfold main_try, bind, print, emit, open_read. simpl.
  rewrite H. reflexivity.
Qed.

(** A run in which writing [inequality_metrics] fails: the error and the
    traceback are printed, the later stages do not run, the tables written
    before stay, and the connection is closed. *)
Example main_write_failure_example :
  let '(r, w') := main sample_rnd failing_env new_world in
  r = Ok tt /\
  conn_open w' = false /\
  map (row_count (db w')) tables = [Some 48; Some 432; None; None; None]%nat /\
  console w'
  = [ Line rule;
      Line "BASIC GLOBAL INEQUALITY DATABASE LOADER";
      Line "Sample data for SQL portfolio demonstration";
      Line rule;
      Line "Creating database schema...";
      Line "Schema created";
      Line "Loading country metadata...";
      LoadedLine 48 "countries";
      Line "Creating GDP data...";
      LoadedLine 432 "GDP records";
      Line "Creating inequality data...";
      ErrorLine (DatabaseError "database or disk is full");
      TracebackLine (DatabaseError "database or disk is full") ].
Proof. vm_compute. repeat split; reflexivity. Qed.

(** ** What a run prints *)

Lemma quiet_ret {A} (a : A) : quiet (ret a).
Proof. intros w. reflexivity. Qed.

Lemma quiet_raise {A} (e : exn) : quiet (@raise A e).
Proof. intros w. reflexivity. Qed.

Lemma quiet_lift {A} (r : result A) : quiet (lift r).
Proof. destruct r; [apply quiet_ret | apply quiet_raise]. Qed.

Lemma quiet_frame {A} (m : M A) : frame m -> quiet m.
Proof. intros F w. apply F. Qed.

Lemma quiet_to_sql env df name conn mode : quiet (to_sql env df name conn mode).
Proof.
  intros w. unfold to_sql, bind, get_db, set_db, raise.
  destruct (write_error env name (db w)); [reflexivity |].
  destruct mode, (db w !! name); reflexivity.
Qed.

Lemma quiet_read_count table conn : quiet (read_count table conn).
Proof.
  intros w. unfold read_count, bind, get_db.
  destruct (db w !! table); reflexivity.
Qed.

Lemma quiet_open_read env path : quiet (open_read env path).
Proof. unfold open_read. destruct (schema_sql env); [apply quiet_ret | apply quiet_raise]. Qed.

Lemma quiet_executescript env conn text : quiet (executescript env conn text).
Proof.
  intros w. unfold executescript, bind, get_db, set_db.
  destruct (run_script env text (db w)) as [[u | e] d]; reflexivity.
Qed.

Lemma quiet_sqlite3_connect env path : quiet (sqlite3_connect env path).
Proof.
  unfold sqlite3_connect. destruct (connect_error env); [apply quiet_raise |].
  intros w. reflexivity.
Qed.

Lemma quiet_conn_close conn : quiet (conn_close conn).
Proof. intros w. reflexivity. Qed.

Lemma prints_quiet {A} s (m : M A) : quiet m -> prints_at_most s 0 m.
Proof.
  intros Hq w. exists []. rewrite app_nil_r. split; [apply Hq | reflexivity].
Qed.

Lemma prints_emit s (e : event) : prints_at_most s (count_line s [e]) (emit e).
Proof. intros w. exists [e]. split; reflexivity. Qed.

Lemma prints_emit_other s (e : event) :
  match e with Line _ => False | _ => True end ->
  prints_at_most s 0 (emit e).
Proof.
  intros He w. exists [e]. split; [reflexivity |].
  destruct e; [destruct He | | | |]; reflexivity.
Qed.

Lemma count_line_app s evs1 evs2 :
  count_line s (evs1 ++ evs2) = (count_line s evs1 + count_line s evs2)%nat.
Proof. unfold count_line. rewrite List.filter_app, length_app. reflexivity. Qed.

Lemma prints_bind {A B} s n1 n2 (m : M A) (k : A -> M B) :
  prints_at_most s n1 m -> (forall a, prints_at_most s n2 (k a)) ->
  prints_at_most s (n1 + n2) (bind m k).
Proof.
  intros Hm Hk w. unfold bind. destruct (Hm w) as (evs1 & H1 & C1).
  destruct (m w) as [[a | e] w1]; simpl in *.
  - destruct (Hk a w1) as (evs2 & H2 & C2).
    exists (evs1 ++ evs2)%list. rewrite H2, H1, app_assoc, count_line_app.
    split; [reflexivity | lia].
  - exists evs1. split; [exact H1 | lia].
Qed.

Lemma prints_try_except {A} s n1 n2 (body : M A) (handler : exn -> M A) :
  prints_at_most s n1 body -> (forall e, prints_at_most s n2 (handler e)) ->
  prints_at_most s (n1 + n2) (try_except body handler).
Proof.
  intros Hb Hh w. unfold try_except. destruct (Hb w) as (evs1 & H1 & C1).
  destruct (body w) as [[a | e] w1]; simpl in *.
  - exists evs1. split; [exact H1 | lia].
  - destruct (Hh e w1) as (evs2 & H2 & C2).
    exists (evs1 ++ evs2)%list. rewrite H2, H1, app_assoc, count_line_app.
    split; [reflexivity | lia].
Qed.

Lemma prints_try_finally {A} s n1 n2 (body : M A) (cleanup : M unit) :
  prints_at_most s n1 body -> prints_at_most s n2 cleanup ->
  prints_at_most s (n1 + n2) (try_finally body cleanup).
Proof.
  intros Hb Hc w. unfold try_finally. destruct (Hb w) as (evs1 & H1 & C1).
  destruct (body w) as [r w1]; simpl in *.
  destruct (Hc w1) as (evs2 & H2 & C2).
  exists (evs1 ++ evs2)%list. rewrite count_line_app, app_assoc, <- H1, <- H2.
  split; [| lia].
  destruct (cleanup w1) as [[u | e] w2]; reflexivity.
Qed.

Lemma prints_weaken {A} s n n' (m : M A) :
  prints_at_most s n m -> (n <= n')%nat -> prints_at_most s n' m.
Proof.
  intros Hm Hn w. destruct (Hm w) as (evs & H & C).
  exists evs. split; [exact H | lia].
Qed.

Ltac prints_step :=
  lazymatch goal with
  | |- prints_at_most _ _ (bind _ _) => eapply prints_bind; [| intros ?]
  | |- prints_at_most _ _ (try_except _ _) => eapply prints_try_except; [| intros ?]
  | |- prints_at_most _ _ (try_finally _ _) => eapply prints_try_finally
  | |- prints_at_most _ _ (emit (Line _)) => apply prints_emit
  | |- prints_at_most _ _ (emit _) => apply prints_emit_other; exact I
  | |- prints_at_most _ _ (print _) => apply prints_emit
  | |- prints_at_most _ _ (ret _) => apply prints_quiet, quiet_ret
  | |- prints_at_most _ _ (lift _) => apply prints_quiet, quiet_lift
  | |- prints_at_most _ _ (to_sql _ _ _ _ _) => apply prints_quiet, quiet_to_sql
  | |- prints_at_most _ _ (read_count _ _) => apply prints_quiet, quiet_read_count
  | |- prints_at_most _ _ (open_read _ _) => apply prints_quiet, quiet_open_read
  | |- prints_at_most _ _ (executescript _ _ _) => apply prints_quiet, quiet_executescript
  | |- prints_at_most _ _ (sqlite3_connect _ _) => apply prints_quiet, quiet_sqlite3_connect
  | |- prints_at_most _ _ (conn_close _) => apply prints_quiet, quiet_conn_close
  | |- prints_at_most _ _ (gdp_rows _ _) =>
      apply prints_quiet, quiet_frame, frame_gdp_rows
  | |- prints_at_most _ _ (inequality_rows _ _) =>
      apply prints_quiet, quiet_frame, frame_inequality_rows
  | |- prints_at_most _ _ (poverty_rows _ _) =>
      apply prints_quiet, quiet_frame, frame_poverty_rows
  | |- prints_at_most _ _ (trade_rows _ _) =>
      apply prints_quiet, quiet_frame, frame_trade_rows
  end.

(** A run announces each stage at most once. *)
Lemma main_prints_stage_once rnd env s :
  In s stage_lines -> prints_at_most s 1 (main rnd env).
Proof.
  unfold stage_lines. simpl.
  intros [<- | [<- | [<- | [<- | [<- | [<- | []]]]]]];
    (eapply prints_weaken;
     [ unfold main, main_try, main_except, load_country_metadata, load_gdp_data,
         load_inequality_data, load_poverty_data, load_trade_education, print_all;
       cbn [for_each banner tables next_steps summary_header];
       repeat prints_step
     | vm_compute; lia ]).
Qed.

(** ** Claims on the run *)

(** C4. The hardcoded dict yields a frame of 48 countries. With draws in
    [0, 1) and an environment in which nothing fails, one run of [main] goes
    through and leaves 432 = 48 * 9 rows in [gdp_data], 240 = 48 * 5 in
    [inequality_metrics], 432 = 48 * 9 in [trade_education] and 5 * N in
    [poverty_indicators], N = 22 the number of catalog countries that are
    not High income. *)
Theorem C4_row_counts rnd env w text :
  (forall n, 0 <= rnd n < 1) ->
  connect_error env = None ->
  schema_sql env = Ok text ->
  (forall d, fst (run_script env text d) = Ok tt) ->
  (forall name d, write_error env name d = None) ->
  DataFrame countries_data = Ok catalog /\
  length catalog = 48%nat /\
  length (List.filter non_high_income catalog) = 22%nat /\
  exists w',
    main rnd env w = (Ok tt, w') /\
    completed w' /\
    row_count (db w') "country_metadata" = Some (length catalog) /\
    row_count (db w') "gdp_data" = Some 432%nat /\
    row_count (db w') "gdp_data"
      = Some (length catalog * length (range 2015 2024))%nat /\
    row_count (db w') "inequality_metrics" = Some 240%nat /\
    row_count (db w') "inequality_metrics"
      = Some (length catalog * length survey_years)%nat /\
    row_count (db w') "trade_education" = Some 432%nat /\
    row_count (db w') "trade_education"
      = Some (length catalog * length (range 2015 2024))%nat /\
    row_count (db w') "poverty_indicators"
      = Some (5 * length (List.filter non_high_income catalog))%nat.
Proof.
  intros Hrange Hconn Hschema Hscript Hwrite.
  split; [apply DataFrame_countries_data |].
  split; [apply catalog_length |].
  split; [apply catalog_non_high_income |].
  destruct (main_completes rnd env w text Hrange Hconn Hschema Hscript Hwrite)
    as (w' & Hmain & Hlast).
  exists w'. split; [exact Hmain | split; [exact Hlast |]].
  pose proof (completed_run_counts rnd env w w' Hmain Hlast) as Hc.
  unfold tables in Hc. cbn [map] in Hc.
  injection Hc as Hcountry Hgdp Hineq Hpov Htrade.
  rewrite Hcountry, Hgdp, Hineq, Hpov, Htrade, catalog_non_high_income.
  repeat split; reflexivity.
Qed.

Lemma C4_witness :
  DataFrame countries_data = Ok catalog /\
  length catalog = 48%nat /\
  length (List.filter non_high_income catalog) = 22%nat /\
  exists w',
    main sample_rnd sample_env new_world = (Ok tt, w') /\
    completed w' /\
    row_count (db w') "country_metadata" = Some (length catalog) /\
    row_count (db w') "gdp_data" = Some 432%nat /\
    row_count (db w') "gdp_data"
      = Some (length catalog * length (range 2015 2024))%nat /\
    row_count (db w') "inequality_metrics" = Some 240%nat /\
    row_count (db w') "inequality_metrics"
      = Some (length catalog * length survey_years)%nat /\
    row_count (db w') "trade_education" = Some 432%nat /\
    row_count (db w') "trade_education"
      = Some (length catalog * length (range 2015 2024))%nat /\
    row_count (db w') "poverty_indicators"
      = Some (5 * length (List.filter non_high_income catalog))%nat.
Proof.
  apply (C4_row_counts sample_rnd sample_env new_world
           "CREATE TABLE IF NOT EXISTS country_metadata (country_code TEXT);").
  - intros n. unfold sample_rnd. lra.
  - reflexivity.
  - reflexivity.
  - intros d. reflexivity.
  - intros name d. reflexivity.
Defined.

(** C7. A second run of [main] that goes through, on the file a first run
    that went through left, leaves every one of the five tables with the
    number of rows it had after the first run: [gdp_data] stays at 432 and
    does not grow to 864. The two runs may see different draws and
    different environments. *)
Theorem C7_rerun_replaces rnd1 env1 rnd2 env2 w0 w1 w2 :
  main rnd1 env1 w0 = (Ok tt, w1) -> completed w1 ->
  main rnd2 env2 w1 = (Ok tt, w2) -> completed w2 ->
  Forall (fun table =>
            is_Some (row_count (db w1) table) /\
            row_count (db w2) table = row_count (db w1) table) tables /\
  row_count (db w1) "gdp_data" = Some 432%nat /\
  row_count (db w2) "gdp_data" = Some 432%nat.
Proof.
  intros H1 L1 H2 L2.
  pose proof (completed_run_counts rnd1 env1 w0 w1 H1 L1) as C1.
  pose proof (completed_run_counts rnd2 env2 w1 w2 H2 L2) as C2.
  unfold tables in *. cbn [map] in C1, C2.
  injection C1 as A1 A2 A3 A4 A5. injection C2 as B1 B2 B3 B4 B5.
  split; [| split; assumption].
  repeat constructor; try (eexists; eassumption); congruence.
Qed.

Lemma C7_witness :
  Forall (fun table =>
            is_Some (row_count (db (snd (main sample_rnd sample_env new_world))) table) /\
            row_count
              (db (snd (main skewed_rnd sample_env
                          (snd (main sample_rnd sample_env new_world))))) table
            = row_count (db (snd (main sample_rnd sample_env new_world))) table)
    tables /\
  row_count (db (snd (main sample_rnd sample_env new_world))) "gdp_data"
    = Some 432%nat /\
  row_count
    (db (snd (main skewed_rnd sample_env
                (snd (main sample_rnd sample_env new_world))))) "gdp_data"
    = Some 432%nat.
Proof.
  apply (C7_rerun_replaces sample_rnd sample_env skewed_rnd sample_env new_world).
  - vm_compute. reflexivity.
  - vm_compute. reflexivity.
  - vm_compute. reflexivity.
  - vm_compute. reflexivity.
Defined.

(** C8. When connecting fails, [main] raises before its [try] block and no
    connection was opened. Otherwise [main] returns normally whatever the
    [try] block does, and the connection is closed in the world it returns;
    when the [try] block raised [e], that world is the world of the failure
    with the error line and the traceback of [e] added and nothing else
    changed, so nothing ran after the failure; and in the output of the run
    every stage is announced at most once. *)
Theorem C8_errors_caught_connection_closed rnd env w :
  match connect_error env with
  | Some e =>
      main rnd env w
      = (Raise e,
         World (rng_pos w) (db w) (console w ++ map Line banner) (conn_open w))
  | None =>
      exists w' evs,
        main rnd env w = (Ok tt, w') /\
        conn_open w' = false /\
        console w' = (console w ++ evs)%list /\
        Forall (fun s => (count_line s evs <= 1)%nat) stage_lines /\
        match main_try rnd env (Connection DB_PATH) (entered w) with
        | (Ok _, w2) =>
            w' = World (rng_pos w2) (db w2) (console w2) false
        | (Raise e, w2) =>
            w' = World (rng_pos w2) (db w2)
                   (console w2 ++ [ErrorLine e; TracebackLine e]) false
        end
  end.
Proof.
  pose proof (main_unfold rnd env w) as Hmain.
  destruct (connect_error env) as [e |]; [exact Hmain |].
  assert (Hout : exists evs,
             console (snd (main rnd env w)) = (console w ++ evs)%list /\
             Forall (fun s => (count_line s evs <= 1)%nat) stage_lines).
  { destruct (main_prints_stage_once rnd env "Creating database schema..."
                ltac:(now left) w) as (evs & Hevs & _).
    exists evs. split; [exact Hevs |].
    apply Forall_forall. intros s Hs. apply list_elem_of_In in Hs.
    destruct (main_prints_stage_once rnd env s Hs w) as (evs' & Hevs' & Hc).
    rewrite Hevs in Hevs'. apply app_inv_head in Hevs'. subst evs'. exact Hc. }
  destruct Hout as (evs & Hevs & Hcount).
  rewrite Hmain in Hevs.
  destruct (main_try rnd env (Connection DB_PATH) (entered w)) as [[[] | e] w2];
    eexists _, evs; (split; [exact Hmain |]); repeat split; auto.
Qed.

(* ===================================================================== *)
(** * Further properties of the generated tables *)
(* ===================================================================== *)

(** ** Panels *)

Lemma NoDup_panel (codes : list string) (years : list Z) :
  NoDup codes -> NoDup years -> NoDup (panel codes years).
Proof.
  intros Hc Hy. unfold panel.
  induction Hc as [| code codes Hnotin Hc IH]; simpl.
  - constructor.
  - apply NoDup_app. split; [| split; [| exact IH]].
    + apply NoDup_fmap_2; [| exact Hy]. intros y1 y2 E. now inversion E.
    + intros [c y] Hin Hin'.
      apply list_elem_of_fmap in Hin as (y0 & E & _). inversion E; subst.
      apply list_elem_of_In, in_concat in Hin' as (l & Hl & Hcy).
      apply in_map_iff in Hl as (c' & <- & Hc').
      apply in_map_iff in Hcy as (y' & E' & _). inversion E'; subst.
      apply Hnotin. now apply list_elem_of_In.
Qed.

(** A table built block by block, the block of an item holding its code
    with each year in turn, has the panel as its keys. *)
Lemma keys_of_blocks {A R} (code : A -> string) (key : R -> string * Z)
    (years : list Z) (xs : list A) (blocks : list (list R)) :
  Forall2 (fun x block => map key block = map (fun year => (code x, year)) years)
    xs blocks ->
  map key (concat blocks) = panel (map code xs) years.
Proof.
  unfold panel. induction 1 as [| x block xs blocks Hb _ IH]; simpl.
  - reflexivity.
  - rewrite map_app, Hb, IH. reflexivity.
Qed.

Lemma range_2015_2024_NoDup : NoDup (range 2015 2024).
Proof. apply (bool_decide_unpack _). vm_compute. exact I. Qed.

Lemma survey_years_NoDup : NoDup survey_years.
Proof. apply (bool_decide_unpack _). vm_compute. exact I. Qed.

(** ** More on the GDP table *)

Lemma gdp_rows_blocks_at rnd countries w rows w' :
  gdp_rows rnd countries w = (Ok rows, w') ->
  exists blocks,
    rows = concat blocks /\
    Forall2 (fun c block => exists pos, gdp_block_at rnd c pos block)
      countries blocks.
Proof.
  intros H. apply gdp_rows_trace in H as (blocks & -> & Hlen & Hblocks).
  exists blocks. split; [reflexivity |].
  apply Forall2_same_length_lookup_2; [now symmetry |].
  intros i c block Hc Hb. eauto.
Qed.

(** The draws a loop consumes when the item [x] consumes [n x] of them. *)
Lemma for_each_draws {A S} (n : A -> nat) (body : A -> S -> M S) (xs : list A) :
  (forall x s w s' w',
      In x xs -> body x s w = (Ok s', w') -> rng_pos w' = (rng_pos w + n x)%nat) ->
  forall s w s' w',
    for_each xs body s w = (Ok s', w') ->
    rng_pos w' = (rng_pos w + list_sum (map n xs))%nat.
Proof.
  induction xs as [| x xs IH]; intros Hbody s w s' w' H.
  - inversion H; subst. simpl. lia.
  - simpl in H. apply bind_Ok_inv in H as (s1 & w1 & H1 & H2).
    apply Hbody in H1; [| now left].
    apply IH in H2; [| intros y t v t' v' Hy; apply Hbody; now right].
    rewrite H2, H1. simpl. lia.
Qed.

Lemma gdp_rows_draws rnd countries w rows w' :
  gdp_rows rnd countries w = (Ok rows, w') ->
  rng_pos w' = (rng_pos w + 11 * length countries)%nat.
Proof.
  unfold gdp_rows. intros H.
  apply (for_each_draws (fun _ => 11%nat)) in H.
  { rewrite H, list_sum_const. lia. }
  clear. intros c data w data' w' _ H.
  peel H. destruct v as [min_gdp max_gdp]. peel H.
  apply (for_each_draws (fun year => if (year =? 2020)%Z then 2%nat else 1%nat))
    in H.
  { rewrite H, range_2015_2024. cbn. lia. }
  clear. intros year row_data wy row_data' wy' _ H.
  rewrite (bind_Ok _ _ _ _ _ (growth_range_of_eval rnd _ _)) in H.
  destruct (year =? 2020)%Z.
  - rewrite (bind_Ok _ _ _ _ _ (uniform_eval rnd _ _ _)) in H.
    inversion H; subst. cbn. lia.
  - rewrite bind_ret in H. inversion H; subst. cbn. lia.
Qed.

Lemma gdp_rows_keys rnd countries w rows w' :
  gdp_rows rnd countries w = (Ok rows, w') ->
  map gdp_key rows = panel (map country_code countries) (range 2015 2024).
Proof.
  intros H. apply gdp_rows_blocks_at in H as (blocks & -> & HF).
  apply keys_of_blocks. eapply Forall2_impl; [exact HF |].
  intros c block (pos & min_gdp & max_gdp & _ & ->).
  rewrite map_map. apply map_ext. intros year. unfold gdp_row, gdp_key.
  destruct (if (year =? 2020)%Z then _ else _) as [lo hi]. reflexivity.
Qed.

(** X1. The table [gdp_data] a successful [load_gdp_data] stores is a
    complete panel: its keys (country code, year) are, in the order of the
    frame, every country with each year of 2015..2023 once; on a frame with
    distinct country codes no two rows share a key. The call consumes 11
    draws per country: the base, one per year, and one more in 2020. *)
Theorem X1_gdp_panel rnd env conn countries w w' :
  load_gdp_data rnd env conn countries w = (Ok tt, w') ->
  rng_pos w' = (rng_pos w + 11 * length countries)%nat /\
  exists rows,
    db w' !! "gdp_data" = Some (map RGdp rows) /\
    map gdp_key rows = panel (map country_code countries) (range 2015 2024) /\
    (NoDup (map country_code countries) -> NoDup (map gdp_key rows)).
Proof.
  intros H.
  apply load_gdp_data_Ok_inv in H as (rows & w1 & Hrows & ->).
  cbn [rng_pos]. split.
  { apply gdp_rows_draws in Hrows. exact Hrows. }
  exists rows. split; [apply lookup_insert_eq |].
  apply gdp_rows_keys in Hrows. split; [exact Hrows |].
  intros Hnd. rewrite Hrows. apply NoDup_panel; [exact Hnd |].
  apply range_2015_2024_NoDup.
Qed.

Lemma X1_witness :
  rng_pos (snd (load_gdp_data sample_rnd sample_env sample_conn catalog new_world))
  = (rng_pos new_world + 11 * length catalog)%nat /\
  exists rows,
    db (snd (load_gdp_data sample_rnd sample_env sample_conn catalog new_world))
      !! "gdp_data" = Some (map RGdp rows) /\
    map gdp_key rows = panel (map country_code catalog) (range 2015 2024) /\
    (NoDup (map country_code catalog) -> NoDup (map gdp_key rows)).
Proof.
  apply (X1_gdp_panel sample_rnd sample_env sample_conn catalog new_world).
  vm_compute. reflexivity.
Defined.

Lemma growth_range_of_bounds group lo hi :
  growth_range_of group = (lo, hi) -> 1 <= lo /\ lo <= hi /\ hi <= 8.
Proof.
  unfold growth_range_of.
  repeat match goal with
         | |- (if ?b then _ else _) = _ -> _ => destruct b
         end;
    intros H; inversion H; subst; lra.
Qed.

Lemma round2_between (x lo hi : Q) (zlo zhi : Z) :
  lo == inject_Z zlo -> hi == inject_Z zhi ->
  lo <= x <= hi -> lo <= round2 x <= hi.
Proof.
  intros Elo Ehi [Hlo Hhi]. rewrite Elo, Ehi in *. split.
  - now apply round2_ge_Z.
  - now apply round2_le_Z.
Qed.

(** X2. With draws in [0, 1), in every row of [gdp_data] the stored growth
    lies in [-5, -2] when the year is 2020 and otherwise in the growth range
    of the country's income group, which lies in [1, 8]: the stored growth
    is negative exactly in the rows of 2020. *)
Theorem X2_gdp_growth_sign rnd env conn countries w w' :
  (forall n, 0 <= rnd n < 1) ->
  load_gdp_data rnd env conn countries w = (Ok tt, w') ->
  exists blocks,
    db w' !! "gdp_data" = Some (map RGdp (concat blocks)) /\
    Forall2 (fun c block =>
      Forall (fun r =>
        (gdp_year r = 2020%Z -> -5 <= gdp_growth_annual_pct r <= -2) /\
        (gdp_year r <> 2020%Z ->
           fst (growth_range_of (income_group c)) <= gdp_growth_annual_pct r
             <= snd (growth_range_of (income_group c)) /\
           1 <= gdp_growth_annual_pct r <= 8) /\
        (gdp_growth_annual_pct r < 0 <-> gdp_year r = 2020%Z)) block)
      countries blocks.
Proof.
  intros Hrange H.
  apply load_gdp_data_Ok_inv in H as (rows & w1 & Hrows & ->).
  apply gdp_rows_blocks_at in Hrows as (blocks & -> & HF).
  exists blocks. split; [apply lookup_insert_eq |].
  eapply Forall2_impl; [exact HF |].
  intros c block (pos & min_gdp & max_gdp & _ & ->).
  apply Forall_forall. intros r Hr.
  apply list_elem_of_fmap in Hr as (year & -> & _).
  unfold gdp_row.
  destruct (Z.eqb_spec year 2020) as [-> | Hy]; cbn [gdp_year gdp_growth_annual_pct].
  - assert (Hg : -5 <= round2 (uniform_value (-5) (-2) (rnd (growth_draw pos 2020))) <= -2).
    { apply (round2_between _ _ _ (-5) (-2)); [reflexivity | reflexivity |].
      apply uniform_value_range; [lra | apply Hrange]. }
    split; [intros _; exact Hg |]. split; [intros Hne; now contradiction Hne |].
    split; [reflexivity | intros _; lra].
  - destruct (growth_range_of (income_group c)) as [lo hi] eqn:Eg.
    cbn [gdp_year gdp_growth_annual_pct fst snd].
    pose proof (uniform_value_range lo hi (rnd (growth_draw pos year))) as Hu.
    assert (Hb := growth_range_of_bounds _ _ _ Eg).
    specialize (Hu ltac:(lra) (Hrange _)).
    assert (Hg : lo <= round2 (uniform_value lo hi (rnd (growth_draw pos year))) <= hi).
    { revert Eg Hu. unfold growth_range_of.
      repeat match goal with
             | |- (if ?b then _ else _) = _ -> _ => destruct b
             end;
        intros Eg Hu; inversion Eg; subst;
        (eapply round2_between; [| | exact Hu]);
        first [ instantiate (1 := 1%Z); reflexivity
              | instantiate (1 := 3%Z); reflexivity
              | instantiate (1 := 4%Z); reflexivity
              | instantiate (1 := 6%Z); reflexivity
              | instantiate (1 := 7%Z); reflexivity
              | instantiate (1 := 8%Z); reflexivity ]. }
    split; [intros E; contradiction |].
    split; [intros _; split; [exact Hg | lra] |].
    split; [intros Hneg; exfalso; lra | intros E; contradiction].
Qed.

Lemma X2_witness :
  exists blocks,
    db (snd (load_gdp_data sample_rnd sample_env sample_conn catalog new_world))
      !! "gdp_data" = Some (map RGdp (concat blocks)) /\
    Forall2 (fun c block =>
      Forall (fun r =>
        (gdp_year r = 2020%Z -> -5 <= gdp_growth_annual_pct r <= -2) /\
        (gdp_year r <> 2020%Z ->
           fst (growth_range_of (income_group c)) <= gdp_growth_annual_pct r
             <= snd (growth_range_of (income_group c)) /\
           1 <= gdp_growth_annual_pct r <= 8) /\
        (gdp_growth_annual_pct r < 0 <-> gdp_year r = 2020%Z)) block)
      catalog blocks.
Proof.
  apply (X2_gdp_growth_sign sample_rnd sample_env sample_conn catalog new_world).
  - intros n. unfold sample_rnd. lra.
  - vm_compute. reflexivity.
Defined.






(** ** Loops that stop *)

Lemma for_each_app {A S} (body : A -> S -> M S) (xs ys : list A) s w :
  for_each (xs ++ ys) body s w
  = bind (for_each xs body s) (for_each ys body) w.
Proof.
  revert s w. induction xs as [| x xs IH]; intros s w; simpl.
  - reflexivity.
  - unfold bind. destruct (body x s w) as [[s1 | e] w1]; [| reflexivity].
    rewrite IH. reflexivity.
Qed.

(** X4. On a frame whose first country with an income group that is no key
    of [gdp_ranges] is [c], [load_gdp_data] raises the [KeyError] of that
    group: it has announced itself and consumed the 11 draws of each
    country before [c], and it neither writes the table nor reports a
    number of rows. *)
Theorem X4_gdp_unknown_income_group rnd env conn pre c post w :
  Forall (fun c0 => gdp_ranges !! income_group c0 <> None) pre ->
  gdp_ranges !! income_group c = None ->
  load_gdp_data rnd env conn (pre ++ c :: post) w
  = (Raise (KeyError (income_group c)),
     World (rng_pos w + 11 * length pre) (db w)
       (console w ++ [Line "Creating GDP data..."]) (conn_open w)).
Proof.
  intros Hpre Hc. unfold load_gdp_data.
  unfold bind at 1. cbn [print emit].
  set (w0 := World (rng_pos w) (db w) (console w ++ [Line "Creating GDP data..."])
               (conn_open w)).
  unfold bind at 1.
  assert (E : gdp_rows rnd (pre ++ c :: post) w0
              = (Raise (KeyError (income_group c)),
                 World (rng_pos w + 11 * length pre) (db w)
                   (console w ++ [Line "Creating GDP data..."]) (conn_open w))).
  { unfold gdp_rows. rewrite for_each_app.
    destruct (gdp_rows_total rnd pre Hpre w0) as (rows & w1 & Hrows).
    pose proof (frame_gdp_rows rnd pre w0) as F.
    pose proof (gdp_rows_draws _ _ _ _ _ Hrows) as Hpos.
    rewrite Hrows in F. destruct F as (Hdb & Hco & Hop).
    unfold gdp_rows in Hrows. rewrite (bind_Ok _ _ _ _ _ Hrows).
    cbn [for_each]. unfold bind at 1. unfold bind at 1.
    unfold dict_get. rewrite Hc. unfold raise.
    destruct w1 as [p d co op]. simpl in *. subst. reflexivity. }
  rewrite E. reflexivity.
Qed.

Lemma X4_witness :
  load_gdp_data sample_rnd sample_env sample_conn
    (firstn 2 catalog ++ Country "ATA" "Antarctica" "Antarctica" "Unclassified" None
       :: skipn 2 catalog) new_world
  = (Raise (KeyError "Unclassified"),
     World (0 + 11 * 2) ∅ ([] ++ [Line "Creating GDP data..."]) false).
Proof.
  apply (X4_gdp_unknown_income_group sample_rnd sample_env sample_conn
           (firstn 2 catalog)
           (Country "ATA" "Antarctica" "Antarctica" "Unclassified" None)
           (skipn 2 catalog) new_world).
  - repeat (constructor; [vm_compute; discriminate |]). constructor.
  - vm_compute. reflexivity.
Defined.

(** ** More on the inequality table *)

(** The inequality table, draw by draw. *)
Lemma inequality_rows_trace rnd countries w rows w' :
  inequality_rows rnd countries w = (Ok rows, w') ->
  exists blocks,
    rows = concat blocks /\
    length blocks = length countries /\
    forall i c block,
      countries !! i = Some c -> blocks !! i = Some block ->
      inequality_block_at rnd c (rng_pos w + 16 * i) block.
Proof.
  unfold inequality_rows. intros H.
  apply (for_each_trace (fun c w0 block w1 =>
           inequality_block_at rnd c (rng_pos w0) block /\
           rng_pos w1 = (rng_pos w0 + 16)%nat)) in H as (blocks & -> & HT).
  { exists blocks. split; [reflexivity |].
    eapply (loop_trace_lookup _ (inequality_block_at rnd) 16); [| exact HT].
    intros c w0 block w1 HP. exact HP. }
  clear. intros c data w data' w' _ H.
  peel H. destruct v as [min_gini max_gini]. peel H.
  set (base_gini := uniform_value min_gini max_gini (rnd (rng_pos w))) in *.
  apply (for_each_trace (fun year w0 new w1 =>
           new = [inequality_row_of rnd c base_gini year (rng_pos w0)] /\
           rng_pos w1 = (rng_pos w0 + 3)%nat)) in H as (blocks & -> & HT).
  - exists (concat blocks). split; [reflexivity |].
    unfold survey_years in HT.
    repeat match goal with
           | HT : loop_trace _ _ (_ :: _) _ _ |- _ =>
               inversion HT as [| ? ? ? ? ? ? ? [-> ?] ?]; subst; clear HT
           | HT : loop_trace _ _ [] _ _ |- _ =>
               inversion HT; subst; clear HT
           end.
    cbn [rng_pos] in *.
    split; [| lia].
    exists min_gini, max_gini. split; [assumption |].
    unfold survey_years. cbn [concat app map]. fold base_gini.
    repeat (apply f_equal2;
            [ f_equal; unfold survey_draw;
              match goal with
              | |- context [Z.to_nat ?z] =>
                  let n := eval vm_compute in (Z.to_nat z) in
                  change (Z.to_nat z) with n
              end; lia |]).
    reflexivity.
  - clear. intros year row_data wy row_data' wy' _ H.
    do 4 peel H. inversion H; subst; clear H.
    eexists. split; [reflexivity |]. cbn [rng_pos]. split; [| lia].
    reflexivity.
Qed.

Lemma inequality_rows_blocks_at rnd countries w rows w' :
  inequality_rows rnd countries w = (Ok rows, w') ->
  exists blocks,
    rows = concat blocks /\
    Forall2 (fun c block => exists pos, inequality_block_at rnd c pos block)
      countries blocks.
Proof.
  intros H. apply inequality_rows_trace in H as (blocks & -> & Hlen & Hblocks).
  exists blocks. split; [reflexivity |].
  apply Forall2_same_length_lookup_2; [now symmetry |].
  intros i c block Hc Hb. eauto.
Qed.

Lemma inequality_rows_draws rnd countries w rows w' :
  inequality_rows rnd countries w = (Ok rows, w') ->
  rng_pos w' = (rng_pos w + 16 * length countries)%nat.
Proof.
  unfold inequality_rows. intros H.
  apply (for_each_draws (fun _ => 16%nat)) in H.
  { rewrite H, list_sum_const. lia. }
  clear. intros c data w data' w' _ H.
  peel H. destruct v as [min_gini max_gini]. peel H.
  apply (for_each_draws (fun _ => 3%nat)) in H.
  { rewrite H. cbn. lia. }
  clear. intros year row_data wy row_data' wy' _ H.
  do 4 peel H. inversion H; subst; clear H. cbn. lia.
Qed.

Lemma inequality_rows_keys rnd countries w rows w' :
  inequality_rows rnd countries w = (Ok rows, w') ->
  map inequality_key rows = panel (map country_code countries) survey_years.
Proof.
  intros H. apply inequality_rows_blocks_at in H as (blocks & -> & HF).
  apply keys_of_blocks. eapply Forall2_impl; [exact HF |].
  intros c block (pos & min_gini & max_gini & _ & ->).
  rewrite map_map. reflexivity.
Qed.

(** X5. The table [inequality_metrics] a successful [load_inequality_data]
    stores is a complete panel over the five survey years: its keys
    (country code, year) are, in the order of the frame, every country with
    each of 2015, 2017, 2019, 2021, 2023 once; on a frame with distinct
    country codes no two rows share a key. *)
Theorem X5_inequality_panel rnd env conn countries w w' :
  load_inequality_data rnd env conn countries w = (Ok tt, w') ->
  exists rows,
    db w' !! "inequality_metrics" = Some (map RInequality rows) /\
    map inequality_key rows = panel (map country_code countries) survey_years /\
    (NoDup (map country_code countries) -> NoDup (map inequality_key rows)).
Proof.
  intros H.
  apply load_inequality_data_Ok_inv in H as (rows & w1 & Hrows & ->).
  exists rows. split; [apply lookup_insert_eq |].
  apply inequality_rows_keys in Hrows. split; [exact Hrows |].
  intros Hnd. rewrite Hrows. apply NoDup_panel; [exact Hnd |].
  apply survey_years_NoDup.
Qed.

Lemma X5_witness :
  exists rows,
    db (snd (load_inequality_data sample_rnd sample_env sample_conn catalog new_world))
      !! "inequality_metrics" = Some (map RInequality rows) /\
    map inequality_key rows = panel (map country_code catalog) survey_years /\
    (NoDup (map country_code catalog) -> NoDup (map inequality_key rows)).
Proof.
  apply (X5_inequality_panel sample_rnd sample_env sample_conn catalog new_world).
  vm_compute. reflexivity.
Defined.

(** Between the bounds the clamp is the identity. *)
Lemma clamp_inactive (lo hi x : Q) :
  lo < x -> x < hi -> py_max lo (py_min hi x) = x.
Proof.
  intros Hlo Hhi.
  destruct (py_min_spec hi x) as [[_ ->] | [H _]]; [| lra].
  destruct (py_max_spec lo x) as [[_ ->] | [H _]]; [reflexivity | lra].
Qed.

Lemma inject_Z_minus_3 (z : Z) : inject_Z z - 3 == inject_Z (z - 3).
Proof. unfold Zminus. rewrite inject_Z_plus. reflexivity. Qed.

Lemma inject_Z_plus_3 (z : Z) : inject_Z z + 3 == inject_Z (z + 3).
Proof. rewrite inject_Z_plus. reflexivity. Qed.

(** X7. With draws in [0, 1), on a frame whose first country with a region
    that is no key of [gini_ranges] is [c], [load_inequality_data] raises
    the [KeyError] of that region: it has announced itself and consumed the
    16 draws of each country before [c], and it neither writes the table
    nor reports a number of rows. *)
Theorem X7_inequality_unknown_region rnd env conn pre c post w :
  (forall n, 0 <= rnd n < 1) ->
  Forall (fun c0 => gini_ranges !! region c0 <> None) pre ->
  gini_ranges !! region c = None ->
  load_inequality_data rnd env conn (pre ++ c :: post) w
  = (Raise (KeyError (region c)),
     World (rng_pos w + 16 * length pre) (db w)
       (console w ++ [Line "Creating inequality data..."]) (conn_open w)).
Proof.
  intros Hrange Hpre Hc. unfold load_inequality_data.
  unfold bind at 1. cbn [print emit].
  set (w0 := World (rng_pos w) (db w)
               (console w ++ [Line "Creating inequality data..."]) (conn_open w)).
  unfold bind at 1.
  assert (E : inequality_rows rnd (pre ++ c :: post) w0
              = (Raise (KeyError (region c)),
                 World (rng_pos w + 16 * length pre) (db w)
                   (console w ++ [Line "Creating inequality data..."])
                   (conn_open w))).
  { unfold inequality_rows. rewrite for_each_app.
    destruct (inequality_rows_total rnd Hrange pre w0 Hpre) as (rows & w1 & Hrows).
    pose proof (frame_inequality_rows rnd pre w0) as F.
    pose proof (inequality_rows_draws _ _ _ _ _ Hrows) as Hpos.
    rewrite Hrows in F. destruct F as (Hdb & Hco & Hop).
    unfold inequality_rows in Hrows. rewrite (bind_Ok _ _ _ _ _ Hrows).
    cbn [for_each]. unfold bind at 1. unfold bind at 1.
    unfold dict_get. rewrite Hc. unfold raise.
    destruct w1 as [p d co op]. simpl in *. subst. reflexivity. }
  rewrite E. reflexivity.
Qed.

Lemma X7_witness :
  load_inequality_data sample_rnd sample_env sample_conn
    (firstn 2 catalog ++ Country "ATA" "Antarctica" "Antarctica" "Unclassified" None
       :: skipn 2 catalog) new_world
  = (Raise (KeyError "Antarctica"),
     World (0 + 16 * 2) ∅ ([] ++ [Line "Creating inequality data..."]) false).
Proof.
  apply (X7_inequality_unknown_region sample_rnd sample_env sample_conn
           (firstn 2 catalog)
           (Country "ATA" "Antarctica" "Antarctica" "Unclassified" None)
           (skipn 2 catalog) new_world).
  - intros n. unfold sample_rnd. lra.
  - repeat (constructor; [vm_compute; discriminate |]). constructor.
  - vm_compute. reflexivity.
Defined.

(** ** More on the poverty table *)

Lemma NoDup_map_filter {A K} (f : A -> K) (p : A -> bool) (xs : list A) :
  NoDup (map f xs) -> NoDup (map f (List.filter p xs)).
Proof.
  induction xs as [| x xs IH]; simpl; intros H.
  - constructor.
  - apply NoDup_cons in H as [Hx Hxs].
    destruct (p x); [| now apply IH].
    simpl. apply NoDup_cons. split; [| now apply IH].
    intros Hin. apply Hx.
    apply list_elem_of_In, in_map_iff in Hin as (y & E & Hy).
    apply filter_In in Hy as [Hy _].
    apply list_elem_of_In, in_map_iff. eauto.
Qed.

(** The keys of a table built block by block when only the items that
    pass [p] have a block of their own. *)
Lemma keys_of_filtered_blocks {A R} (code : A -> string) (key : R -> string * Z)
    (p : A -> bool) (years : list Z) (xs : list A) (blocks : list (list R)) :
  Forall2 (fun x block =>
             (p x = false /\ block = []) \/
             (p x = true /\
              map key block = map (fun year => (code x, year)) years))
    xs blocks ->
  map key (concat blocks) = panel (map code (List.filter p xs)) years.
Proof.
  unfold panel. induction 1 as [| x block xs blocks Hb _ IH]; simpl.
  - reflexivity.
  - destruct Hb as [[-> ->] | [-> Hb]]; simpl.
    + exact IH.
    + rewrite map_app, Hb, IH. reflexivity.
Qed.

Lemma poverty_block_keys rnd c block :
  poverty_block_of rnd c block ->
  (poverty_covered c = false /\ block = []) \/
  (poverty_covered c = true /\
   map poverty_key block = map (fun year => (country_code c, year)) survey_years).
Proof.
  intros [[Hc ->] | (Hc & lo215 & hi215 & lo365 & hi365 & lo685 & hi685
                      & k1 & k2 & k3 & _ & HF)].
  - left. auto.
  - right. split; [exact Hc |].
    eapply Forall2_map_eq; [| exact HF].
    intros year r (Hcode & Hyear & _). unfold poverty_key. now rewrite Hcode, Hyear.
Qed.

Lemma poverty_rows_draws rnd countries w rows w' :
  poverty_rows rnd countries w = (Ok rows, w') ->
  rng_pos w' = (rng_pos w + 3 * length (List.filter poverty_covered countries))%nat.
Proof.
  unfold poverty_rows. intros H.
  apply (for_each_draws (fun c => if poverty_covered c then 3%nat else 0%nat)) in H.
  { rewrite H. f_equal. clear.
    induction countries as [| c cs IH]; simpl; [reflexivity |].
    destruct (poverty_covered c); simpl; lia. }
  clear. intros c data w data' w' _ H.
  unfold poverty_covered.
  destruct (str_in (income_group c) _).
  2: { inversion H; subst. lia. }
  apply bind_Ok_inv in H as (bases & w1 & Hb & H).
  assert (Hpos : rng_pos w1 = (rng_pos w + 3)%nat).
  { repeat match type of Hb with
           | (if ?b then _ else _) _ = _ => destruct b
           end;
    do 3 peel Hb; inversion Hb; subst; cbn; lia. }
  destruct bases as [[base_215 base_365] base_685].
  apply (for_each_draws (fun _ => 0%nat)) in H.
  { rewrite H, Hpos. cbn. lia. }
  clear. intros year row_data wy row_data' wy' _ H.
  inversion H; subst. lia.
Qed.

Lemma poverty_rows_keys rnd countries w rows w' :
  poverty_rows rnd countries w = (Ok rows, w') ->
  map poverty_key rows
  = panel (map country_code (List.filter poverty_covered countries)) survey_years.
Proof.
  intros H. apply poverty_rows_blocks in H as (blocks & -> & HF).
  apply keys_of_filtered_blocks. eapply Forall2_impl; [exact HF |].
  intros c block. apply poverty_block_keys.
Qed.

(** X9. The table [poverty_indicators] a successful [load_poverty_data]
    stores is a complete panel over the five survey years and the
    countries of the three groups Low income, Lower middle income and
    Upper middle income, in the order of the frame; a country of any other
    group has no row and consumes no draw, a covered country consumes
    three; on a frame with distinct country codes no two rows share a
    key. *)
Theorem X9_poverty_panel rnd env conn countries w w' :
  load_poverty_data rnd env conn countries w = (Ok tt, w') ->
  rng_pos w'
  = (rng_pos w + 3 * length (List.filter poverty_covered countries))%nat /\
  exists rows,
    db w' !! "poverty_indicators" = Some (map RPoverty rows) /\
    map poverty_key rows
    = panel (map country_code (List.filter poverty_covered countries))
        survey_years /\
    (NoDup (map country_code countries) -> NoDup (map poverty_key rows)).
Proof.
  intros H.
  apply load_poverty_data_Ok_inv in H as (rows & w1 & Hrows & ->).
  cbn [rng_pos]. split.
  { apply poverty_rows_draws in Hrows. exact Hrows. }
  exists rows. split; [apply lookup_insert_eq |].
  apply poverty_rows_keys in Hrows. split; [exact Hrows |].
  intros Hnd. rewrite Hrows. apply NoDup_panel.
  - apply NoDup_map_filter, Hnd.
  - apply survey_years_NoDup.
Qed.

Lemma X9_witness :
  rng_pos (snd (load_poverty_data sample_rnd sample_env sample_conn catalog
                  new_world))
  = (rng_pos new_world + 3 * length (List.filter poverty_covered catalog))%nat /\
  exists rows,
    db (snd (load_poverty_data sample_rnd sample_env sample_conn catalog new_world))
      !! "poverty_indicators" = Some (map RPoverty rows) /\
    map poverty_key rows
    = panel (map country_code (List.filter poverty_covered catalog))
        survey_years /\
    (NoDup (map country_code catalog) -> NoDup (map poverty_key rows)).
Proof.
  apply (X9_poverty_panel sample_rnd sample_env sample_conn catalog new_world).
  vm_compute. reflexivity.
Defined.

(** Rounding to two decimals keeps a bound that has two decimals. *)
Lemma round2_cents (z : Z) : round2 (z # 100) == z # 100.
Proof.
  unfold round2.
  assert (H : (z # 100) * 100 == inject_Z z).
  { unfold Qeq, Qmult, inject_Z. simpl. lia. }
  rewrite (round_half_even_comp _ _ H), round_half_even_Z. reflexivity.
Qed.

Lemma round2_ge_cents (x : Q) (z : Z) : z # 100 <= x -> z # 100 <= round2 x.
Proof.
  intros H. rewrite <- (round2_cents z). now apply round2_mono.
Qed.

Lemma round2_le_cents (x : Q) (z : Z) : x <= z # 100 -> round2 x <= z # 100.
Proof.
  intros H. rewrite <- (round2_cents z). now apply round2_mono.
Qed.

Lemma reduction_factor_2015 : reduction_factor 2015 == 1.
Proof. reflexivity. Qed.

Lemma reduction_factor_2023 : reduction_factor 2023 == 17 # 20.
Proof. reflexivity. Qed.

(** A rate of 2023 against the rate of 2015 of the same base. *)
Lemma poverty_rate_2023 (base : Q) :
  (17 # 20) * round2 (base * reduction_factor 2015) - (1 # 100)
  <= round2 (base * reduction_factor 2023)
  <= (17 # 20) * round2 (base * reduction_factor 2015) + (1 # 100).
Proof.
  pose proof (round2_near (base * reduction_factor 2015)) as H0.
  pose proof (round2_near (base * reduction_factor 2023)) as H1.
  rewrite reduction_factor_2015 in H0 at 1 4.
  rewrite reduction_factor_2023 in H1 at 1 4.
  lra.
Qed.

(** X10. With draws in [0, 1), every row of [poverty_indicators] stores
    rates in (0, 95]: at least 0.85 and at most 70 at the 2.15 line, at
    least 4.25 and at most 85 at the 3.65 line, at least 12.75 and at most
    95 at the 6.85 line. The rows of a covered country run from 2015 to
    2023, and at each line the rate of 2023 is 85 percent of the rate of
    2015 up to one hundredth: the 15 percent reduction over the period. *)
Theorem X10_poverty_ranges rnd env conn countries w w' :
  (forall n, 0 <= rnd n < 1) ->
  load_poverty_data rnd env conn countries w = (Ok tt, w') ->
  exists blocks,
    db w' !! "poverty_indicators" = Some (map RPoverty (concat blocks)) /\
    Forall2 (fun c block =>
      Forall (fun r =>
        0.85 <= poverty_headcount_215_pct r <= 70 /\
        4.25 <= poverty_headcount_365_pct r <= 85 /\
        12.75 <= poverty_headcount_685_pct r <= 95) block /\
      (poverty_covered c = true ->
       exists r2015 r2017 r2019 r2021 r2023,
         block = [r2015; r2017; r2019; r2021; r2023] /\
         pov_year r2015 = 2015%Z /\ pov_year r2023 = 2023%Z /\
         Forall (fun rate =>
           0.85 * rate r2015 - 0.01 <= rate r2023 <= 0.85 * rate r2015 + 0.01)
           [poverty_headcount_215_pct; poverty_headcount_365_pct;
            poverty_headcount_685_pct]))
      countries blocks.
Proof.
  intros Hrange H.
  apply load_poverty_data_Ok_inv in H as (rows & w1 & Hrows & ->).
  apply poverty_rows_blocks in Hrows as (blocks & -> & HF).
  exists blocks. split; [apply lookup_insert_eq |].
  eapply Forall2_impl; [exact HF |].
  intros c block [[Hc ->] | (Hc & lo215 & hi215 & lo365 & hi365 & lo685 & hi685
                              & k1 & k2 & k3 & Hin & Hrowsof)].
  { split; [constructor |]. unfold poverty_covered. rewrite Hc. discriminate. }
  split.
  - apply Forall_forall. intros r Hr. apply list_elem_of_In in Hr.
    destruct (Forall2_In_r _ _ _ _ Hrowsof Hr) as (y & Hy & _ & _ & Ha & Hb & Hc').
    pose proof (reduction_factor_survey y Hy) as Hf.
    rewrite Ha, Hb, Hc'.
    pose proof (Hrange k1) as R1. pose proof (Hrange k2) as R2.
    pose proof (Hrange k3) as R3.
    set (f := reduction_factor y) in *.
    unfold poverty_ranges in Hin. simpl in Hin.
    destruct Hin as [Hin | [Hin | [Hin | []]]]; inversion Hin; subst; clear Hin;
      unfold uniform_value;
      (split; [split; [apply (round2_ge_cents _ 85) | apply (round2_le_Z _ 70)] |
       split; [split; [apply (round2_ge_cents _ 425) | apply (round2_le_Z _ 85)] |
               split; [apply (round2_ge_cents _ 1275) | apply (round2_le_Z _ 95)]]]);
      change (inject_Z 70) with 70; change (inject_Z 85) with 85;
      change (inject_Z 95) with 95; nra.
  - intros _. unfold survey_years in Hrowsof.
    repeat match goal with
           | H : Forall2 _ (_ :: _) _ |- _ =>
               inversion H as [| ? ? ? ? ? ?]; subst; clear H
           | H : Forall2 _ [] _ |- _ => inversion H; subst; clear H
           end.
    repeat match goal with
           | H : poverty_row_of _ _ _ _ _ _ |- _ =>
               destruct H as (_ & ? & ? & ? & ?)
           end.
    eexists _, _, _, _, _. split; [reflexivity |].
    split; [assumption |]. split; [assumption |].
    (constructor; [| constructor; [| constructor; [| constructor]]]);
      match goal with
      | H0 : ?rate ?a = round2 (?b * reduction_factor 2015),
        H1 : ?rate ?z = round2 (?b * reduction_factor 2023)
        |- _ <= ?rate ?z <= _ =>
          rewrite H0, H1; pose proof (poverty_rate_2023 b); lra
      end.
Qed.

Lemma X10_witness :
  exists blocks,
    db (snd (load_poverty_data sample_rnd sample_env sample_conn catalog new_world))
      !! "poverty_indicators" = Some (map RPoverty (concat blocks)) /\
    Forall2 (fun c block =>
      Forall (fun r =>
        0.85 <= poverty_headcount_215_pct r <= 70 /\
        4.25 <= poverty_headcount_365_pct r <= 85 /\
        12.75 <= poverty_headcount_685_pct r <= 95) block /\
      (poverty_covered c = true ->
       exists r2015 r2017 r2019 r2021 r2023,
         block = [r2015; r2017; r2019; r2021; r2023] /\
         pov_year r2015 = 2015%Z /\ pov_year r2023 = 2023%Z /\
         Forall (fun rate =>
           0.85 * rate r2015 - 0.01 <= rate r2023 <= 0.85 * rate r2015 + 0.01)
           [poverty_headcount_215_pct; poverty_headcount_365_pct;
            poverty_headcount_685_pct]))
      catalog blocks.
Proof.
  apply (X10_poverty_ranges sample_rnd sample_env sample_conn catalog new_world).
  - intros n. unfold sample_rnd. lra.
  - vm_compute. reflexivity.
Defined.

(** ** More on the trade and education table *)

Lemma trade_block_keys rnd c pos block :
  trade_block_at rnd c pos block ->
  map trade_key block = map (fun year => (country_code c, year)) (range 2015 2024).
Proof.
  unfold trade_block_at.
  destruct (enrollment_ranges_of (income_group c))
    as [[[[[slo shi] tlo] thi] glo] ghi].
  intros HF. eapply Forall2_map_eq; [| exact HF].
  intros year r (Hcode & Hyear & _). unfold trade_key. now rewrite Hcode, Hyear.
Qed.

Lemma trade_rows_draws rnd countries w rows w' :
  trade_rows rnd countries w = (Ok rows, w') ->
  rng_pos w' = (rng_pos w + 22 * length countries)%nat.
Proof.
  unfold trade_rows. intros H.
  apply (for_each_draws (fun _ => 22%nat)) in H.
  { rewrite H, list_sum_const. lia. }
  clear. intros c data w data' w' _ H.
  peel H.
  apply bind_Ok_inv in H as (bases & w1 & Hb & H).
  assert (Hpos : rng_pos w1 = (rng_pos w + 4)%nat).
  { repeat match type of Hb with
           | (if ?b then _ else _) _ = _ => destruct b
           end;
    do 3 peel Hb; inversion Hb; subst; cbn; lia. }
  destruct bases as [[sec_enrollment ter_enrollment] gov_edu_exp].
  apply (for_each_draws (fun _ => 2%nat)) in H.
  { rewrite H, Hpos, list_sum_const.
    change (length (range 2015 2024)) with 9%nat. lia. }
  clear. intros year row_data wy row_data' wy' _ H.
  do 2 peel H. inversion H; subst. cbn. lia.
Qed.

Lemma trade_rows_keys rnd countries w rows w' :
  trade_rows rnd countries w = (Ok rows, w') ->
  map trade_key rows = panel (map country_code countries) (range 2015 2024).
Proof.
  intros H. apply trade_rows_blocks in H as (blocks & -> & HF & _).
  apply keys_of_blocks. eapply Forall2_impl; [exact HF |].
  intros c block (pos & HB). eapply trade_block_keys, HB.
Qed.

(** X11. The table [trade_education] a successful [load_trade_education]
    stores is a complete panel: its keys (country code, year) are, in the
    order of the frame, every country with each year of 2015..2023 once; on
    a frame with distinct country codes no two rows share a key. The call
    consumes 22 draws per country: the four bases and two per year. *)
Theorem X11_trade_panel rnd env conn countries w w' :
  load_trade_education rnd env conn countries w = (Ok tt, w') ->
  rng_pos w' = (rng_pos w + 22 * length countries)%nat /\
  exists rows,
    db w' !! "trade_education" = Some (map RTrade rows) /\
    map trade_key rows = panel (map country_code countries) (range 2015 2024) /\
    (NoDup (map country_code countries) -> NoDup (map trade_key rows)).
Proof.
  intros H.
  apply load_trade_education_Ok_inv in H as (rows & w1 & Hrows & ->).
  cbn [rng_pos]. split.
  { apply trade_rows_draws in Hrows. exact Hrows. }
  exists rows. split; [apply lookup_insert_eq |].
  apply trade_rows_keys in Hrows. split; [exact Hrows |].
  intros Hnd. rewrite Hrows. apply NoDup_panel; [exact Hnd |].
  apply range_2015_2024_NoDup.
Qed.

Lemma X11_witness :
  rng_pos (snd (load_trade_education sample_rnd sample_env sample_conn catalog
                  new_world))
  = (rng_pos new_world + 22 * length catalog)%nat /\
  exists rows,
    db (snd (load_trade_education sample_rnd sample_env sample_conn catalog
               new_world))
      !! "trade_education" = Some (map RTrade rows) /\
    map trade_key rows = panel (map country_code catalog) (range 2015 2024) /\
    (NoDup (map country_code catalog) -> NoDup (map trade_key rows)).
Proof.
  apply (X11_trade_panel sample_rnd sample_env sample_conn catalog new_world).
  vm_compute. reflexivity.
Defined.

Lemma py_min_mono (a x y : Q) : x <= y -> py_min a x <= py_min a y.
Proof.
  intros H.
  destruct (py_min_spec a x) as [[Hx ->] | [Hx ->]];
    destruct (py_min_spec a y) as [[Hy ->] | [Hy ->]]; lra.
Qed.

Lemma py_min_inactive (a x : Q) : x < a -> py_min a x = x.
Proof.
  intros H. destruct (py_min_spec a x) as [[_ ->] | [Hx _]]; [reflexivity | lra].
Qed.

(** The secondary base is drawn below 95 outside the High income group. *)
Lemma enrollment_ranges_of_secondary group slo shi tlo thi glo ghi :
  enrollment_ranges_of group = (slo, shi, tlo, thi, glo, ghi) ->
  slo <= shi /\ (String.eqb group "High income" = false -> shi <= 95).
Proof.
  unfold enrollment_ranges_of.
  destruct (String.eqb group "High income").
  { intros H; inversion H; subst. split; [lra | discriminate]. }
  repeat match goal with
         | |- (if ?b then _ else _) = _ -> _ => destruct b
         end;
    intros H; inversion H; subst; split; try lra; intros _; lra.
Qed.

(** X12. With draws in [0, 1), among the rows of one country in
    [trade_education] the enrollment rates follow the years: of two rows the
    one of the later year has a secondary rate at least as high and a
    tertiary rate higher by 0.29 or more; outside the High income group the
    cap at 105 is never reached and the secondary rate is higher by 0.49 or
    more. *)
Theorem X12_enrollment_increases rnd env conn countries w w' :
  (forall n, 0 <= rnd n < 1) ->
  load_trade_education rnd env conn countries w = (Ok tt, w') ->
  exists blocks,
    db w' !! "trade_education" = Some (map RTrade (concat blocks)) /\
    Forall2 (fun c block =>
      forall r1 r2,
        In r1 block -> In r2 block -> (te_year r1 < te_year r2)%Z ->
        secondary_enrollment_rate r1 <= secondary_enrollment_rate r2 /\
        tertiary_enrollment_rate r1 + 0.29 <= tertiary_enrollment_rate r2 /\
        (String.eqb (income_group c) "High income" = false ->
         secondary_enrollment_rate r2 < 105 /\
         secondary_enrollment_rate r1 + 0.49 <= secondary_enrollment_rate r2))
      countries blocks.
Proof.
  intros Hrange H.
  apply load_trade_education_Ok_inv in H as (rows & w1 & Hrows & ->).
  apply trade_rows_blocks in Hrows as (blocks & -> & HF & _).
  exists blocks. split; [apply lookup_insert_eq |].
  eapply Forall2_impl; [exact HF |].
  intros c block (pos & HB) r1 r2 H1 H2 Hlt. unfold trade_block_at in HB.
  destruct (enrollment_ranges_of (income_group c))
    as [[[[[slo shi] tlo] thi] glo] ghi] eqn:Eranges.
  apply enrollment_ranges_of_secondary in Eranges as [Hs Hcap].
  destruct (Forall2_In_r _ _ _ _ HB H1) as (y1 & Hy1 & _ & Ey1 & Hsec1 & Hter1 & _).
  destruct (Forall2_In_r _ _ _ _ HB H2) as (y2 & Hy2 & _ & Ey2 & Hsec2 & Hter2 & _).
  rewrite Ey1, Ey2 in Hlt.
  pose proof (inject_Z_elapsed y1 Hy1) as Hk1.
  pose proof (inject_Z_elapsed y2 Hy2) as Hk2.
  assert (Hstep : inject_Z (y1 - 2015) + 1 <= inject_Z (y2 - 2015)).
  { apply inject_Z_lt_succ. lia. }
  pose proof (uniform_value_range slo shi (rnd (1 + pos)%nat) Hs (Hrange _)) as Hu.
  rewrite Hsec1, Hsec2, Hter1, Hter2.
  set (s := uniform_value slo shi (rnd (1 + pos)%nat)) in *.
  set (t := uniform_value tlo thi (rnd (2 + pos)%nat)) in *.
  set (k1 := inject_Z (y1 - 2015)) in *.
  set (k2 := inject_Z (y2 - 2015)) in *.
  split; [| split].
  - apply round2_mono, py_min_mono. lra.
  - pose proof (round2_near (t + k1 * 0.3)) as N1.
    pose proof (round2_near (t + k2 * 0.3)) as N2.
    lra.
  - intros Hgroup. specialize (Hcap Hgroup).
    rewrite !py_min_inactive by lra.
    pose proof (round2_near (s + k1 * 0.5)) as N1.
    pose proof (round2_near (s + k2 * 0.5)) as N2.
    split; [| lra].
    apply Qle_lt_trans with (y := 99); [| lra].
    apply (round2_le_Z _ 99). change (inject_Z 99) with 99. lra.
Qed.

Lemma X12_witness :
  exists blocks,
    db (snd (load_trade_education sample_rnd sample_env sample_conn catalog new_world))
      !! "trade_education" = Some (map RTrade (concat blocks)) /\
    Forall2 (fun c block =>
      forall r1 r2,
        In r1 block -> In r2 block -> (te_year r1 < te_year r2)%Z ->
        secondary_enrollment_rate r1 <= secondary_enrollment_rate r2 /\
        tertiary_enrollment_rate r1 + 0.29 <= tertiary_enrollment_rate r2 /\
        (String.eqb (income_group c) "High income" = false ->
         secondary_enrollment_rate r2 < 105 /\
         secondary_enrollment_rate r1 + 0.49 <= secondary_enrollment_rate r2))
      catalog blocks.
Proof.
  apply (X12_enrollment_increases sample_rnd sample_env sample_conn catalog new_world).
  - intros n. unfold sample_rnd. lra.
  - vm_compute. reflexivity.
Defined.

Lemma enrollment_ranges_of_bounds group slo shi tlo thi glo ghi :
  enrollment_ranges_of group = (slo, shi, tlo, thi, glo, ghi) ->
  30 <= slo /\ slo <= shi /\ 5 <= tlo /\ tlo <= thi /\
  2 <= glo /\ glo <= ghi /\ ghi <= 6.
Proof.
  unfold enrollment_ranges_of.
  repeat match goal with
         | |- (if ?b then _ else _) = _ -> _ => destruct b
         end;
    intros H; inversion H; subst; lra.
Qed.

(** X13. With draws in [0, 1), every row of [trade_education] stores a
    trade share in [30, 160], an education expenditure in [1.5, 6.5], a
    secondary rate of at least 30 and a tertiary rate of at least 5. *)
Theorem X13_trade_ranges rnd env conn countries w w' :
  (forall n, 0 <= rnd n < 1) ->
  load_trade_education rnd env conn countries w = (Ok tt, w') ->
  exists rows,
    db w' !! "trade_education" = Some (map RTrade rows) /\
    Forall (fun r =>
      30 <= trade_pct_gdp r <= 160 /\
      1.5 <= government_expenditure_education_pct r <= 6.5 /\
      30 <= secondary_enrollment_rate r /\
      5 <= tertiary_enrollment_rate r) rows.
Proof.
  intros Hrange H.
  apply load_trade_education_Ok_inv in H as (rows & w1 & Hrows & ->).
  exists rows. split; [apply lookup_insert_eq |].
  apply trade_rows_blocks in Hrows as (blocks & -> & HF & _).
  apply Forall_forall. intros r Hr. apply list_elem_of_In in Hr.
  destruct (In_concat_block _ _ _ _ HF Hr) as (c & block & _ & (pos & HB) & Hrb).
  unfold trade_block_at in HB.
  destruct (enrollment_ranges_of (income_group c))
    as [[[[[slo shi] tlo] thi] glo] ghi] eqn:Eranges.
  apply enrollment_ranges_of_bounds in Eranges
    as (Hs1 & Hs2 & Ht1 & Ht2 & Hg1 & Hg2 & Hg3).
  destruct (Forall2_In_r _ _ _ _ HB Hrb)
    as (year & Hyear & _ & _ & Hsec & Hter & k1 & k2 & Htrade & Hgov).
  pose proof (inject_Z_elapsed year Hyear) as Hk.
  pose proof (uniform_value_range 40 150 (rnd pos) ltac:(lra) (Hrange _)) as Ub.
  pose proof (uniform_value_range slo shi (rnd (1 + pos)%nat) Hs2 (Hrange _)) as Us.
  pose proof (uniform_value_range tlo thi (rnd (2 + pos)%nat) Ht2 (Hrange _)) as Ut.
  pose proof (uniform_value_range glo ghi (rnd (3 + pos)%nat) Hg2 (Hrange _)) as Ug.
  pose proof (uniform_value_range (-10) 10 (rnd k1) ltac:(lra) (Hrange _)) as Un.
  pose proof (uniform_value_range (-0.5) 0.5 (rnd k2) ltac:(lra) (Hrange _)) as Ue.
  rewrite Hsec, Hter, Htrade, Hgov.
  set (b := uniform_value 40 150 (rnd pos)) in *.
  set (s := uniform_value slo shi (rnd (1 + pos)%nat)) in *.
  set (t := uniform_value tlo thi (rnd (2 + pos)%nat)) in *.
  set (g := uniform_value glo ghi (rnd (3 + pos)%nat)) in *.
  set (n := uniform_value (-10) 10 (rnd k1)) in *.
  set (e := uniform_value (-0.5) 0.5 (rnd k2)) in *.
  set (k := inject_Z (year - 2015)) in *.
  split; [| split; [| split]].
  - split; [apply (round2_ge_Z _ 30) | apply (round2_le_Z _ 160)].
    + change (inject_Z 30) with 30. lra.
    + change (inject_Z 160) with 160. lra.
  - split.
    + apply Qle_trans with (150 # 100); [lra | apply round2_ge_cents; lra].
    + apply Qle_trans with (650 # 100); [apply round2_le_cents; lra | lra].
  - apply (round2_ge_Z _ 30). change (inject_Z 30) with 30.
    destruct (py_min_spec 105 (s + k * 0.5)) as [[_ ->] | [_ ->]]; lra.
  - apply (round2_ge_Z _ 5). change (inject_Z 5) with 5. lra.
Qed.

Lemma X13_witness :
  exists rows,
    db (snd (load_trade_education sample_rnd sample_env sample_conn catalog new_world))
      !! "trade_education" = Some (map RTrade rows) /\
    Forall (fun r =>
      30 <= trade_pct_gdp r <= 160 /\
      1.5 <= government_expenditure_education_pct r <= 6.5 /\
      30 <= secondary_enrollment_rate r /\
      5 <= tertiary_enrollment_rate r) rows.
Proof.
  apply (X13_trade_ranges sample_rnd sample_env sample_conn catalog new_world).
  - intros n. unfold sample_rnd. lra.
  - vm_compute. reflexivity.
Defined.

(* ===================================================================== *)
(** * Further properties of the run *)
(* ===================================================================== *)

(** What the [try] block of [main] has done when it returns. *)
Lemma main_try_Ok_inv rnd env conn w u w' :
  main_try rnd env conn w = (Ok u, w') ->
  exists text d1 gdp ineq pov trade wg vg wi vi wp vp wt vt,
    schema_sql env = Ok text /\
    run_script env text (db w) = (Ok tt, d1) /\
    gdp_rows rnd catalog wg = (Ok gdp, vg) /\ rng_pos wg = rng_pos w /\
    inequality_rows rnd catalog wi = (Ok ineq, vi) /\ rng_pos wi = rng_pos vg /\
    poverty_rows rnd catalog wp = (Ok pov, vp) /\ rng_pos wp = rng_pos vi /\
    trade_rows rnd catalog wt = (Ok trade, vt) /\ rng_pos wt = rng_pos vp /\
    w' = World (rng_pos vt)
           (<["trade_education" := map RTrade trade]>
              (<["poverty_indicators" := map RPoverty pov]>
                 (<["inequality_metrics" := map RInequality ineq]>
                    (<["gdp_data" := map RGdp gdp]>
                       (<["country_metadata" := map RCountry catalog]> d1)))))
           (console w
            ++ [ Line "Creating database schema...";
                 Line "Schema created";
                 Line "Loading country metadata...";
                 LoadedLine (length catalog) "countries";
                 Line "Creating GDP data...";
                 LoadedLine (length gdp) "GDP records";
                 Line "Creating inequality data...";
                 LoadedLine (length ineq) "inequality records";
                 Line "Creating poverty data...";
                 LoadedLine (length pov) "poverty records";
                 Line "Creating trade and education data...";
                 LoadedLine (length trade) "trade/education records" ]
            ++ map Line summary_header
            ++ [ CountLine "country_metadata" (length catalog);
                 CountLine "gdp_data" (length gdp);
                 CountLine "inequality_metrics" (length ineq);
                 CountLine "poverty_indicators" (length pov);
                 CountLine "trade_education" (length trade) ]
            ++ map Line next_steps)%list
           (conn_open w).
Proof.
  unfold main_try. intros H.
  apply bind_Ok_inv in H as (u0 & w0 & Hp0 & H).
  inversion Hp0; subst; clear Hp0.
  apply bind_Ok_inv in H as (text & w1 & Ho & H).
  unfold open_read in Ho.
  destruct (schema_sql env) as [text0 | e0] eqn:Eschema; [| discriminate].
  inversion Ho; subst; clear Ho.
  apply bind_Ok_inv in H as (u1 & w2 & He & H).
  unfold executescript, bind, get_db, set_db in He. cbn [db] in He.
  destruct (run_script env text (db w)) as [[[] | e1] d1] eqn:Escript;
    [| discriminate].
  inversion He; subst; clear He.
  apply bind_Ok_inv in H as (u2 & w3 & Hp1 & H).
  inversion Hp1; subst; clear Hp1.
  cbn [rng_pos db console conn_open] in H.
  apply bind_Ok_inv in H as (countries & w4 & Hc & H).
  apply load_country_metadata_Ok_inv in Hc as [-> ->].
  cbn [rng_pos db console conn_open] in H.
  apply bind_Ok_inv in H as (u3 & w5 & Hg & H).
  apply load_gdp_data_Ok_inv in Hg as (gdp & vg & Hgdp & ->).
  cbn [rng_pos db console conn_open] in H.
  apply bind_Ok_inv in H as (u4 & w6 & Hi & H).
  apply load_inequality_data_Ok_inv in Hi as (ineq & vi & Hineq & ->).
  cbn [rng_pos db console conn_open] in H.
  apply bind_Ok_inv in H as (u5 & w7 & Hp & H).
  apply load_poverty_data_Ok_inv in Hp as (pov & vp & Hpov & ->).
  cbn [rng_pos db console conn_open] in H.
  apply bind_Ok_inv in H as (u6 & w8 & Ht & H).
  apply load_trade_education_Ok_inv in Ht as (trade & vt & Htrade & ->).
  cbn [rng_pos db console conn_open] in H.
  apply bind_Ok_inv in H as (u7 & w9 & Hs & H).
  rewrite print_all_eval in Hs. inversion Hs; subst; clear Hs.
  cbn [rng_pos db console conn_open] in H.
  apply bind_Ok_inv in H as (u8 & w10 & Hloop & H).
  rewrite print_all_eval in H. inversion H; subst; clear H.
  unfold tables in Hloop. cbn [for_each] in Hloop.
  repeat match type of Hloop with
         | bind _ _ _ = _ =>
             let Hstep := fresh "Hstep" in
             apply bind_Ok_inv in Hloop as (? & ? & Hstep & Hloop);
             unfold read_count, bind, get_db in Hstep;
             cbn [rng_pos db console conn_open] in Hstep;
             repeat (rewrite lookup_insert_eq in Hstep
                     || rewrite lookup_insert_ne in Hstep by discriminate);
             inversion Hstep; subst; clear Hstep;
             cbn [rng_pos db console conn_open] in Hloop
         end.
  inversion Hloop; subst; clear Hloop.
  cbn [rng_pos db console conn_open].
  eexists text, d1, gdp, ineq, pov, trade, _, vg, _, vi, _, vp, _, vt.
  split; [reflexivity |]. split; [assumption |].
  split; [exact Hgdp |]. split; [reflexivity |].
  split; [exact Hineq |]. split; [reflexivity |].
  split; [exact Hpov |]. split; [reflexivity |].
  split; [exact Htrade |]. split; [reflexivity |].
  rewrite !length_map. f_equal.
  rewrite <- !app_assoc. reflexivity.
Qed.

(** A run whose last line is the closing line is its [try] block with the
    connection closed after it. *)
Lemma main_completed_inv rnd env w w' :
  main rnd env w = (Ok tt, w') -> completed w' ->
  connect_error env = None /\
  exists w2,
    main_try rnd env (Connection DB_PATH) (entered w) = (Ok tt, w2) /\
    w' = World (rng_pos w2) (db w2) (console w2) false.
Proof.
  rewrite main_unfold. intros H Hlast.
  destruct (connect_error env); [discriminate |].
  split; [reflexivity |].
  destruct (main_try rnd env (Connection DB_PATH) (entered w)) as [[[] | e] w2].
  - inversion H; subst. exists w2. auto.
  - inversion H; subst. unfold completed in Hlast. simpl in Hlast.
    change [ErrorLine e; TracebackLine e]
      with ([ErrorLine e] ++ [TracebackLine e])%list in Hlast.
    rewrite app_assoc, last_snoc in Hlast. discriminate.
Qed.

Lemma catalog_covered :
  length (List.filter poverty_covered catalog) = 22%nat.
Proof. vm_compute. reflexivity. Qed.

(** X14. A run of [main] that goes through prints the same lines whatever
    the draws: the banner, the six stages with 48 countries and 432, 240,
    110 and 432 records, the summary with the same five counts, and the
    next steps. It consumes 2418 draws, 528 for the GDP table, 768 for the
    inequality table, 66 for the poverty table and 1056 for the trade and
    education table, and leaves the connection closed. *)
Theorem X14_completed_run_output rnd env w w' :
  main rnd env w = (Ok tt, w') -> completed w' ->
  console w' = (console w ++ completed_output)%list /\
  rng_pos w' = (rng_pos w + 2418)%nat /\
  conn_open w' = false.
Proof.
  intros H Hlast.
  apply main_completed_inv in H as (_ & w2 & Htry & ->); [| exact Hlast].
  apply main_try_Ok_inv in Htry
    as (text & d1 & gdp & ineq & pov & trade & wg & vg & wi & vi & wp & vp
        & wt & vt & _ & _ & Hgdp & Pg & Hineq & Pi & Hpov & Pp & Htrade & Pt
        & ->).
  cbn [rng_pos db console conn_open].
  pose proof (gdp_rows_length _ _ _ _ _ Hgdp) as Lg.
  pose proof (inequality_rows_length _ _ _ _ _ Hineq) as Li.
  pose proof (poverty_rows_length _ _ _ _ _ Hpov) as Lp.
  pose proof (trade_rows_length _ _ _ _ _ Htrade) as Lt.
  rewrite catalog_poverty_countries, catalog_non_high_income in Lp.
  rewrite catalog_length in Lg, Li, Lt.
  apply gdp_rows_draws in Hgdp. apply inequality_rows_draws in Hineq.
  apply poverty_rows_draws in Hpov. apply trade_rows_draws in Htrade.
  rewrite catalog_covered in Hpov. rewrite catalog_length in *.
  change (rng_pos (entered w)) with (rng_pos w) in Pg.
  split; [| split; [lia | reflexivity]].
  rewrite Lg, Li, Lp, Lt. unfold completed_output, entered. cbn [console].
  rewrite <- !app_assoc. reflexivity.
Qed.

Lemma X14_witness :
  console (snd (main sample_rnd sample_env new_world))
  = (console new_world ++ completed_output)%list /\
  rng_pos (snd (main sample_rnd sample_env new_world))
  = (rng_pos new_world + 2418)%nat /\
  conn_open (snd (main sample_rnd sample_env new_world)) = false.
Proof.
  apply (X14_completed_run_output sample_rnd sample_env new_world).
  - vm_compute. reflexivity.
  - vm_compute. reflexivity.
Defined.

(** ** Keys *)

Lemma catalog_codes_NoDup : NoDup (map country_code catalog).
Proof. apply (bool_decide_unpack _). vm_compute. exact I. Qed.

Lemma panel_In (codes : list string) (years : list Z) code year :
  In (code, year) (panel codes years) -> In code codes.
Proof.
  unfold panel. intros H. apply in_concat in H as (l & Hl & H).
  apply in_map_iff in Hl as (c & <- & Hc).
  apply in_map_iff in H as (y & E & _). inversion E; subst. exact Hc.
Qed.

(** A table whose keys form a panel over some of the catalog's codes has
    distinct row keys, each under a code of the catalog. *)
Lemma panel_table_keys {R} (inj : R -> row) (key : R -> string * Z)
    (codes : list string) (years : list Z) (rows : list R) :
  (forall r, row_key (inj r) = (fst (key r), Some (snd (key r)))) ->
  map key rows = panel codes years ->
  NoDup codes -> NoDup years ->
  (forall code, In code codes -> In code (map country_code catalog)) ->
  NoDup (map row_key (map inj rows)) /\
  Forall (fun r => In (fst (row_key r)) (map country_code catalog))
    (map inj rows).
Proof.
  intros Hkey Hpanel Hcodes Hyears Hsub. split.
  - rewrite map_map.
    rewrite (map_ext _ (fun r => (fun k : string * Z => (fst k, Some (snd k))) (key r)))
      by exact Hkey.
    rewrite <- (map_map key (fun k : string * Z => (fst k, Some (snd k)))).
    apply NoDup_fmap_2.
    + intros [c1 y1] [c2 y2] E. simpl in E. inversion E. reflexivity.
    + rewrite Hpanel. now apply NoDup_panel.
  - apply Forall_forall. intros r Hr.
    apply list_elem_of_In, in_map_iff in Hr as (r0 & <- & Hr0).
    rewrite Hkey. cbn [fst]. apply Hsub.
    apply (in_map key) in Hr0. rewrite Hpanel in Hr0.
    destruct (key r0) as [code year]. eapply panel_In. exact Hr0.
Qed.

(** X15. After a run of [main] that goes through, [country_metadata]
    holds the catalog, and in each of the five tables no two rows share
    their key, the country code and, where there is one, the year, and
    every row carries the code of a country of [country_metadata]. *)
Theorem X15_completed_run_keys rnd env w w' :
  main rnd env w = (Ok tt, w') -> completed w' ->
  db w' !! "country_metadata" = Some (map RCountry catalog) /\
  Forall (fun table =>
    exists rows,
      db w' !! table = Some rows /\
      NoDup (map row_key rows) /\
      Forall (fun r => In (fst (row_key r)) (map country_code catalog)) rows)
    tables.
Proof.
  intros H Hlast.
  apply main_completed_inv in H as (_ & w2 & Htry & ->); [| exact Hlast].
  apply main_try_Ok_inv in Htry
    as (text & d1 & gdp & ineq & pov & trade & wg & vg & wi & vi & wp & vp
        & wt & vt & _ & _ & Hgdp & _ & Hineq & _ & Hpov & _ & Htrade & _
        & ->).
  cbn [rng_pos db console conn_open].
  apply gdp_rows_keys in Hgdp. apply inequality_rows_keys in Hineq.
  apply poverty_rows_keys in Hpov. apply trade_rows_keys in Htrade.
  pose proof catalog_codes_NoDup as Hnd.
  split.
  { rewrite !lookup_insert_ne by discriminate. apply lookup_insert_eq. }
  unfold tables.
  repeat (apply List.Forall_cons);
    [ exists (map RCountry catalog) | exists (map RGdp gdp)
    | exists (map RInequality ineq) | exists (map RPoverty pov)
    | exists (map RTrade trade) | apply List.Forall_nil ];
    (split;
     [ repeat (rewrite lookup_insert_eq || rewrite lookup_insert_ne by discriminate);
       reflexivity |]).
  - split.
    + rewrite map_map.
      rewrite (map_ext _ (fun c => (fun code : string => (code, @None Z))
                                     (country_code c))) by reflexivity.
      rewrite <- (map_map country_code (fun code : string => (code, @None Z))).
      apply NoDup_fmap_2; [| exact Hnd].
      intros c1 c2 E. now inversion E.
    + apply Forall_forall. intros r Hr.
      apply list_elem_of_In, in_map_iff in Hr as (c & <- & Hc).
      cbn [row_key fst]. now apply in_map.
  - apply (panel_table_keys RGdp gdp_key _ _ _ ltac:(reflexivity) Hgdp Hnd
             range_2015_2024_NoDup). auto.
  - apply (panel_table_keys RInequality inequality_key _ _ _ ltac:(reflexivity)
             Hineq Hnd survey_years_NoDup). auto.
  - apply (panel_table_keys RPoverty poverty_key _ _ _ ltac:(reflexivity)
             Hpov (NoDup_map_filter _ _ _ Hnd) survey_years_NoDup).
    intros code Hcode. apply in_map_iff in Hcode as (c & <- & Hc).
    apply filter_In in Hc as [Hc _]. now apply in_map.
  - apply (panel_table_keys RTrade trade_key _ _ _ ltac:(reflexivity) Htrade Hnd
             range_2015_2024_NoDup). auto.
Qed.

Lemma X15_witness :
  db (snd (main sample_rnd sample_env new_world)) !! "country_metadata"
  = Some (map RCountry catalog) /\
  Forall (fun table =>
    exists rows,
      db (snd (main sample_rnd sample_env new_world)) !! table = Some rows /\
      NoDup (map row_key rows) /\
      Forall (fun r => In (fst (row_key r)) (map country_code catalog)) rows)
    tables.
Proof.
  apply (X15_completed_run_keys sample_rnd sample_env new_world).
  - vm_compute. reflexivity.
  - vm_compute. reflexivity.
Defined.

(** ** Columns that stay empty *)

Lemma gdp_rows_total_empty rnd countries w rows w' :
  gdp_rows rnd countries w = (Ok rows, w') ->
  Forall (fun r => gdp_total_current_usd r = None) rows.
Proof.
  intros H. apply gdp_rows_blocks_at in H as (blocks & -> & HF).
  apply Forall_forall. intros r Hr. apply list_elem_of_In in Hr.
  destruct (In_concat_block _ _ _ _ HF Hr)
    as (c & block & _ & (pos & min_gdp & max_gdp & _ & ->) & Hrb).
  apply in_map_iff in Hrb as (year & <- & _). unfold gdp_row.
  destruct (if (year =? 2020)%Z then _ else _) as [lo hi]. reflexivity.
Qed.

Lemma poverty_rows_gap_empty rnd countries w rows w' :
  poverty_rows rnd countries w = (Ok rows, w') ->
  Forall (fun r => poverty_gap r = None) rows.
Proof.
  unfold poverty_rows. intros H.
  apply (for_each_rows (fun r => poverty_gap r = None)) in H
    as (new & -> & HF); [exact HF |].
  clear. intros c data w data' w' _ H.
  destruct (str_in (income_group c) _).
  2: { inversion H; subst. exists []. rewrite app_nil_r. auto. }
  apply bind_Ok_inv in H as ([[base_215 base_365] base_685] & w1 & _ & H).
  eapply for_each_rows; [| exact H].
  clear. intros year row_data wy row_data' wy' _ H.
  inversion H; subst; clear H.
  eexists. split; [reflexivity |]. repeat constructor.
Qed.

Lemma catalog_population_empty :
  Forall (fun c => population_2023 c = None) catalog.
Proof.
  change catalog with (set_population_2023 None catalog).
  unfold set_population_2023. apply Forall_forall. intros c Hc.
  apply list_elem_of_In, in_map_iff in Hc as (c0 & <- & _). reflexivity.
Qed.

(** X16. The three columns the loaders never fill: after a run of [main]
    that goes through, [population_2023] is empty in every row of
    [country_metadata], [gdp_total_current_usd] in every row of [gdp_data]
    and [poverty_gap] in every row of [poverty_indicators]. *)
Theorem X16_empty_columns rnd env w w' :
  main rnd env w = (Ok tt, w') -> completed w' ->
  exists countries gdp pov,
    db w' !! "country_metadata" = Some (map RCountry countries) /\
    Forall (fun c => population_2023 c = None) countries /\
    db w' !! "gdp_data" = Some (map RGdp gdp) /\
    Forall (fun r => gdp_total_current_usd r = None) gdp /\
    db w' !! "poverty_indicators" = Some (map RPoverty pov) /\
    Forall (fun r => poverty_gap r = None) pov.
Proof.
  intros H Hlast.
  apply main_completed_inv in H as (_ & w2 & Htry & ->); [| exact Hlast].
  apply main_try_Ok_inv in Htry
    as (text & d1 & gdp & ineq & pov & trade & wg & vg & wi & vi & wp & vp
        & wt & vt & _ & _ & Hgdp & _ & _ & _ & Hpov & _ & _ & _ & ->).
  cbn [rng_pos db console conn_open].
  exists catalog, gdp, pov.
  split.
  { repeat (rewrite lookup_insert_eq || rewrite lookup_insert_ne by discriminate).
    reflexivity. }
  split; [apply catalog_population_empty |].
  split.
  { repeat (rewrite lookup_insert_eq || rewrite lookup_insert_ne by discriminate).
    reflexivity. }
  split; [eapply gdp_rows_total_empty, Hgdp |].
  split.
  { repeat (rewrite lookup_insert_eq || rewrite lookup_insert_ne by discriminate).
    reflexivity. }
  eapply poverty_rows_gap_empty, Hpov.
Qed.

Lemma X16_witness :
  exists countries gdp pov,
    db (snd (main sample_rnd sample_env new_world)) !! "country_metadata"
      = Some (map RCountry countries) /\
    Forall (fun c => population_2023 c = None) countries /\
    db (snd (main sample_rnd sample_env new_world)) !! "gdp_data"
      = Some (map RGdp gdp) /\
    Forall (fun r => gdp_total_current_usd r = None) gdp /\
    db (snd (main sample_rnd sample_env new_world)) !! "poverty_indicators"
      = Some (map RPoverty pov) /\
    Forall (fun r => poverty_gap r = None) pov.
Proof.
  apply (X16_empty_columns sample_rnd sample_env new_world).
  - vm_compute. reflexivity.
  - vm_compute. reflexivity.
Defined.

(** ** Where a failure comes from *)

(** A loader raises what its generator raises or what the write raises. *)
Lemma load_table_Raise_inv {R} env (gen : M (list R)) (inj : R -> row)
    (start name what : string) conn w e w' :
  (print start ;;;
   df <- gen ;;
   to_sql env (map inj df) name conn IfExistsReplace ;;;
   emit (LoadedLine (length df) what)) w = (Raise e, w') ->
  (exists w0 w1, gen w0 = (Raise e, w1)) \/
  (exists d, write_error env name d = Some e).
Proof.
  intros H.
  apply bind_Raise_inv in H as [H | (u0 & w0 & _ & H)]; [discriminate |].
  apply bind_Raise_inv in H as [H | (df & w1 & _ & H)]; [left; eauto |].
  apply bind_Raise_inv in H as [H | (u1 & w2 & _ & H)]; [| discriminate].
  right. unfold to_sql, bind, get_db, set_db, raise in H.
  destruct (write_error env name (db w1)) as [e1 |] eqn:Ew.
  - exists (db w1). rewrite Ew. inversion H. reflexivity.
  - destruct (db w1 !! name); discriminate.
Qed.

Lemma load_gdp_data_Raise_inv rnd env conn countries w e w' :
  load_gdp_data rnd env conn countries w = (Raise e, w') ->
  (exists w0 w1, gdp_rows rnd countries w0 = (Raise e, w1)) \/
  (exists d, write_error env "gdp_data" d = Some e).
Proof. unfold load_gdp_data. apply load_table_Raise_inv. Qed.

Lemma load_inequality_data_Raise_inv rnd env conn countries w e w' :
  load_inequality_data rnd env conn countries w = (Raise e, w') ->
  (exists w0 w1, inequality_rows rnd countries w0 = (Raise e, w1)) \/
  (exists d, write_error env "inequality_metrics" d = Some e).
Proof. unfold load_inequality_data. apply load_table_Raise_inv. Qed.

Lemma load_poverty_data_Raise_inv rnd env conn countries w e w' :
  load_poverty_data rnd env conn countries w = (Raise e, w') ->
  (exists w0 w1, poverty_rows rnd countries w0 = (Raise e, w1)) \/
  (exists d, write_error env "poverty_indicators" d = Some e).
Proof. unfold load_poverty_data. apply load_table_Raise_inv. Qed.

Lemma load_trade_education_Raise_inv rnd env conn countries w e w' :
  load_trade_education rnd env conn countries w = (Raise e, w') ->
  (exists w0 w1, trade_rows rnd countries w0 = (Raise e, w1)) \/
  (exists d, write_error env "trade_education" d = Some e).
Proof. unfold load_trade_education. apply load_table_Raise_inv. Qed.

Lemma load_country_metadata_Raise_inv env conn w e w' :
  load_country_metadata env conn w = (Raise e, w') ->
  exists d, write_error env "country_metadata" d = Some e.
Proof.
  unfold load_country_metadata. rewrite DataFrame_countries_data. intros H.
  apply bind_Raise_inv in H as [H | (a1 & v1 & _ & H)]; [discriminate |].
  apply bind_Raise_inv in H as [H | (df & v2 & _ & H)]; [discriminate |].
  apply bind_Raise_inv in H as [H | (a2 & v3 & _ & H)].
  - unfold to_sql, bind, get_db, set_db, raise in H.
    destruct (write_error env "country_metadata" (db v2)) as [e1 |] eqn:Ew.
    + exists (db v2). rewrite Ew. inversion H. reflexivity.
    + destruct (db v2 !! "country_metadata"); discriminate.
  - apply bind_Raise_inv in H as [H | (a3 & v4 & _ & H)]; discriminate.
Qed.

Lemma returns_not_Raise {A} (m : M A) w e w' :
  returns m -> m w = (Raise e, w') -> False.
Proof. intros Hm H. destruct (Hm w) as (a & w1 & E). congruence. Qed.

(** X18. With draws in [0, 1), the [try] block of [main] fails only where
    the environment fails: an exception it raises is the one reading the
    schema file raised, or one the schema script raised, or one writing one
    of the five tables raised. The loaders raise nothing of their own on
    the catalog, and the summary finds every table it counts. *)
Theorem X18_failures_come_from_outside rnd env conn w e w' :
  (forall n, 0 <= rnd n < 1) ->
  main_try rnd env conn w = (Raise e, w') ->
  schema_sql env = Raise e \/
  (exists text d, fst (run_script env text d) = Raise e) \/
  (exists name d, In name tables /\ write_error env name d = Some e).
Proof.
  intros Hrange H. unfold main_try in H.
  apply bind_Raise_inv in H as [H | (u0 & w0 & _ & H)]; [discriminate |].
  apply bind_Raise_inv in H as [H | (text & w1 & _ & H)].
  { left. unfold open_read in H.
    destruct (schema_sql env); inversion H; reflexivity. }
  apply bind_Raise_inv in H as [H | (u1 & w2 & _ & H)].
  { right; left. exists text, (db w1).
    unfold executescript, bind, get_db, set_db in H.
    destruct (run_script env text (db w1)) as [[[] | e1] d1]; inversion H.
    reflexivity. }
  apply bind_Raise_inv in H as [H | (u2 & w3 & _ & H)]; [discriminate |].
  right; right.
  apply bind_Raise_inv in H as [H | (countries & w4 & Hc & H)].
  { apply load_country_metadata_Raise_inv in H as (d & H).
    exists "country_metadata", d. split; [unfold tables; simpl; auto | exact H]. }
  apply load_country_metadata_Ok_inv in Hc as [-> ->].
  apply bind_Raise_inv in H as [H | (u3 & w5 & Hg & H)].
  { apply load_gdp_data_Raise_inv in H as [(v0 & v1 & H) | (d & H)].
    - exfalso. eapply returns_not_Raise; [| exact H].
      apply gdp_rows_total, catalog_groups_known.
    - exists "gdp_data", d. split; [unfold tables; simpl; auto | exact H]. }
  apply load_gdp_data_Ok_inv in Hg as (gdp & vg & _ & ->).
  apply bind_Raise_inv in H as [H | (u4 & w6 & Hi & H)].
  { apply load_inequality_data_Raise_inv in H as [(v0 & v1 & H) | (d & H)].
    - exfalso. eapply returns_not_Raise; [| exact H].
      intros v. apply inequality_rows_total; [exact Hrange |].
      apply catalog_regions_known.
    - exists "inequality_metrics", d.
      split; [unfold tables; simpl; auto | exact H]. }
  apply load_inequality_data_Ok_inv in Hi as (ineq & vi & _ & ->).
  apply bind_Raise_inv in H as [H | (u5 & w7 & Hp & H)].
  { apply load_poverty_data_Raise_inv in H as [(v0 & v1 & H) | (d & H)].
    - exfalso. eapply returns_not_Raise; [| exact H].
      intros v. apply poverty_rows_total.
    - exists "poverty_indicators", d.
      split; [unfold tables; simpl; auto | exact H]. }
  apply load_poverty_data_Ok_inv in Hp as (pov & vp & _ & ->).
  apply bind_Raise_inv in H as [H | (u6 & w8 & Ht & H)].
  { apply load_trade_education_Raise_inv in H as [(v0 & v1 & H) | (d & H)].
    - exfalso. eapply returns_not_Raise; [| exact H].
      apply trade_rows_returns.
    - exists "trade_education", d.
      split; [unfold tables; simpl; auto 6 | exact H]. }
  apply load_trade_education_Ok_inv in Ht as (trade & vt & _ & ->).
  exfalso.
  apply bind_Raise_inv in H as [H | (u7 & w9 & Hs & H)].
  { rewrite print_all_eval in H. discriminate. }
  rewrite print_all_eval in Hs. inversion Hs; subst; clear Hs.
  match type of H with
  | bind (for_each tables _ tt) _ ?w0 = _ =>
      destruct (summary_loop_eval conn tables w0) as (evs & Eloop)
  end.
  { unfold tables. cbn [db].
    repeat (constructor;
            [ eexists;
              repeat (rewrite lookup_insert_eq
                      || rewrite lookup_insert_ne by discriminate);
              reflexivity |]).
    constructor. }
  rewrite (bind_Ok _ _ _ _ _ Eloop), print_all_eval in H. discriminate.
Qed.

Lemma X18_witness :
  schema_sql failing_env = Raise (DatabaseError "database or disk is full") \/
  (exists text d,
      fst (run_script failing_env text d)
      = Raise (DatabaseError "database or disk is full")) \/
  (exists name d,
      In name tables /\
      write_error failing_env name d
      = Some (DatabaseError "database or disk is full")).
Proof.
  apply (X18_failures_come_from_outside sample_rnd failing_env sample_conn
           new_world (DatabaseError "database or disk is full")
           (snd (main_try sample_rnd failing_env sample_conn new_world))).
  - intros n. unfold sample_rnd. lra.
  - vm_compute. reflexivity.
Defined.

(** ** Runs that fail before loading *)

(** X19. When the schema script raises, [main] still returns: the tables
    are as the script left them, no loader has run and no draw was
    consumed, the output is the banner, the line of the schema stage, the
    error and its traceback, and the connection is closed. *)
Theorem X19_script_failure rnd env w text e d' :
  connect_error env = None ->
  schema_sql env = Ok text ->
  run_script env text (db w) = (Raise e, d') ->
  main rnd env w
  = (Ok tt,
     World (rng_pos w) d'
       (console w ++ map Line banner
        ++ [Line "Creating database schema..."; ErrorLine e; TracebackLine e])
       false).
Proof.
  intros Hconn Hschema Hscript. rewrite main_unfold, Hconn.
  assert (Htry : main_try rnd env (Connection DB_PATH) (entered w)
                 = (Raise e,
                    World (rng_pos w) d'
                      (console w ++ map Line banner
                       ++ [Line "Creating database schema..."]) true)).
  { unfold main_try.
    unfold bind at 1. cbn [print emit].
    unfold bind at 1. unfold open_read at 1. rewrite Hschema. unfold ret at 1.
    unfold bind at 1. unfold executescript at 1.
    unfold bind at 1, get_db at 1. cbn [db entered]. rewrite Hscript.
    unfold bind at 1, set_db at 1, raise.
    unfold entered. cbn [rng_pos db console conn_open].
    rewrite <- app_assoc. reflexivity. }
  rewrite Htry. cbn [rng_pos db console conn_open].
  rewrite <- ?app_assoc. reflexivity.
Qed.

Lemma X19_witness :
  main sample_rnd bad_script_env new_world
  = (Ok tt,
     World (rng_pos new_world) (db new_world)
       (console new_world ++ map Line banner
        ++ [Line "Creating database schema...";
            ErrorLine (DatabaseError "near TABEL: syntax error");
            TracebackLine (DatabaseError "near TABEL: syntax error")])
       false).
Proof.
  apply (X19_script_failure sample_rnd bad_script_env new_world
           "CREATE TABEL country_metadata;").
  - reflexivity.
  - reflexivity.
  - reflexivity.
Defined.

(** X20. When the schema file cannot be read, [main] still returns with
    the file untouched: the script and the loaders have not run, no draw
    was consumed, the output is the banner, the line of the schema stage,
    the error and its traceback, and the connection is closed. *)
Theorem X20_schema_unreadable rnd env w e :
  connect_error env = None ->
  schema_sql env = Raise e ->
  main rnd env w
  = (Ok tt,
     World (rng_pos w) (db w)
       (console w ++ map Line banner
        ++ [Line "Creating database schema..."; ErrorLine e; TracebackLine e])
       false).
Proof.
  intros Hconn Hschema. rewrite main_unfold, Hconn.
  rewrite (main_try_schema_unreadable rnd env _ _ e Hschema).
  unfold entered. cbn [rng_pos db console conn_open].
  rewrite <- ?app_assoc. reflexivity.
Qed.

Lemma X20_witness :
  main sample_rnd no_schema_env new_world
  = (Ok tt,
     World (rng_pos new_world) (db new_world)
       (console new_world ++ map Line banner
        ++ [Line "Creating database schema...";
            ErrorLine (OSError "schema.sql");
            TracebackLine (OSError "schema.sql")])
       false).
Proof.
  apply (X20_schema_unreadable sample_rnd no_schema_env new_world).
  - reflexivity.
  - reflexivity.
Defined.

(** ** Runs that fail while loading *)

(** A loader whose write fails has built its frame and drawn for it, and
    stops before the line that reports the rows. *)
Lemma load_table_write_fails {R} env (gen : M (list R)) (inj : R -> row)
    (start name what : string) conn w e :
  returns gen -> frame gen ->
  write_error env name (db w) = Some e ->
  exists rows w1,
    gen (snd (print start w)) = (Ok rows, w1) /\
    (print start ;;;
     df <- gen ;;
     to_sql env (map inj df) name conn IfExistsReplace ;;;
     emit (LoadedLine (length df) what)) w
    = (Raise e,
       World (rng_pos w1) (db w) (console w ++ [Line start]) (conn_open w)).
Proof.
  intros Hret F Hw.
  set (w0 := snd (print start w)).
  destruct (Hret w0) as (rows & w1 & Hrows).
  exists rows, w1. split; [exact Hrows |].
  pose proof (F w0) as Fw. rewrite Hrows in Fw.
  destruct Fw as (Hdb & Hco & Hop). simpl in Hdb, Hco, Hop.
  unfold bind at 1. cbn [print emit]. fold w0.
  change (World (rng_pos w) (db w) (console w ++ [Line start]) (conn_open w))
    with w0.
  rewrite (bind_Ok _ _ _ _ _ Hrows).
  unfold to_sql, get_db, bind. rewrite Hdb, Hw. unfold raise.
  destruct w1 as [p d co op]. simpl in *. subst. reflexivity.
Qed.

Lemma load_inequality_data_write_fails rnd env conn countries w e :
  returns (inequality_rows rnd countries) ->
  write_error env "inequality_metrics" (db w) = Some e ->
  exists rows w1,
    inequality_rows rnd countries (snd (print "Creating inequality data..." w))
    = (Ok rows, w1) /\
    load_inequality_data rnd env conn countries w
    = (Raise e,
       World (rng_pos w1) (db w)
         (console w ++ [Line "Creating inequality data..."]) (conn_open w)).
Proof.
  intros Hret Hw. unfold load_inequality_data.
  apply load_table_write_fails; [exact Hret | apply frame_inequality_rows | exact Hw].
Qed.

(** X21. A run that fails while loading is not rolled back. With draws in
    [0, 1), when the schema script and the writes of [country_metadata]
    and [gdp_data] succeed and the write of [inequality_metrics] fails,
    [main] returns with the two tables written before the failure holding
    the rows of this run, and the two tables of the later stages as the
    script left them: their loaders have not run. The inequality frame was
    built before its write failed, so 528 + 768 draws were consumed; the
    output ends with the line of the inequality stage, the error and its
    traceback, and the connection is closed. *)
Theorem X21_no_rollback rnd env w text d1 e :
  (forall n, 0 <= rnd n < 1) ->
  connect_error env = None ->
  schema_sql env = Ok text ->
  run_script env text (db w) = (Ok tt, d1) ->
  (forall d, write_error env "country_metadata" d = None) ->
  (forall d, write_error env "gdp_data" d = None) ->
  (forall d, write_error env "inequality_metrics" d = Some e) ->
  exists gdp w',
    main rnd env w = (Ok tt, w') /\
    db w' !! "country_metadata" = Some (map RCountry catalog) /\
    db w' !! "gdp_data" = Some (map RGdp gdp) /\
    length gdp = 432%nat /\
    db w' !! "poverty_indicators" = d1 !! "poverty_indicators" /\
    db w' !! "trade_education" = d1 !! "trade_education" /\
    rng_pos w' = (rng_pos w + 1296)%nat /\
    console w'
    = (console w ++ map Line banner
       ++ [ Line "Creating database schema...";
            Line "Schema created";
            Line "Loading country metadata...";
            LoadedLine 48 "countries";
            Line "Creating GDP data...";
            LoadedLine 432 "GDP records";
            Line "Creating inequality data...";
            ErrorLine e;
            TracebackLine e ])%list /\
    conn_open w' = false.
Proof.
  intros Hrange Hconn Hschema Hscript Hw1 Hw2 Hw3.
  assert (Er : main_try rnd env (Connection DB_PATH) (entered w)
               = main_try rnd env (Connection DB_PATH) (entered w))
    by reflexivity.
  set (run := main_try rnd env (Connection DB_PATH) (entered w)) in Er at 1.
  unfold main_try in Er.
  unfold bind at 1 in Er. cbn [print emit] in Er.
  unfold bind at 1 in Er. unfold open_read at 1 in Er.
  rewrite Hschema in Er. unfold ret at 1 in Er.
  unfold bind at 1 in Er. unfold executescript at 1 in Er.
  unfold bind at 1, get_db at 1 in Er. unfold entered in Er.
  cbn [rng_pos db console conn_open] in Er. rewrite Hscript in Er.
  unfold bind at 1, set_db at 1, ret at 1 in Er.
  unfold bind at 1 in Er. cbn [print emit] in Er.
  cbn [rng_pos db console conn_open] in Er.
  match type of Er with
  | context [bind (load_country_metadata env ?c) ?k ?w0] =>
      destruct (load_country_metadata_returns env c Hw1 w0) as (df & w4 & E4);
      rewrite (bind_Ok _ _ _ _ _ E4) in Er;
      apply load_country_metadata_Ok_inv in E4 as [-> ->]
  end.
  cbn [rng_pos db console conn_open] in Er.
  match type of Er with
  | context [bind (load_gdp_data rnd env ?c catalog) ?k ?w0] =>
      destruct (load_gdp_data_returns rnd env c catalog
                  (gdp_rows_total rnd catalog catalog_groups_known)
                  Hw2 w0) as ([] & w5 & E5);
      rewrite (bind_Ok _ _ _ _ _ E5) in Er;
      apply load_gdp_data_Ok_inv in E5 as (gdp & vg & Hgdp & ->)
  end.
  cbn [rng_pos db console conn_open] in Er.
  match type of Er with
  | context [bind (load_inequality_data rnd env ?c catalog) ?k ?w0] =>
      destruct (load_inequality_data_write_fails rnd env c catalog w0 e
                  (fun v => inequality_rows_total rnd Hrange catalog v
                              catalog_regions_known)
                  (Hw3 _)) as (ineq & vi & Hineq & E6)
  end.
  unfold bind at 1 in Er. rewrite E6 in Er.
  cbn [rng_pos db console conn_open] in Er.
  pose proof (gdp_rows_length _ _ _ _ _ Hgdp) as Lg.
  apply gdp_rows_draws in Hgdp. apply inequality_rows_draws in Hineq.
  cbn [print emit snd rng_pos] in Hgdp, Hineq.
  rewrite catalog_length in Lg, Hgdp, Hineq.
  change (9 * 48)%nat with 432%nat in Lg.
  change (11 * 48)%nat with 528%nat in Hgdp.
  change (16 * 48)%nat with 768%nat in Hineq.
  rewrite Lg, catalog_length in Er. subst run.
  exists gdp. eexists.
  split; [rewrite main_unfold, Hconn, Er; reflexivity |].
  cbn [rng_pos db console conn_open].
  split.
  { repeat (rewrite lookup_insert_eq || rewrite lookup_insert_ne by discriminate).
    reflexivity. }
  split.
  { repeat (rewrite lookup_insert_eq || rewrite lookup_insert_ne by discriminate).
    reflexivity. }
  split; [exact Lg |].
  split.
  { repeat (rewrite lookup_insert_eq || rewrite lookup_insert_ne by discriminate).
    reflexivity. }
  split.
  { repeat (rewrite lookup_insert_eq || rewrite lookup_insert_ne by discriminate).
    reflexivity. }
  split; [lia |].
  split; [| reflexivity].
  unfold entered. cbn [console]. rewrite <- !app_assoc. reflexivity.
Qed.

Lemma X21_witness :
  exists gdp w',
    main sample_rnd failing_env new_world = (Ok tt, w') /\
    db w' !! "country_metadata" = Some (map RCountry catalog) /\
    db w' !! "gdp_data" = Some (map RGdp gdp) /\
    length gdp = 432%nat /\
    db w' !! "poverty_indicators" = db new_world !! "poverty_indicators" /\
    db w' !! "trade_education" = db new_world !! "trade_education" /\
    rng_pos w' = (rng_pos new_world + 1296)%nat /\
    console w'
    = (console new_world ++ map Line banner
       ++ [ Line "Creating database schema...";
            Line "Schema created";
            Line "Loading country metadata...";
            LoadedLine 48 "countries";
            Line "Creating GDP data...";
            LoadedLine 432 "GDP records";
            Line "Creating inequality data...";
            ErrorLine (DatabaseError "database or disk is full");
            TracebackLine (DatabaseError "database or disk is full") ])%list /\
    conn_open w' = false.
Proof.
  apply (X21_no_rollback sample_rnd failing_env new_world
           "CREATE TABLE IF NOT EXISTS country_metadata (country_code TEXT);").
  - intros n. unfold sample_rnd. lra.
  - reflexivity.
  - reflexivity.
  - reflexivity.
  - intros d. reflexivity.
  - intros d. reflexivity.
  - intros d. reflexivity.
Defined.

(** ** Tables as a function of the draws *)

Lemma reads_rng_only_ret {A} (a : A) : reads_rng_only (ret a).
Proof. intros w v H. auto. Qed.

Lemma reads_rng_only_raise {A} (e : exn) : reads_rng_only (@raise A e).
Proof. intros w v H. auto. Qed.

Lemma reads_rng_only_bind {A B} (m : M A) (k : A -> M B) :
  reads_rng_only m -> (forall a, reads_rng_only (k a)) ->
  reads_rng_only (bind m k).
Proof.
  intros Hm Hk w v H. unfold bind. destruct (Hm w v H) as [Hr Hp].
  destruct (m w) as [[a | e] w1], (m v) as [[a' | e'] v1]; simpl in *;
    try discriminate.
  - inversion Hr; subst. apply Hk. exact Hp.
  - inversion Hr; subst. split; [reflexivity | exact Hp].
Qed.

Lemma reads_rng_only_for_each {A S} (body : A -> S -> M S) (xs : list A) :
  (forall x s, reads_rng_only (body x s)) ->
  forall s, reads_rng_only (for_each xs body s).
Proof.
  intros Hbody. induction xs as [| x xs IH]; intros s; simpl.
  - apply reads_rng_only_ret.
  - apply reads_rng_only_bind; auto.
Qed.

Lemma reads_rng_only_uniform rnd a b : reads_rng_only (uniform rnd a b).
Proof. intros w v H. rewrite !uniform_eval. simpl. rewrite H. auto. Qed.

Lemma reads_rng_only_dict_get {V} (d : gmap string V) k :
  reads_rng_only (dict_get d k).
Proof.
  unfold dict_get.
  destruct (d !! k); [apply reads_rng_only_ret | apply reads_rng_only_raise].
Qed.

Lemma reads_rng_only_true_div a b : reads_rng_only (true_div a b).
Proof.
  unfold true_div.
  destruct (Qeq_bool b 0); [apply reads_rng_only_raise | apply reads_rng_only_ret].
Qed.

Ltac rng_step :=
  lazymatch goal with
  | |- reads_rng_only (if ?b then _ else _) => destruct b
  | |- reads_rng_only (let '(_, _) := ?p in _) => destruct p
  | |- reads_rng_only (ret _) => apply reads_rng_only_ret
  | |- reads_rng_only (raise _) => apply reads_rng_only_raise
  | |- reads_rng_only (uniform _ _ _) => apply reads_rng_only_uniform
  | |- reads_rng_only (dict_get _ _) => apply reads_rng_only_dict_get
  | |- reads_rng_only (true_div _ _) => apply reads_rng_only_true_div
  | |- reads_rng_only (bind _ _) => apply reads_rng_only_bind; [| intros ?]
  | |- reads_rng_only (for_each _ _ _) =>
      apply reads_rng_only_for_each; intros ? ?
  end.

Lemma reads_rng_only_gdp_rows rnd countries :
  reads_rng_only (gdp_rows rnd countries).
Proof. unfold gdp_rows. repeat rng_step. Qed.

Lemma reads_rng_only_inequality_rows rnd countries :
  reads_rng_only (inequality_rows rnd countries).
Proof. unfold inequality_rows. repeat rng_step. Qed.

Lemma reads_rng_only_poverty_rows rnd countries :
  reads_rng_only (poverty_rows rnd countries).
Proof. unfold poverty_rows. repeat rng_step. Qed.

Lemma reads_rng_only_trade_rows rnd countries :
  reads_rng_only (trade_rows rnd countries).
Proof. unfold trade_rows. repeat rng_step. Qed.

(** Two runs of such a computation from the same position return the same
    value and stop at the same position. *)
Lemma reads_rng_only_Ok {A} (m : M A) w v a b w' v' :
  reads_rng_only m -> rng_pos w = rng_pos v ->
  m w = (Ok a, w') -> m v = (Ok b, v') ->
  a = b /\ rng_pos w' = rng_pos v'.
Proof.
  intros Hm H E1 E2. destruct (Hm w v H) as [Hr Hp].
  rewrite E1, E2 in Hr, Hp. simpl in *. inversion Hr. auto.
Qed.

(** X22. The five tables a run of [main] that goes through leaves are a
    function of the draws alone: two such runs that see the same draws
    from the same position leave the same five tables, whatever the file
    held before either of them, whatever it printed and whatever the schema
    scripts did. *)
Theorem X22_tables_depend_on_draws_only rnd env1 env2 w1 w2 w1' w2' :
  rng_pos w1 = rng_pos w2 ->
  main rnd env1 w1 = (Ok tt, w1') -> completed w1' ->
  main rnd env2 w2 = (Ok tt, w2') -> completed w2' ->
  Forall (fun table =>
            is_Some (db w1' !! table) /\ db w1' !! table = db w2' !! table)
    tables.
Proof.
  intros Hpos H1 L1 H2 L2.
  apply main_completed_inv in H1 as (_ & v1 & T1 & ->); [| exact L1].
  apply main_completed_inv in H2 as (_ & v2 & T2 & ->); [| exact L2].
  apply main_try_Ok_inv in T1
    as (text1 & d1 & gdp1 & ineq1 & pov1 & trade1 & wg1 & vg1 & wi1 & vi1
        & wp1 & vp1 & wt1 & vt1 & _ & _ & Hg1 & Pg1 & Hi1 & Pi1 & Hp1 & Pp1
        & Ht1 & Pt1 & ->).
  apply main_try_Ok_inv in T2
    as (text2 & d2 & gdp2 & ineq2 & pov2 & trade2 & wg2 & vg2 & wi2 & vi2
        & wp2 & vp2 & wt2 & vt2 & _ & _ & Hg2 & Pg2 & Hi2 & Pi2 & Hp2 & Pp2
        & Ht2 & Pt2 & ->).
  change (rng_pos (entered w1)) with (rng_pos w1) in Pg1.
  change (rng_pos (entered w2)) with (rng_pos w2) in Pg2.
  assert (Sg : rng_pos wg1 = rng_pos wg2) by congruence.
  destruct (reads_rng_only_Ok _ _ _ _ _ _ _
              (reads_rng_only_gdp_rows rnd catalog) Sg Hg1 Hg2) as [-> Eg].
  assert (Si : rng_pos wi1 = rng_pos wi2) by congruence.
  destruct (reads_rng_only_Ok _ _ _ _ _ _ _
              (reads_rng_only_inequality_rows rnd catalog) Si Hi1 Hi2)
    as [-> Ei].
  assert (Sp : rng_pos wp1 = rng_pos wp2) by congruence.
  destruct (reads_rng_only_Ok _ _ _ _ _ _ _
              (reads_rng_only_poverty_rows rnd catalog) Sp Hp1 Hp2)
    as [-> Ep].
  assert (St : rng_pos wt1 = rng_pos wt2) by congruence.
  destruct (reads_rng_only_Ok _ _ _ _ _ _ _
              (reads_rng_only_trade_rows rnd catalog) St Ht1 Ht2)
    as [-> Et].
  cbn [rng_pos db console conn_open]. unfold tables.
  repeat (apply List.Forall_cons;
          [ repeat (rewrite lookup_insert_eq
                    || rewrite lookup_insert_ne by discriminate);
            split; [eexists; reflexivity | reflexivity] |]).
  apply List.Forall_nil.
Qed.

Lemma X22_witness :
  Forall (fun table =>
            is_Some (db (snd (main sample_rnd sample_env new_world)) !! table) /\
            db (snd (main sample_rnd sample_env new_world)) !! table
            = db (snd (main sample_rnd sample_env
                         (World 0 {["gdp_data" := []; "notes" := []]}
                            [Line "earlier output"] false))) !! table)
    tables.
Proof.
  apply (X22_tables_depend_on_draws_only sample_rnd sample_env sample_env
           new_world
           (World 0 {["gdp_data" := []; "notes" := []]}
              [Line "earlier output"] false)).
  - reflexivity.
  - vm_compute. reflexivity.
  - vm_compute. reflexivity.
  - vm_compute. reflexivity.
  - vm_compute. reflexivity.
Defined.

(** ** The country catalog *)

(** X23. [load_country_metadata] in full: the four columns of its dict
    have the same length, so building the frame never fails; when the
    write fails the call raises the error of the write with the file
    untouched, and otherwise it replaces [country_metadata] by the 48 rows
    of the catalog and returns them. No two of them share a country code,
    none has a population, and every one has an income group that is a key
    of [gdp_ranges] and a region that is a key of [gini_ranges], the two
    dicts the loaders index with them. *)
Theorem X23_country_catalog env conn w :
  load_country_metadata env conn w
  = match write_error env "country_metadata" (db w) with
    | Some e =>
        (Raise e,
         World (rng_pos w) (db w)
           (console w ++ [Line "Loading country metadata..."]) (conn_open w))
    | None =>
        (Ok catalog,
         World (rng_pos w)
           (<["country_metadata" := map RCountry catalog]> (db w))
           (console w ++ [Line "Loading country metadata...";
                          LoadedLine 48 "countries"])
           (conn_open w))
    end /\
  length catalog = 48%nat /\
  NoDup (map country_code catalog) /\
  Forall (fun c =>
            population_2023 c = None /\
            is_Some (gdp_ranges !! income_group c) /\
            is_Some (gini_ranges !! region c)) catalog.
Proof.
  split; [| split; [reflexivity | split; [apply catalog_codes_NoDup |]]].
  - unfold load_country_metadata. rewrite DataFrame_countries_data.
    unfold bind at 1. cbn [print emit].
    unfold bind at 1. cbn [lift ret].
    change (set_population_2023 None catalog) with catalog.
    unfold bind at 1. unfold to_sql at 1.
    unfold bind at 1, get_db at 1. cbn [db].
    destruct (write_error env "country_metadata" (db w)) as [e |];
      [reflexivity |].
    unfold bind, set_db, emit, ret.
    destruct (db w !! "country_metadata");
      cbn [rng_pos db console conn_open]; rewrite <- app_assoc; reflexivity.
  - pose proof catalog_population_empty as Hp.
    pose proof catalog_groups_known as Hg.
    pose proof catalog_regions_known as Hr.
    rewrite Forall_forall in *. intros c Hc.
    specialize (Hp c Hc). specialize (Hg c Hc). specialize (Hr c Hc).
    split; [exact Hp |].
    split; [destruct (gdp_ranges !! income_group c) | destruct (gini_ranges !! region c)];
      first [eexists; reflexivity | contradiction].
Qed.

(* ===================================================================== *)
(** * Double precision *)
(* ===================================================================== *)

(** ** Powers of two *)

Lemma pow2_pos k : 0 < pow2 k.
Proof. apply Qpower_0_lt. reflexivity. Qed.

Lemma pow2_add a b : pow2 (a + b) == pow2 a * pow2 b.
Proof. apply Qpower_plus. discriminate. Qed.

Lemma pow2_le a b : (a <= b)%Z -> pow2 a <= pow2 b.
Proof. intros H. apply Qpower_le_compat_l; [exact H | discriminate]. Qed.

Lemma pow2_lt a b : (a < b)%Z -> pow2 a < pow2 b.
Proof. intros H. apply Qpower_lt_compat_l; [exact H | reflexivity]. Qed.

Lemma pow2_lt_inv a b : pow2 a < pow2 b -> (a < b)%Z.
Proof. intros H. eapply Qpower_lt_compat_l_inv; [exact H | reflexivity]. Qed.

Lemma pow2_Z k : (0 <= k)%Z -> pow2 k == inject_Z (2 ^ k).
Proof. intros H. unfold pow2. rewrite Zpower_Qpower by exact H. reflexivity. Qed.

Lemma pow2_sub a b : pow2 (a - b) * pow2 b == pow2 a.
Proof.
  rewrite <- pow2_add. replace (a - b + b)%Z with a by lia. reflexivity.
Qed.

(** ** The binary logarithm *)

Lemma Qmake_inject (x : Q) : x * inject_Z (Zpos (Qden x)) == inject_Z (Qnum x).
Proof. destruct x as [n d]. unfold Qeq, Qmult, inject_Z. simpl. lia. Qed.

Lemma ilog2_spec (x : Q) :
  0 < x -> pow2 (ilog2 x) <= x < pow2 (ilog2 x + 1).
Proof.
  intros Hx.
  pose proof (Qmake_inject x) as Hxd.
  assert (Hn : (0 < Qnum x)%Z).
  { destruct x as [n d]. unfold Qlt in Hx. simpl in *. lia. }
  pose proof (Z.log2_spec (Qnum x) Hn) as [Ha1 Ha2].
  pose proof (Z.log2_spec (Zpos (Qden x)) ltac:(lia)) as [Hb1 Hb2].
  pose proof (Z.log2_nonneg (Qnum x)) as Ha0.
  pose proof (Z.log2_nonneg (Zpos (Qden x))) as Hb0.
  unfold ilog2.
  remember (Z.log2 (Qnum x)) as a eqn:Ea.
  remember (Z.log2 (Zpos (Qden x))) as b eqn:Eb. clear Ea Eb.
  rewrite Zle_Qle, <- pow2_Z in Ha1, Hb1 by lia.
  rewrite Zlt_Qlt in Ha2, Hb2.
  rewrite <- pow2_Z in Ha2 by lia. rewrite <- pow2_Z in Hb2 by lia.
  remember (inject_Z (Qnum x)) as N eqn:EN.
  remember (inject_Z (Zpos (Qden x))) as D eqn:ED. clear EN ED.
  pose proof (pow2_sub (Z.succ a) b) as E1.
  pose proof (pow2_sub a (Z.succ b)) as E2.
  pose proof (pow2_pos (Z.succ a - b)) as P1.
  pose proof (pow2_pos (a - Z.succ b)) as P2.
  pose proof (pow2_pos b) as P3.
  assert (Hhi : x < pow2 (Z.succ a - b)).
  { apply Qnot_le_lt. intros Hc.
    assert (pow2 (Z.succ a - b) * pow2 b <= x * D) by nra. lra. }
  assert (Hlo : pow2 (a - Z.succ b) < x).
  { apply Qnot_le_lt. intros Hc.
    assert (0 <= (pow2 (a - Z.succ b) - x) * pow2 (Z.succ b))
      by (apply Qmult_le_0_compat; lra).
    assert (0 < x * (pow2 (Z.succ b) - D))
      by (apply Qmult_lt_0_compat; lra).
    lra. }
  destruct (Qle_bool (pow2 (a - b)) x) eqn:E.
  - apply Qle_bool_iff in E. split; [exact E |].
    replace (a - b + 1)%Z with (Z.succ a - b)%Z by lia. exact Hhi.
  - assert (Hlt : x < pow2 (a - b)).
    { apply Qnot_le_lt. intros Hc. apply Qle_bool_iff in Hc. congruence. }
    replace (a - b - 1 + 1)%Z with (a - b)%Z by lia.
    replace (a - b - 1)%Z with (a - Z.succ b)%Z by lia.
    split; [apply Qlt_le_weak, Hlo | exact Hlt].
Qed.

Lemma ilog2_unique (x : Q) (j : Z) :
  pow2 j <= x < pow2 (j + 1) -> ilog2 x = j.
Proof.
  intros [H1 H2].
  assert (Hx : 0 < x) by (pose proof (pow2_pos j); lra).
  destruct (ilog2_spec x Hx) as [H3 H4].
  assert (pow2 j < pow2 (ilog2 x + 1)) by lra.
  assert (pow2 (ilog2 x) < pow2 (j + 1)) by lra.
  apply pow2_lt_inv in H, H0. lia.
Qed.

Lemma ilog2_comp (x y : Q) : 0 < x -> x == y -> ilog2 x = ilog2 y.
Proof.
  intros Hx E. symmetry. apply ilog2_unique. rewrite <- E.
  apply ilog2_spec, Hx.
Qed.

Lemma ilog2_mono (x y : Q) : 0 < x -> x <= y -> (ilog2 x <= ilog2 y)%Z.
Proof.
  intros Hx Hxy.
  destruct (ilog2_spec x Hx) as [H1 _].
  destruct (ilog2_spec y ltac:(lra)) as [_ H2].
  assert (H : pow2 (ilog2 x) < pow2 (ilog2 y + 1)) by lra.
  apply pow2_lt_inv in H. lia.
Qed.

(** ** Rounding to the nearest double *)

Lemma fexp_ge (x : Q) : (-1074 <= fexp x)%Z.
Proof. unfold fexp. lia. Qed.

Lemma fl_zero (x : Q) : x == 0 -> fl x = 0.
Proof. intros H. unfold fl. apply Qeq_alt in H. now rewrite H. Qed.

Lemma fl_unfold (x : Q) :
  ~ x == 0 ->
  fl x == inject_Z (round_half_even (x / pow2 (fexp x))) * pow2 (fexp x).
Proof.
  intros H. unfold fl. destruct (Qcompare x 0) eqn:E.
  - apply Qeq_alt in E. contradiction.
  - apply Qred_correct.
  - apply Qred_correct.
Qed.

Lemma Qabs_nz_pos (x : Q) : ~ x == 0 -> 0 < Qabs x.
Proof.
  intros Hx. destruct (Q_dec x 0) as [[H | H] | H]; [| | contradiction].
  - rewrite Qabs_neg by lra. lra.
  - rewrite Qabs_pos by lra. lra.
Qed.

Lemma fexp_comp (x y : Q) : ~ x == 0 -> x == y -> fexp x = fexp y.
Proof.
  intros Hx E. unfold fexp. f_equal. f_equal.
  apply ilog2_comp.
  - now apply Qabs_nz_pos.
  - now rewrite E.
Qed.

Lemma fl_comp (x y : Q) : x == y -> fl x = fl y.
Proof.
  intros E. unfold fl.
  rewrite (Qcompare_comp x y E 0 0 (Qeq_refl 0)).
  destruct (Qcompare y 0) eqn:C; [reflexivity | |].
  - assert (Hx : ~ x == 0).
    { rewrite E. intros Hz. apply Qeq_alt in Hz. congruence. }
    rewrite (fexp_comp x y Hx E). apply Qred_complete.
    rewrite (round_half_even_comp (x / pow2 (fexp y)) (y / pow2 (fexp y))).
    + reflexivity.
    + now rewrite E.
  - assert (Hx : ~ x == 0).
    { rewrite E. intros Hz. apply Qeq_alt in Hz. congruence. }
    rewrite (fexp_comp x y Hx E). apply Qred_complete.
    rewrite (round_half_even_comp (x / pow2 (fexp y)) (y / pow2 (fexp y))).
    + reflexivity.
    + now rewrite E.
Qed.

Lemma Qabs_pos_eq (x : Q) : 0 < x -> Qabs x == x.
Proof. intros H. apply Qabs_pos. lra. Qed.

Lemma Qabs_neg_eq (x : Q) : x < 0 -> Qabs x == - x.
Proof. intros H. apply Qabs_neg. lra. Qed.

Lemma fexp_pos_spec (x : Q) :
  0 < x ->
  x < pow2 53 * pow2 (fexp x) /\
  ((-1074 < fexp x)%Z -> pow2 52 * pow2 (fexp x) <= x).
Proof.
  intros Hx. unfold fexp.
  rewrite (ilog2_comp (Qabs x) x) by
    (first [rewrite Qabs_pos_eq by exact Hx; exact Hx | apply Qabs_pos_eq, Hx]).
  destruct (ilog2_spec x Hx) as [H1 H2].
  set (l := ilog2 x) in *. split.
  - rewrite <- pow2_add.
    apply Qlt_le_trans with (y := pow2 (l + 1)); [exact H2 |].
    apply pow2_le. lia.
  - intros Hn. rewrite <- pow2_add.
    replace (52 + Z.max (l - 52) (-1074))%Z with l by lia. exact H1.
Qed.

Lemma fexp_opp (x : Q) : fexp (- x) = fexp x.
Proof.
  unfold fexp. f_equal. f_equal.
  destruct (Qeq_dec x 0) as [E | N].
  - assert (Qabs (- x) = Qabs x) as ->; [| reflexivity].
    destruct x as [[| p | p] d]; try reflexivity;
      unfold Qeq in E; simpl in E; lia.
  - apply ilog2_comp.
    + apply Qabs_nz_pos. intros Hz. apply N. lra.
    + apply Qabs_opp.
Qed.

(** The integers between which a scaled value lies bound its rounding. *)
Lemma round_half_even_le_Z (x : Q) (z : Z) :
  x <= inject_Z z -> (round_half_even x <= z)%Z.
Proof.
  intros H. rewrite <- (round_half_even_Z z). now apply round_half_even_mono.
Qed.

Lemma round_half_even_ge_Z (x : Q) (z : Z) :
  inject_Z z <= x -> (z <= round_half_even x)%Z.
Proof.
  intros H. rewrite <- (round_half_even_Z z). now apply round_half_even_mono.
Qed.

Lemma fl_pos_bounds (x : Q) :
  0 < x ->
  0 <= fl x /\
  fl x <= pow2 53 * pow2 (fexp x) /\
  ((-1074 < fexp x)%Z -> pow2 52 * pow2 (fexp x) <= fl x).
Proof.
  intros Hx.
  destruct (fexp_pos_spec x Hx) as [Hhi Hlo].
  rewrite (fl_unfold x) by lra.
  pose proof (pow2_pos (fexp x)) as He.
  set (e := fexp x) in *.
  assert (H0 : (0 <= round_half_even (x / pow2 e))%Z).
  { apply round_half_even_ge_Z. change (inject_Z 0) with 0.
    apply Qle_shift_div_l; lra. }
  assert (H53 : (round_half_even (x / pow2 e) <= 2 ^ 53)%Z).
  { apply round_half_even_le_Z. rewrite <- pow2_Z by lia.
    apply Qle_shift_div_r; lra. }
  rewrite Zle_Qle in H0, H53. rewrite <- pow2_Z in H53 by lia.
  change (inject_Z 0) with 0 in H0.
  remember (inject_Z (round_half_even (x / pow2 e))) as m eqn:Em.
  split; [| split].
  - apply Qmult_le_0_compat; lra.
  - apply Qmult_le_compat_r; lra.
  - intros Hn. specialize (Hlo Hn).
    assert (H52 : (2 ^ 52 <= round_half_even (x / pow2 e))%Z).
    { apply round_half_even_ge_Z. rewrite <- pow2_Z by lia.
      apply Qle_shift_div_l; lra. }
    rewrite Zle_Qle in H52. rewrite <- pow2_Z in H52 by lia.
    rewrite <- Em in H52.
    apply Qmult_le_compat_r; lra.
Qed.

Lemma fl_neg_bounds (x : Q) :
  x < 0 ->
  fl x <= 0 /\
  - (pow2 53 * pow2 (fexp x)) <= fl x /\
  ((-1074 < fexp x)%Z -> fl x <= - (pow2 52 * pow2 (fexp x))).
Proof.
  intros Hx.
  destruct (fexp_pos_spec (- x) ltac:(lra)) as [Hhi Hlo].
  rewrite fexp_opp in Hhi, Hlo.
  rewrite (fl_unfold x) by lra.
  pose proof (pow2_pos (fexp x)) as He.
  set (e := fexp x) in *.
  assert (H0 : (round_half_even (x / pow2 e) <= 0)%Z).
  { apply round_half_even_le_Z. change (inject_Z 0) with 0.
    apply Qle_shift_div_r; lra. }
  assert (H53 : (- 2 ^ 53 <= round_half_even (x / pow2 e))%Z).
  { apply round_half_even_ge_Z. rewrite inject_Z_opp, <- pow2_Z by lia.
    apply Qle_shift_div_l; lra. }
  rewrite Zle_Qle in H0, H53. rewrite inject_Z_opp, <- pow2_Z in H53 by lia.
  change (inject_Z 0) with 0 in H0.
  remember (inject_Z (round_half_even (x / pow2 e))) as m eqn:Em.
  split; [| split].
  - assert (0 <= (- m) * pow2 e) by (apply Qmult_le_0_compat; lra). lra.
  - assert ((- m) * pow2 e <= pow2 53 * pow2 e)
      by (apply Qmult_le_compat_r; lra).
    lra.
  - intros Hn. specialize (Hlo Hn).
    assert (H52 : (round_half_even (x / pow2 e) <= - 2 ^ 52)%Z).
    { apply round_half_even_le_Z. rewrite inject_Z_opp, <- pow2_Z by lia.
      apply Qle_shift_div_r; lra. }
    rewrite Zle_Qle in H52. rewrite inject_Z_opp, <- pow2_Z in H52 by lia.
    rewrite <- Em in H52.
    assert (pow2 52 * pow2 e <= (- m) * pow2 e)
      by (apply Qmult_le_compat_r; lra).
    lra.
Qed.

Lemma fexp_mono (x y : Q) : 0 < x -> x <= y -> (fexp x <= fexp y)%Z.
Proof.
  intros Hx Hxy. unfold fexp.
  assert (ilog2 (Qabs x) <= ilog2 (Qabs y))%Z; [| lia].
  apply ilog2_mono.
  - rewrite Qabs_pos_eq by exact Hx. exact Hx.
  - rewrite !Qabs_pos_eq by lra. exact Hxy.
Qed.

Lemma fl_mono_pos (x y : Q) : 0 < x -> x <= y -> fl x <= fl y.
Proof.
  intros Hx Hxy.
  pose proof (fexp_mono x y Hx Hxy) as He.
  destruct (Z.eq_dec (fexp x) (fexp y)) as [E | N].
  - rewrite (fl_unfold x), (fl_unfold y) by lra. rewrite E.
    pose proof (pow2_pos (fexp y)) as Hp.
    apply Qmult_le_compat_r; [| lra].
    rewrite <- Zle_Qle. apply round_half_even_mono.
    apply Qmult_le_compat_r; [exact Hxy |].
    apply Qlt_le_weak, Qinv_lt_0_compat, Hp.
  - destruct (fl_pos_bounds x Hx) as (_ & Hhi & _).
    destruct (fl_pos_bounds y ltac:(lra)) as (_ & _ & Hlo).
    pose proof (fexp_ge x) as Hg.
    specialize (Hlo ltac:(lia)).
    assert (Hs : pow2 53 * pow2 (fexp x) <= pow2 52 * pow2 (fexp y)).
    { rewrite <- !pow2_add. apply pow2_le. lia. }
    lra.
Qed.

Lemma fl_opp_bounds_mono (x y : Q) : x <= y -> y < 0 -> fl x <= fl y.
Proof.
  intros Hxy Hy.
  assert (He : (fexp y <= fexp x)%Z).
  { rewrite <- (fexp_opp x), <- (fexp_opp y). apply fexp_mono; lra. }
  destruct (Z.eq_dec (fexp x) (fexp y)) as [E | N].
  - rewrite (fl_unfold x), (fl_unfold y) by lra. rewrite E.
    pose proof (pow2_pos (fexp y)) as Hp.
    apply Qmult_le_compat_r; [| lra].
    rewrite <- Zle_Qle. apply round_half_even_mono.
    apply Qmult_le_compat_r; [exact Hxy |].
    apply Qlt_le_weak, Qinv_lt_0_compat, Hp.
  - destruct (fl_neg_bounds y Hy) as (_ & Hlo & _).
    destruct (fl_neg_bounds x ltac:(lra)) as (_ & _ & Hhi).
    pose proof (fexp_ge y) as Hg.
    specialize (Hhi ltac:(lia)).
    assert (Hs : pow2 53 * pow2 (fexp y) <= pow2 52 * pow2 (fexp x)).
    { rewrite <- !pow2_add. apply pow2_le. lia. }
    lra.
Qed.

(** Rounding to the nearest double is monotone. *)
Lemma fl_mono (x y : Q) : x <= y -> fl x <= fl y.
Proof.
  intros Hxy.
  destruct (Q_dec x 0) as [[Hx | Hx] | Hx];
    destruct (Q_dec y 0) as [[Hy | Hy] | Hy].
  - now apply fl_opp_bounds_mono.
  - destruct (fl_neg_bounds x Hx) as (H1 & _).
    destruct (fl_pos_bounds y Hy) as (H2 & _). lra.
  - rewrite (fl_zero y Hy).
    destruct (fl_neg_bounds x Hx) as (H1 & _). exact H1.
  - lra.
  - now apply fl_mono_pos.
  - lra.
  - rewrite (fl_zero x Hx).
    destruct (fl_neg_bounds y Hy) as (H1 & _). lra.
  - rewrite (fl_zero x Hx).
    destruct (fl_pos_bounds y Hy) as (H2 & _). exact H2.
  - rewrite (fl_zero x Hx), (fl_zero y Hy). lra.
Qed.

(** The rounding error is at most half the spacing of the doubles around
    the argument. *)
Lemma fl_error (x : Q) :
  x - pow2 (fexp x) * (1 # 2) <= fl x <= x + pow2 (fexp x) * (1 # 2).
Proof.
  pose proof (pow2_pos (fexp x)) as Hp.
  destruct (Qeq_dec x 0) as [E | N].
  - rewrite (fl_zero x E). lra.
  - rewrite (fl_unfold x N).
    set (p := pow2 (fexp x)) in *.
    pose proof (round_half_even_near (x / p)) as [H1 H2].
    set (m := inject_Z (round_half_even (x / p))) in *.
    assert (Ht : x / p * p == x) by (field; lra).
    set (t := x / p) in *.
    assert (0 <= (m - (t - (1 # 2))) * p) by (apply Qmult_le_0_compat; lra).
    assert (0 <= (t + (1 # 2) - m) * p) by (apply Qmult_le_0_compat; lra).
    lra.
Qed.

Lemma fexp_le (x : Q) (k : Z) :
  ~ x == 0 ->
  (-1074 <= k)%Z -> - pow2 (k + 53) < x < pow2 (k + 53) -> (fexp x <= k)%Z.
Proof.
  intros N Hk [Hlo Hhi].
  pose proof (Qabs_nz_pos x N) as Ha.
  destruct (ilog2_spec (Qabs x) Ha) as [H1 _].
  assert (Hb : Qabs x < pow2 (k + 53)).
  { apply Qabs_case; intros; lra. }
  assert (Hl : (ilog2 (Qabs x) < k + 53)%Z).
  { apply pow2_lt_inv. lra. }
  unfold fexp. lia.
Qed.

(** Below [2 ^ (k + 53)] in absolute value the rounding error is at most
    [2 ^ k / 2]. *)
Lemma fl_near (x : Q) (k : Z) :
  (-1074 <= k)%Z -> - pow2 (k + 53) < x < pow2 (k + 53) ->
  x - pow2 k * (1 # 2) <= fl x <= x + pow2 k * (1 # 2).
Proof.
  intros Hk Hx.
  pose proof (pow2_pos k) as Hk0.
  destruct (Qeq_dec x 0) as [E | N].
  - rewrite (fl_zero x E). lra.
  - pose proof (fl_error x) as He.
    pose proof (pow2_le _ _ (fexp_le x k N Hk Hx)) as Hp.
    lra.
Qed.

(** ** Sampling in double precision *)

(** Between two doubles whose difference is a double, [random.uniform]
    stays between its bounds, both included. *)
Lemma double_uniform_value_range (a b u : Q) :
  fl a == a -> fl b == b -> fl (b - a) == b - a ->
  a <= b -> 0 <= u < 1 ->
  a <= Double.uniform_value a b u <= b.
Proof.
  intros Ha Hb Hd Hab Hu.
  unfold Double.uniform_value, fadd, fmul, fsub.
  rewrite (fl_comp (fl (b - a) * u) ((b - a) * u)) by (rewrite Hd; reflexivity).
  assert (H0 : fl 0 <= fl ((b - a) * u)).
  { apply fl_mono. apply Qmult_le_0_compat; lra. }
  assert (H1 : fl ((b - a) * u) <= fl (b - a)).
  { apply fl_mono.
    assert (0 <= (b - a) * (1 - u)) by (apply Qmult_le_0_compat; lra).
    lra. }
  rewrite (fl_zero 0) in H0 by reflexivity.
  set (t := fl ((b - a) * u)) in *.
  assert (H2 : fl a <= fl (a + t)) by (apply fl_mono; lra).
  assert (H3 : fl (a + t) <= fl b) by (apply fl_mono; lra).
  lra.
Qed.

(* ===================================================================== *)
(** * The generators in double precision *)
(* ===================================================================== *)

Lemma double_uniform_Ok_inv rnd a b w v w' :
  Double.uniform rnd a b w = (Ok v, w') ->
  v = Double.uniform_value a b (rnd (rng_pos w)) /\
  w' = World (S (rng_pos w)) (db w) (console w) (conn_open w).
Proof. intros H. inversion H. auto. Qed.

Lemma double_uniform_eval rnd a b w :
  Double.uniform rnd a b w =
  (Ok (Double.uniform_value a b (rnd (rng_pos w))),
   World (S (rng_pos w)) (db w) (console w) (conn_open w)).
Proof. reflexivity. Qed.

Lemma double_true_div_Ok_inv a b w q w' :
  Double.true_div a b w = (Ok q, w') -> q = fdiv a b /\ w' = w /\ ~ b == 0.
Proof.
  unfold Double.true_div.
  destruct (Qeq_bool b 0) eqn:E; intros H; inversion H; subst.
  repeat split. intros Hb. apply Qeq_bool_iff in Hb. congruence.
Qed.

Lemma frame_double_uniform rnd a b : frame (Double.uniform rnd a b).
Proof. intros w. unfold only_rng. simpl. auto. Qed.

Lemma frame_double_true_div a b : frame (Double.true_div a b).
Proof.
  unfold Double.true_div.
  destruct (Qeq_bool b 0); [apply frame_raise | apply frame_ret].
Qed.

(** Peel one [x <- m ;; k] off a run in double precision that returned. *)
Ltac dpeel H :=
  let a := fresh "v" in
  let w := fresh "w" in
  let H1 := fresh "Hstep" in
  apply bind_Ok_inv in H as (a & w & H1 & H);
  first
    [ apply double_uniform_Ok_inv in H1 as [-> ->]
    | apply double_true_div_Ok_inv in H1 as (-> & -> & H1)
    | apply dict_get_Ok_inv in H1 as [H1 ->]
    | idtac ].

Ltac dframe_step :=
  lazymatch goal with
  | |- frame (if ?b then _ else _) => destruct b
  | |- frame (let '(_, _) := ?p in _) => destruct p
  | |- frame (ret _) => apply frame_ret
  | |- frame (raise _) => apply frame_raise
  | |- frame (Double.uniform _ _ _) => apply frame_double_uniform
  | |- frame (dict_get _ _) => apply frame_dict_get
  | |- frame (Double.true_div _ _) => apply frame_double_true_div
  | |- frame (bind _ _) => apply frame_bind; [| intros ?]
  | |- frame (for_each _ _ _) => apply frame_for_each; intros ? ?
  end.

Lemma frame_double_gdp_rows rnd pow countries :
  frame (Double.gdp_rows rnd pow countries).
Proof. unfold Double.gdp_rows. repeat dframe_step. Qed.

Lemma frame_double_inequality_rows rnd countries :
  frame (Double.inequality_rows rnd countries).
Proof. unfold Double.inequality_rows. repeat dframe_step. Qed.

Lemma frame_double_poverty_rows rnd countries :
  frame (Double.poverty_rows rnd countries).
Proof. unfold Double.poverty_rows. repeat dframe_step. Qed.

Lemma frame_double_trade_rows rnd countries :
  frame (Double.trade_rows rnd countries).
Proof. unfold Double.trade_rows. repeat dframe_step. Qed.

(** When the item [x] consumes [n x] draws, the block of the item number
    [i] starts after the draws of the items before it. *)
Lemma loop_trace_lookup_sum {A R} (P : A -> world -> list R -> world -> Prop)
    (B : A -> nat -> list R -> Prop) (n : A -> nat) :
  (forall x w new w', P x w new w' ->
     B x (rng_pos w) new /\ rng_pos w' = (rng_pos w + n x)%nat) ->
  forall w xs blocks w',
    loop_trace P w xs blocks w' ->
    length blocks = length xs /\
    forall i x new,
      xs !! i = Some x -> blocks !! i = Some new ->
      B x (rng_pos w + list_sum (map n (take i xs)))%nat new.
Proof.
  intros HP w xs blocks w' HT.
  induction HT as [w | w x new w1 xs blocks w' Hstep HT IH].
  - split; [reflexivity |]. intros i x new Hx. destruct i; discriminate.
  - destruct (HP _ _ _ _ Hstep) as [HB Hpos].
    destruct IH as [Hlen IH]. split; [simpl; congruence |].
    intros [| i] y b Hy Hb; simpl in Hy, Hb.
    + inversion Hy; inversion Hb; subst. simpl.
      replace (rng_pos w + 0)%nat with (rng_pos w) by lia. exact HB.
    + specialize (IH i y b Hy Hb). rewrite Hpos in IH. simpl.
      replace (rng_pos w + (n x + list_sum (map n (take i xs))))%nat
        with (rng_pos w + n x + list_sum (map n (take i xs)))%nat by lia.
      exact IH.
Qed.

(** ** The GDP table *)

Lemma double_growth_range_of_eval rnd group w :
  (if String.eqb group "High income" then Double.uniform rnd 1 3
   else if String.eqb group "Upper middle income" then Double.uniform rnd 3 7
   else if String.eqb group "Lower middle income" then Double.uniform rnd 4 8
   else Double.uniform rnd 3 6) w
  = (Ok (Double.uniform_value (fst (growth_range_of group))
           (snd (growth_range_of group)) (rnd (rng_pos w))),
     World (S (rng_pos w)) (db w) (console w) (conn_open w)).
Proof.
  unfold growth_range_of.
  destruct (String.eqb group "High income"); [reflexivity |].
  destruct (String.eqb group "Upper middle income"); [reflexivity |].
  destruct (String.eqb group "Lower middle income"); reflexivity.
Qed.

(** The GDP table, draw by draw. *)
Lemma double_gdp_rows_trace rnd pow countries w rows w' :
  Double.gdp_rows rnd pow countries w = (Ok rows, w') ->
  exists blocks,
    rows = concat blocks /\
    length blocks = length countries /\
    forall i c block,
      countries !! i = Some c -> blocks !! i = Some block ->
      Double.gdp_block_at rnd pow c (rng_pos w + 11 * i) block.
Proof.
  unfold Double.gdp_rows. intros H.
  apply (for_each_trace (fun c w0 block w1 =>
           Double.gdp_block_at rnd pow c (rng_pos w0) block /\
           rng_pos w1 = (rng_pos w0 + 11)%nat)) in H as (blocks & -> & HT).
  { exists blocks. split; [reflexivity |].
    eapply (loop_trace_lookup _ (Double.gdp_block_at rnd pow) 11); [| exact HT].
    intros c w0 block w1 HP. exact HP. }
  clear. intros c data w data' w' _ H.
  dpeel H. destruct v as [min_gdp max_gdp]. dpeel H.
  set (base_gdp := Double.uniform_value min_gdp max_gdp (rnd (rng_pos w))) in *.
  apply (for_each_trace (fun year w0 new w1 =>
           new = [Double.gdp_row rnd pow c base_gdp year
                    (if (year =? 2020)%Z then S (rng_pos w0) else rng_pos w0)] /\
           rng_pos w1 = (if (year =? 2020)%Z then S (S (rng_pos w0))
                         else S (rng_pos w0)))) in H as (blocks & -> & HT).
  - exists (concat blocks). split; [reflexivity |].
    rewrite range_2015_2024 in HT.
    repeat match goal with
           | HT : loop_trace _ _ (_ :: _) _ _ |- _ =>
               inversion HT as [| ? ? ? ? ? ? ? [-> ?] ?]; subst; clear HT
           | HT : loop_trace _ _ [] _ _ |- _ =>
               inversion HT; subst; clear HT
           end.
    simpl (_ =? _)%Z in *. cbn [rng_pos] in *.
    split; [| lia].
    exists min_gdp, max_gdp. split; [assumption |].
    rewrite range_2015_2024. cbn [concat app map].
    fold base_gdp.
    repeat (apply f_equal2;
            [ apply (f_equal (Double.gdp_row _ _ _ _ _));
              unfold growth_draw; cbn; lia |]).
    reflexivity.
  - clear. intros year row_data wy row_data' wy' _ H.
    rewrite (bind_Ok _ _ _ _ _ (double_growth_range_of_eval rnd _ _)) in H.
    unfold Double.gdp_row.
    destruct (year =? 2020)%Z.
    + rewrite (bind_Ok _ _ _ _ _ (double_uniform_eval rnd _ _ _)) in H.
      inversion H; subst; clear H.
      eexists. split; [reflexivity |]. split; reflexivity.
    + rewrite bind_ret in H. inversion H; subst; clear H.
      eexists. split; [reflexivity |].
      destruct (growth_range_of (income_group c)) as [lo hi].
      split; reflexivity.
Qed.

Lemma double_load_gdp_data_Ok_inv rnd env pow conn countries w u w' :
  Double.load_gdp_data rnd env pow conn countries w = (Ok u, w') ->
  exists rows w1,
    Double.gdp_rows rnd pow countries (snd (print "Creating GDP data..." w))
      = (Ok rows, w1) /\
    w' = World (rng_pos w1) (<["gdp_data" := map RGdp rows]> (db w))
           (console w ++ [Line "Creating GDP data...";
                          LoadedLine (length rows) "GDP records"])
           (conn_open w).
Proof.
  unfold Double.load_gdp_data.
  apply load_table_Ok_inv, frame_double_gdp_rows.
Qed.

(** ** Claims on the GDP table *)

(** C2. After a successful [load_gdp_data], with draws in [0, 1), the table
    [gdp_data] holds, for every country of the frame whatever its income
    group, one row per year of 2015..2023; the row of year [y] stores
    [round(base * (1 + growth / 100) ** (y - 2015), 2)] and
    [round(growth, 2)], computed in double precision, for the country's one
    base, drawn from the range of its income group, and a growth that is a
    draw of its own, the draw number [growth_draw] of the run, taken from
    the range of the income group and in 2020 from [-5, -2]; no two rows
    share their growth draw, and no growth draw is the base draw of a
    country. *)
Theorem C2_gdp_growth_rule rnd env pow conn countries w w' :
  (forall n, 0 <= rnd n < 1) ->
  Double.load_gdp_data rnd env pow conn countries w = (Ok tt, w') ->
  exists blocks,
    db w' !! "gdp_data" = Some (map RGdp (concat blocks)) /\
    length blocks = length countries /\
    (forall i c block,
        countries !! i = Some c -> blocks !! i = Some block ->
        exists min_gdp max_gdp,
          gdp_ranges !! income_group c = Some (min_gdp, max_gdp) /\
          let base_gdp :=
            Double.uniform_value min_gdp max_gdp (rnd (rng_pos w + 11 * i)%nat) in
          Forall2 (fun year r =>
            let '(lo, hi) := if (year =? 2020)%Z then (-5, -2)
                             else growth_range_of (income_group c) in
            let growth :=
              Double.uniform_value lo hi
                (rnd (growth_draw (rng_pos w + 11 * i) year)) in
            (year = 2020%Z -> -5 <= growth <= -2) /\
            r = GdpRecord (country_code c) year
                  (round2 (fmul base_gdp
                             (pow (fadd 1 (fdiv growth 100)) (year - 2015)%Z)))
                  None (round2 growth))
            (range 2015 2024) block) /\
    (forall i1 i2 y1 y2,
        In y1 (range 2015 2024) -> In y2 (range 2015 2024) ->
        (growth_draw (rng_pos w + 11 * i1) y1
         = growth_draw (rng_pos w + 11 * i2) y2 ->
         i1 = i2 /\ y1 = y2) /\
        growth_draw (rng_pos w + 11 * i1) y1 <> (rng_pos w + 11 * i2)%nat).
Proof.
  intros Hrange H.
  apply double_load_gdp_data_Ok_inv in H as (rows & w1 & Hrows & ->).
  apply double_gdp_rows_trace in Hrows as (blocks & -> & Hlen & Hblocks).
  exists blocks. split; [apply lookup_insert_eq |].
  split; [exact Hlen |]. split.
  - intros i c block Hc Hb.
    destruct (Hblocks i c block Hc Hb) as (min_gdp & max_gdp & Hgroup & ->).
    cbn [snd print emit rng_pos].
    exists min_gdp, max_gdp. split; [exact Hgroup |]. cbv zeta.
    apply Forall2_map_self. intros year _. unfold Double.gdp_row.
    destruct (Z.eqb_spec year 2020) as [-> | Hy].
    + split; [| reflexivity].
      intros _. apply double_uniform_value_range;
        [vm_compute; reflexivity | vm_compute; reflexivity
         | vm_compute; reflexivity | lra | apply Hrange].
    + destruct (growth_range_of (income_group c)) as [lo hi].
      split; [intros; contradiction | reflexivity].
  - intros i1 i2 y1 y2 H1 H2.
    apply In_range in H1, H2.
    apply (growth_draw_fresh (rng_pos w) i1 i2 y1 y2 H1 H2).
Qed.

Lemma C2_witness :
  exists blocks,
    db (snd (Double.load_gdp_data sample_rnd sample_env Double.pow_rounded
               sample_conn catalog new_world))
      !! "gdp_data" = Some (map RGdp (concat blocks)) /\
    length blocks = length catalog /\
    (forall i c block,
        catalog !! i = Some c -> blocks !! i = Some block ->
        exists min_gdp max_gdp,
          gdp_ranges !! income_group c = Some (min_gdp, max_gdp) /\
          let base_gdp :=
            Double.uniform_value min_gdp max_gdp
              (sample_rnd (rng_pos new_world + 11 * i)%nat) in
          Forall2 (fun year r =>
            let '(lo, hi) := if (year =? 2020)%Z then (-5, -2)
                             else growth_range_of (income_group c) in
            let growth :=
              Double.uniform_value lo hi
                (sample_rnd (growth_draw (rng_pos new_world + 11 * i) year)) in
            (year = 2020%Z -> -5 <= growth <= -2) /\
            r = GdpRecord (country_code c) year
                  (round2 (fmul base_gdp
                             (Double.pow_rounded (fadd 1 (fdiv growth 100))
                                (year - 2015)%Z)))
                  None (round2 growth))
            (range 2015 2024) block) /\
    (forall i1 i2 y1 y2,
        In y1 (range 2015 2024) -> In y2 (range 2015 2024) ->
        (growth_draw (rng_pos new_world + 11 * i1) y1
         = growth_draw (rng_pos new_world + 11 * i2) y2 ->
         i1 = i2 /\ y1 = y2) /\
        growth_draw (rng_pos new_world + 11 * i1) y1
        <> (rng_pos new_world + 11 * i2)%nat).
Proof.
  apply (C2_gdp_growth_rule sample_rnd sample_env Double.pow_rounded sample_conn
           catalog new_world).
  - intros n. unfold sample_rnd. lra.
  - vm_compute. reflexivity.
Defined.

(** ** The inequality table *)

(** The inequality table, draw by draw. *)
Lemma double_inequality_rows_trace rnd countries w rows w' :
  Double.inequality_rows rnd countries w = (Ok rows, w') ->
  rng_pos w' = (rng_pos w + 16 * length countries)%nat /\
  exists blocks,
    rows = concat blocks /\
    length blocks = length countries /\
    forall i c block,
      countries !! i = Some c -> blocks !! i = Some block ->
      Double.inequality_block_at rnd c (rng_pos w + 16 * i) block.
Proof.
  unfold Double.inequality_rows. intros H.
  assert (Hbody : forall c data w data' w',
    (bounds <- dict_get gini_ranges (region c) ;;
     let '(min_gini, max_gini) := bounds in
     base_gini <- Double.uniform rnd min_gini max_gini ;;
     for_each survey_years (fun year data =>
       noise <- Double.uniform rnd (-3) 3 ;;
       let gini := fadd base_gini noise in
       let gini := py_max 20 (py_min 70 gini) in
       lowest_20 <- Double.uniform rnd 4 9 ;;
       highest_20 <- Double.uniform rnd 40 55 ;;
       ratio <- Double.true_div highest_20 (fmul lowest_20 2) ;;
       let palma := round2 ratio in
       ret (data ++ [ InequalityRecord (country_code c) year (round2 gini)
                        (round2 lowest_20) (round2 highest_20) palma ])%list)
       data) w = (Ok data', w') ->
    exists new, data' = (data ++ new)%list /\
      Double.inequality_block_at rnd c (rng_pos w) new /\
      rng_pos w' = (rng_pos w + 16)%nat).
  { clear. intros c data w data' w' H.
    dpeel H. destruct v as [min_gini max_gini]. dpeel H.
    set (base_gini := Double.uniform_value min_gini max_gini (rnd (rng_pos w))) in *.
    apply (for_each_trace (fun year w0 new w1 =>
             new = [Double.inequality_row_of rnd c base_gini year (rng_pos w0)] /\
             rng_pos w1 = (rng_pos w0 + 3)%nat)) in H as (blocks & -> & HT).
    - exists (concat blocks). split; [reflexivity |].
      unfold survey_years in HT.
      repeat match goal with
             | HT : loop_trace _ _ (_ :: _) _ _ |- _ =>
                 inversion HT as [| ? ? ? ? ? ? ? [-> ?] ?]; subst; clear HT
             | HT : loop_trace _ _ [] _ _ |- _ =>
                 inversion HT; subst; clear HT
             end.
      cbn [rng_pos] in *.
      split; [| lia].
      exists min_gini, max_gini. split; [assumption |].
      unfold survey_years. cbn [concat app map]. fold base_gini.
      repeat (apply f_equal2;
              [ apply (f_equal (Double.inequality_row_of _ _ _ _)); unfold survey_draw;
                match goal with
                | |- context [Z.to_nat ?z] =>
                    let n := eval vm_compute in (Z.to_nat z) in
                    change (Z.to_nat z) with n
                end; lia |]).
      reflexivity.
    - clear. intros year row_data wy row_data' wy' _ H.
      do 4 dpeel H. inversion H; subst; clear H.
      eexists. split; [reflexivity |]. cbn [rng_pos]. split; [| lia].
      reflexivity. }
  split.
  - apply (for_each_draws (fun _ => 16%nat)) in H.
    { rewrite H, list_sum_const. lia. }
    intros c data w0 data' w0' _ Hc.
    destruct (Hbody c data w0 data' w0' Hc) as (new & _ & _ & Hpos). exact Hpos.
  - apply (for_each_trace (fun c w0 block w1 =>
             Double.inequality_block_at rnd c (rng_pos w0) block /\
             rng_pos w1 = (rng_pos w0 + 16)%nat)) in H as (blocks & -> & HT).
    { exists blocks. split; [reflexivity |].
      eapply (loop_trace_lookup _ (Double.inequality_block_at rnd) 16); [| exact HT].
      intros c w0 block w1 HP. exact HP. }
    intros c data w0 data' w0' _ Hc. exact (Hbody c data w0 data' w0' Hc).
Qed.

Lemma double_load_inequality_data_Ok_inv rnd env conn countries w u w' :
  Double.load_inequality_data rnd env conn countries w = (Ok u, w') ->
  exists rows w1,
    Double.inequality_rows rnd countries (snd (print "Creating inequality data..." w))
      = (Ok rows, w1) /\
    w' = World (rng_pos w1) (<["inequality_metrics" := map RInequality rows]> (db w))
           (console w ++ [Line "Creating inequality data...";
                          LoadedLine (length rows) "inequality records"])
           (conn_open w).
Proof.
  unfold Double.load_inequality_data.
  apply load_table_Ok_inv, frame_double_inequality_rows.
Qed.

Lemma In_concat_lookup {A R} (xs : list A) (blocks : list (list R)) r :
  length blocks = length xs -> In r (concat blocks) ->
  exists i x block,
    xs !! i = Some x /\ blocks !! i = Some block /\ In r block.
Proof.
  intros Hlen Hr. apply in_concat in Hr as (block & Hb & Hr).
  apply list_elem_of_In, list_elem_of_lookup_1 in Hb as (i & Hi).
  destruct (lookup_lt_is_Some_2 xs i) as [x Hx].
  { rewrite <- Hlen. eapply lookup_lt_Some. exact Hi. }
  exists i, x, block. auto.
Qed.

Lemma gini_ranges_double key min_gini max_gini :
  gini_ranges !! key = Some (min_gini, max_gini) ->
  (fl min_gini == min_gini /\ fl max_gini == max_gini /\
   fl (max_gini - min_gini) == max_gini - min_gini) /\
  (fl (min_gini + -3) == min_gini - 3 /\ fl (max_gini + 3) == max_gini + 3) /\
  exists zlo zhi,
    min_gini = inject_Z zlo /\ max_gini = inject_Z zhi /\
    25 <= min_gini /\ min_gini <= max_gini /\ max_gini <= 65.
Proof.
  intros H. unfold gini_ranges in H.
  apply elem_of_list_to_map_2 in H.
  repeat (apply elem_of_cons in H as [H | H];
          [inversion H; subst; clear H;
           split; [repeat split; vm_compute; reflexivity |];
           split; [split; vm_compute; reflexivity |];
           eexists _, _;
           split; [reflexivity | split; [reflexivity | lra]] |]).
  inversion H.
Qed.

(** The rows of a block of the inequality table. *)
Lemma double_inequality_block_rows rnd c pos block r :
  Double.inequality_block_at rnd c pos block -> In r block ->
  exists base_gini year,
    In year survey_years /\
    r = Double.inequality_row_of rnd c base_gini year (survey_draw pos year).
Proof.
  intros (min_gini & max_gini & _ & ->) Hr.
  apply in_map_iff in Hr as (year & <- & Hy). eauto.
Qed.

(** ** Claims on the inequality table *)

(** C1. Every row a successful [load_inequality_data] stores has its
    [gini_coefficient] in [20, 70], and its [palma_ratio] is
    [round(highest_20 / (2 * lowest_20), 2)], computed in double precision,
    for the sampled, unrounded shares whose roundings are the two stored
    shares of that row: two successive draws of the run. *)
Theorem C1_inequality_gini_and_palma rnd env conn countries w w' :
  Double.load_inequality_data rnd env conn countries w = (Ok tt, w') ->
  exists rows,
    db w' !! "inequality_metrics" = Some (map RInequality rows) /\
    Forall (fun r =>
      20 <= gini_coefficient r <= 70 /\
      exists k,
        let lowest_20 := Double.uniform_value 4 9 (rnd k) in
        let highest_20 := Double.uniform_value 40 55 (rnd (S k)) in
        income_share_lowest_20pct r = round2 lowest_20 /\
        income_share_highest_20pct r = round2 highest_20 /\
        palma_ratio r = round2 (fdiv highest_20 (fmul 2 lowest_20))) rows.
Proof.
  intros H.
  apply double_load_inequality_data_Ok_inv in H as (rows & w1 & Hrows & ->).
  exists rows. split; [apply lookup_insert_eq |].
  apply double_inequality_rows_trace in Hrows as (_ & blocks & -> & Hlen & Hblocks).
  apply Forall_forall. intros r Hr. apply list_elem_of_In in Hr.
  destruct (In_concat_lookup countries blocks r Hlen Hr)
    as (i & c & block & Hc & Hb & Hrb).
  destruct (double_inequality_block_rows _ _ _ _ _ (Hblocks i c block Hc Hb) Hrb)
    as (base_gini & year & _ & ->).
  set (k := survey_draw _ year).
  unfold Double.inequality_row_of.
  cbn [gini_coefficient income_share_lowest_20pct income_share_highest_20pct
       palma_ratio].
  split.
  - match goal with
    | |- _ <= round2 (py_max 20 (py_min 70 ?g)) <= _ =>
        pose proof (clamp_bounds 20 70 g ltac:(lra)) as [Hlo Hhi]
    end.
    split.
    + apply (round2_ge_Z _ 20). exact Hlo.
    + apply (round2_le_Z _ 70). exact Hhi.
  - exists (1 + k)%nat. cbv zeta.
    split; [reflexivity | split; [reflexivity |]].
    unfold fmul.
    rewrite (fl_comp (Double.uniform_value 4 9 (rnd (1 + k)%nat) * 2)
               (2 * Double.uniform_value 4 9 (rnd (1 + k)%nat)))
      by apply Qmult_comm.
    reflexivity.
Qed.

Lemma C1_witness :
  exists rows,
    db (snd (Double.load_inequality_data sample_rnd sample_env sample_conn
               catalog new_world))
      !! "inequality_metrics" = Some (map RInequality rows) /\
    Forall (fun r =>
      20 <= gini_coefficient r <= 70 /\
      exists k,
        let lowest_20 := Double.uniform_value 4 9 (sample_rnd k) in
        let highest_20 := Double.uniform_value 40 55 (sample_rnd (S k)) in
        income_share_lowest_20pct r = round2 lowest_20 /\
        income_share_highest_20pct r = round2 highest_20 /\
        palma_ratio r = round2 (fdiv highest_20 (fmul 2 lowest_20))) rows.
Proof.
  apply (C1_inequality_gini_and_palma sample_rnd sample_env sample_conn catalog
           new_world).
  vm_compute. reflexivity.
Defined.

(** ** More on the inequality table *)

Lemma double_share_ranges (rnd : nat -> Q) (k : nat) :
  (forall n, 0 <= rnd n < 1) ->
  -3 <= Double.uniform_value (-3) 3 (rnd k) <= 3 /\
  4 <= Double.uniform_value 4 9 (rnd k) <= 9 /\
  40 <= Double.uniform_value 40 55 (rnd k) <= 55.
Proof.
  intros Hrange.
  split; [| split];
    (apply double_uniform_value_range;
     [vm_compute; reflexivity | vm_compute; reflexivity
      | vm_compute; reflexivity | lra | apply Hrange]).
Qed.

(** The Palma ratio of two shares within their ranges. *)
Lemma double_palma_range (lowest_20 highest_20 : Q) :
  4 <= lowest_20 <= 9 -> 40 <= highest_20 <= 55 ->
  2.22 <= round2 (fdiv highest_20 (fmul lowest_20 2)) <= 6.88.
Proof.
  intros Hl Hh. unfold fdiv, fmul.
  assert (H8 : fl 8 <= fl (lowest_20 * 2)) by (apply fl_mono; lra).
  assert (H18 : fl (lowest_20 * 2) <= fl 18) by (apply fl_mono; lra).
  assert (E8 : fl 8 == 8) by (vm_compute; reflexivity).
  assert (E18 : fl 18 == 18) by (vm_compute; reflexivity).
  set (d := fl (lowest_20 * 2)) in *.
  assert (Hratio : (20 # 9) <= highest_20 / d <= (55 # 8)).
  { split.
    - apply Qle_shift_div_l; [lra |].
      assert (0 <= (20 # 9) * (18 - d)) by (apply Qmult_le_0_compat; lra).
      lra.
    - apply Qle_shift_div_r; [lra |].
      assert (0 <= (55 # 8) * (d - 8)) by (apply Qmult_le_0_compat; lra).
      lra. }
  destruct Hratio as [Hr1 Hr2].
  apply fl_mono, round2_mono in Hr1. apply fl_mono, round2_mono in Hr2.
  assert (E1 : round2 (fl (20 # 9)) = 222 # 100) by (vm_compute; reflexivity).
  assert (E2 : round2 (fl (55 # 8)) = 688 # 100) by (vm_compute; reflexivity).
  rewrite E1 in Hr1. rewrite E2 in Hr2.
  split.
  - eapply Qle_trans; [| exact Hr1]. unfold Qle. simpl. lia.
  - eapply Qle_trans; [exact Hr2 |]. unfold Qle. simpl. lia.
Qed.

(** X6. With draws in [0, 1), the clamp of the Gini coefficient to
    [20, 70] never changes a value: the row of a survey year stores the
    rounded sum, in double precision, of the country's base and the row's
    noise, which lies within 3 of the range of the country's region and so
    in [22, 68]; the stored shares lie in [4, 9] and [40, 55], and the Palma
    ratio in [2.22, 6.88]. *)
Theorem X6_inequality_ranges rnd env conn countries w w' :
  (forall n, 0 <= rnd n < 1) ->
  Double.load_inequality_data rnd env conn countries w = (Ok tt, w') ->
  exists blocks,
    db w' !! "inequality_metrics" = Some (map RInequality (concat blocks)) /\
    length blocks = length countries /\
    forall i c block,
      countries !! i = Some c -> blocks !! i = Some block ->
      exists min_gini max_gini,
        gini_ranges !! region c = Some (min_gini, max_gini) /\
        let pos := (rng_pos w + 16 * i)%nat in
        let base_gini := Double.uniform_value min_gini max_gini (rnd pos) in
        min_gini <= base_gini <= max_gini /\
        Forall2 (fun year r =>
          gini_coefficient r
          = round2 (fadd base_gini
                      (Double.uniform_value (-3) 3 (rnd (survey_draw pos year)))) /\
          min_gini - 3 <= gini_coefficient r <= max_gini + 3 /\
          22 <= gini_coefficient r <= 68 /\
          4 <= income_share_lowest_20pct r <= 9 /\
          40 <= income_share_highest_20pct r <= 55 /\
          2.22 <= palma_ratio r <= 6.88) survey_years block.
Proof.
  intros Hrange H.
  apply double_load_inequality_data_Ok_inv in H as (rows & w1 & Hrows & ->).
  apply double_inequality_rows_trace in Hrows as (_ & blocks & -> & Hlen & Hblocks).
  exists blocks. split; [apply lookup_insert_eq |]. split; [exact Hlen |].
  intros i c block Hc Hb.
  destruct (Hblocks i c block Hc Hb) as (min_gini & max_gini & Hregion & ->).
  cbn [snd print emit rng_pos].
  exists min_gini, max_gini. split; [exact Hregion |]. cbv zeta.
  set (pos := (rng_pos w + 16 * i)%nat).
  set (base := Double.uniform_value min_gini max_gini (rnd pos)).
  destruct (gini_ranges_double _ _ _ Hregion)
    as ((Flo & Fhi & Fd) & (Flo3 & Fhi3) & zlo & zhi & Elo & Ehi & Hlo & Hle & Hhi).
  assert (Hbase : min_gini <= base <= max_gini).
  { apply double_uniform_value_range; try assumption. apply Hrange. }
  split; [exact Hbase |].
  apply Forall2_map_self. intros year _.
  set (k := survey_draw pos year).
  unfold Double.inequality_row_of.
  cbn [gini_coefficient income_share_lowest_20pct income_share_highest_20pct
       palma_ratio].
  destruct (double_share_ranges rnd k Hrange) as (Hn & _).
  destruct (double_share_ranges rnd (1 + k) Hrange) as (_ & Hl & _).
  destruct (double_share_ranges rnd (2 + k) Hrange) as (_ & _ & Hh).
  set (noise := Double.uniform_value (-3) 3 (rnd k)) in *.
  set (lowest_20 := Double.uniform_value 4 9 (rnd (1 + k)%nat)) in *.
  set (highest_20 := Double.uniform_value 40 55 (rnd (2 + k)%nat)) in *.
  assert (Hsum : min_gini - 3 <= fadd base noise <= max_gini + 3).
  { unfold fadd.
    assert (H1 : fl (min_gini + -3) <= fl (base + noise)) by (apply fl_mono; lra).
    assert (H2 : fl (base + noise) <= fl (max_gini + 3)) by (apply fl_mono; lra).
    lra. }
  assert (Hclamp : py_max 20 (py_min 70 (fadd base noise)) = fadd base noise).
  { apply clamp_inactive; lra. }
  rewrite Hclamp.
  assert (Hg : min_gini - 3 <= round2 (fadd base noise) <= max_gini + 3).
  { rewrite Elo, Ehi in *. split.
    - rewrite inject_Z_minus_3. apply round2_ge_Z.
      rewrite <- inject_Z_minus_3. lra.
    - rewrite inject_Z_plus_3. apply round2_le_Z.
      rewrite <- inject_Z_plus_3. lra. }
  split; [reflexivity |].
  split; [exact Hg |].
  split; [lra |].
  split; [split; [apply (round2_ge_Z _ 4) | apply (round2_le_Z _ 9)]; apply Hl |].
  split; [split; [apply (round2_ge_Z _ 40) | apply (round2_le_Z _ 55)]; apply Hh |].
  apply double_palma_range; assumption.
Qed.

Lemma X6_witness :
  exists blocks,
    db (snd (Double.load_inequality_data sample_rnd sample_env sample_conn
               catalog new_world))
      !! "inequality_metrics" = Some (map RInequality (concat blocks)) /\
    length blocks = length catalog /\
    forall i c block,
      catalog !! i = Some c -> blocks !! i = Some block ->
      exists min_gini max_gini,
        gini_ranges !! region c = Some (min_gini, max_gini) /\
        let pos := (rng_pos new_world + 16 * i)%nat in
        let base_gini := Double.uniform_value min_gini max_gini (sample_rnd pos) in
        min_gini <= base_gini <= max_gini /\
        Forall2 (fun year r =>
          gini_coefficient r
          = round2 (fadd base_gini
                      (Double.uniform_value (-3) 3
                         (sample_rnd (survey_draw pos year)))) /\
          min_gini - 3 <= gini_coefficient r <= max_gini + 3 /\
          22 <= gini_coefficient r <= 68 /\
          4 <= income_share_lowest_20pct r <= 9 /\
          40 <= income_share_highest_20pct r <= 55 /\
          2.22 <= palma_ratio r <= 6.88) survey_years block.
Proof.
  apply (X6_inequality_ranges sample_rnd sample_env sample_conn catalog new_world).
  - intros n. unfold sample_rnd. lra.
  - vm_compute. reflexivity.
Defined.

(** X8. The table [inequality_metrics] draw by draw: a successful
    [load_inequality_data] consumes 16 draws per country, the base and
    three per survey year, and stores for the country number [i] of the
    frame the rows [Double.inequality_block_at] builds, in double
    precision, from the draws that start [16 * i] after the start of the
    call: in each row the Gini coefficient takes the first of the row's
    three draws, the lowest share the second and the highest share the
    third. *)
Theorem X8_inequality_draws rnd env conn countries w w' :
  Double.load_inequality_data rnd env conn countries w = (Ok tt, w') ->
  rng_pos w' = (rng_pos w + 16 * length countries)%nat /\
  exists blocks,
    db w' !! "inequality_metrics" = Some (map RInequality (concat blocks)) /\
    length blocks = length countries /\
    forall i c block,
      countries !! i = Some c -> blocks !! i = Some block ->
      Double.inequality_block_at rnd c (rng_pos w + 16 * i) block.
Proof.
  intros H.
  apply double_load_inequality_data_Ok_inv in H as (rows & w1 & Hrows & ->).
  cbn [rng_pos].
  apply double_inequality_rows_trace in Hrows as (Hpos & blocks & -> & Hlen & Hblocks).
  split; [exact Hpos |].
  exists blocks. split; [apply lookup_insert_eq |].
  split; [exact Hlen | exact Hblocks].
Qed.

Lemma X8_witness :
  rng_pos (snd (Double.load_inequality_data sample_rnd sample_env sample_conn
                  catalog new_world))
  = (rng_pos new_world + 16 * length catalog)%nat /\
  exists blocks,
    db (snd (Double.load_inequality_data sample_rnd sample_env sample_conn
               catalog new_world))
      !! "inequality_metrics" = Some (map RInequality (concat blocks)) /\
    length blocks = length catalog /\
    forall i c block,
      catalog !! i = Some c -> blocks !! i = Some block ->
      Double.inequality_block_at sample_rnd c (rng_pos new_world + 16 * i) block.
Proof.
  apply (X8_inequality_draws sample_rnd sample_env sample_conn catalog new_world).
  vm_compute. reflexivity.
Defined.

(** ** The poverty table *)

(** The poverty table, draw by draw. *)
Lemma double_poverty_rows_trace rnd countries w rows w' :
  Double.poverty_rows rnd countries w = (Ok rows, w') ->
  exists blocks,
    rows = concat blocks /\
    length blocks = length countries /\
    forall i c block,
      countries !! i = Some c -> blocks !! i = Some block ->
      Double.poverty_block_at rnd c
        (rng_pos w + poverty_draws_before countries i) block.
Proof.
  unfold Double.poverty_rows. intros H.
  apply (for_each_trace (fun c w0 block w1 =>
           Double.poverty_block_at rnd c (rng_pos w0) block /\
           rng_pos w1 = (rng_pos w0 + poverty_draws c)%nat)) in H
    as (blocks & -> & HT).
  { exists blocks. split; [reflexivity |].
    eapply (loop_trace_lookup_sum _ (Double.poverty_block_at rnd) poverty_draws);
      [| exact HT].
    intros c w0 block w1 HP. exact HP. }
  clear. intros c data w data' w' _ H.
  unfold Double.poverty_block_at, poverty_draws, poverty_covered.
  destruct (str_in (income_group c) _) eqn:Hin.
  2: { inversion H; subst. exists []. rewrite app_nil_r.
       split; [reflexivity | split; [reflexivity | lia]]. }
  apply bind_Ok_inv in H as (bases & w1 & Hb & H).
  unfold poverty_ranges_of.
  repeat match type of Hb with
         | (if ?b then _ else _) _ = _ => destruct b
         end;
    do 3 dpeel Hb; inversion Hb; subst; clear Hb;
    unfold survey_years in *; cbn [for_each bind ret] in H;
    injection H as <- <-;
    (eexists; split; [rewrite <- !app_assoc; cbn [app]; reflexivity |]);
    (split; [reflexivity | cbn [rng_pos]; lia]).
Qed.

Lemma double_poverty_blocks rnd countries w blocks :
  length blocks = length countries ->
  (forall i c block,
      countries !! i = Some c -> blocks !! i = Some block ->
      Double.poverty_block_at rnd c
        (rng_pos w + poverty_draws_before countries i) block) ->
  Forall2 (fun c block => exists pos, Double.poverty_block_at rnd c pos block)
    countries blocks.
Proof.
  intros Hlen Hblocks.
  apply Forall2_same_length_lookup_2; [now symmetry |].
  intros i c block Hc Hb. eauto.
Qed.

Lemma double_load_poverty_data_Ok_inv rnd env conn countries w u w' :
  Double.load_poverty_data rnd env conn countries w = (Ok u, w') ->
  exists rows w1,
    Double.poverty_rows rnd countries (snd (print "Creating poverty data..." w))
      = (Ok rows, w1) /\
    w' = World (rng_pos w1) (<["poverty_indicators" := map RPoverty rows]> (db w))
           (console w ++ [Line "Creating poverty data...";
                          LoadedLine (length rows) "poverty records"])
           (conn_open w).
Proof.
  unfold Double.load_poverty_data.
  apply load_table_Ok_inv, frame_double_poverty_rows.
Qed.

(** From one survey to a later one the factor drops by more than 0.03. *)
Lemma double_reduction_factor_step (y1 y2 : Z) :
  In y1 survey_years -> In y2 survey_years -> (y1 < y2)%Z ->
  Double.reduction_factor y2 + (3 # 100) <= Double.reduction_factor y1.
Proof.
  unfold survey_years. simpl.
  intros [<- | [<- | [<- | [<- | [<- | []]]]]]
         [<- | [<- | [<- | [<- | [<- | []]]]]] Hlt;
    try lia; vm_compute; discriminate.
Qed.

Lemma double_reduction_factor_survey (year : Z) :
  In year survey_years -> (84 # 100) <= Double.reduction_factor year <= 1.
Proof.
  unfold survey_years. simpl.
  intros [<- | [<- | [<- | [<- | [<- | []]]]]]; vm_compute; split; discriminate.
Qed.

(** The three bases of a covered country lie within their ranges; the
    ranges of the 2.15 and of the 6.85 line do not cross. *)
Lemma double_poverty_bases (rnd : nat -> Q) group (k1 k2 k3 : nat) :
  (forall n, 0 <= rnd n < 1) ->
  let '(lo215, hi215, lo365, hi365, lo685, hi685) := poverty_ranges_of group in
  (1 <= lo215 /\ hi215 <= lo685 /\ 1 <= lo365 /\ hi685 <= 95 /\ hi365 <= 95) /\
  lo215 <= Double.uniform_value lo215 hi215 (rnd k1) <= hi215 /\
  lo365 <= Double.uniform_value lo365 hi365 (rnd k2) <= hi365 /\
  lo685 <= Double.uniform_value lo685 hi685 (rnd k3) <= hi685.
Proof.
  intros Hrange. unfold poverty_ranges_of.
  destruct (String.eqb group "Low income");
    [| destruct (String.eqb group "Lower middle income")];
    (split; [lra |]);
    (split; [| split]);
    (apply double_uniform_value_range;
     [vm_compute; reflexivity | vm_compute; reflexivity
      | vm_compute; reflexivity | lra | apply Hrange]).
Qed.

(** A base of at least 1 loses more than a hundredth when the factor drops
    by 0.03. *)
Lemma double_rate_decreasing (b f1 f2 : Q) :
  1 <= b <= 95 -> 0 <= f2 -> f2 + (3 # 100) <= f1 -> f1 <= 1 ->
  round2 (fmul b f2) < round2 (fmul b f1).
Proof.
  intros Hb Hf2 Hstep Hf1. apply round2_lt. unfold fmul.
  assert (E128 : pow2 (-46 + 53) == 128) by reflexivity.
  assert (Eps : pow2 (-46) <= 1 # 1000) by (vm_compute; discriminate).
  assert (P1 : 0 <= b * f2) by (apply Qmult_le_0_compat; lra).
  assert (P2 : 0 <= b * (f1 - f2 - (3 # 100))) by (apply Qmult_le_0_compat; lra).
  assert (P3 : 0 <= b * (1 - f1)) by (apply Qmult_le_0_compat; lra).
  pose proof (pow2_pos (-46)) as Hp.
  pose proof (fl_near (b * f1) (-46) ltac:(lia) ltac:(lra)) as [N1 _].
  pose proof (fl_near (b * f2) (-46) ltac:(lia) ltac:(lra)) as [_ N2].
  lra.
Qed.

Lemma double_rate_mono (b1 b2 f : Q) :
  0 <= f -> b1 <= b2 -> round2 (fmul b1 f) <= round2 (fmul b2 f).
Proof.
  intros Hf Hb. apply round2_mono, fl_mono.
  apply Qmult_le_compat_r; assumption.
Qed.

Lemma double_poverty_block_code rnd c pos block r :
  Double.poverty_block_at rnd c pos block -> In r block ->
  pov_country_code r = country_code c.
Proof.
  unfold Double.poverty_block_at. intros HB Hr.
  destruct (poverty_covered c); [| subst; destruct Hr].
  destruct (poverty_ranges_of (income_group c))
    as [[[[[lo215 hi215] lo365] hi365] lo685] hi685].
  subst block. apply in_map_iff in Hr as (year & <- & _). reflexivity.
Qed.

(** Inside one block a later survey year has strictly lower rates. *)
Lemma double_poverty_block_decreasing rnd c pos block r1 r2 :
  (forall n, 0 <= rnd n < 1) ->
  Double.poverty_block_at rnd c pos block -> In r1 block -> In r2 block ->
  (pov_year r1 < pov_year r2)%Z ->
  poverty_headcount_215_pct r2 < poverty_headcount_215_pct r1 /\
  poverty_headcount_365_pct r2 < poverty_headcount_365_pct r1 /\
  poverty_headcount_685_pct r2 < poverty_headcount_685_pct r1.
Proof.
  intros Hrange HB H1 H2 Hlt. unfold Double.poverty_block_at in HB.
  destruct (poverty_covered c); [| subst; destruct H1].
  pose proof (double_poverty_bases rnd (income_group c) pos (1 + pos) (2 + pos)
                Hrange) as Hbases.
  destruct (poverty_ranges_of (income_group c))
    as [[[[[lo215 hi215] lo365] hi365] lo685] hi685].
  destruct Hbases as (Hr & B1 & B2 & B3).
  subst block.
  apply in_map_iff in H1 as (y1 & <- & Hy1).
  apply in_map_iff in H2 as (y2 & <- & Hy2).
  cbn [Double.poverty_row pov_year poverty_headcount_215_pct
       poverty_headcount_365_pct poverty_headcount_685_pct] in *.
  pose proof (double_reduction_factor_step y1 y2 Hy1 Hy2 Hlt) as Hstep.
  pose proof (double_reduction_factor_survey y1 Hy1) as [_ Hf1].
  pose proof (double_reduction_factor_survey y2 Hy2) as [Hf2 _].
  repeat split; apply double_rate_decreasing; lra.
Qed.

(** ** Claims on the poverty table *)

(** C3. On a frame with distinct country codes and draws in [0, 1), the
    table [poverty_indicators] a successful [load_poverty_data] stores
    holds, for each country of the three covered income groups, one row per
    survey year: each of its three rates is the rounding of one base of the
    country, drawn once from the range of its income group, times the decay
    factor [1 - (year - 2015) / 8 * 0.15] of the year, computed in double
    precision; a country of another group has no row. Of two rows of one
    country, the one of the later year has a strictly lower rate at each of
    the three lines, and no row carries the code of a country whose income
    group is High income. *)
Theorem C3_poverty_rates_decrease rnd env conn countries w w' :
  (forall n, 0 <= rnd n < 1) ->
  NoDup (map country_code countries) ->
  Double.load_poverty_data rnd env conn countries w = (Ok tt, w') ->
  exists blocks,
    db w' !! "poverty_indicators" = Some (map RPoverty (concat blocks)) /\
    length blocks = length countries /\
    (forall i c block,
        countries !! i = Some c -> blocks !! i = Some block ->
        if poverty_covered c then
          let pos := (rng_pos w + poverty_draws_before countries i)%nat in
          let '(lo215, hi215, lo365, hi365, lo685, hi685) :=
            poverty_ranges_of (income_group c) in
          let base_215 := Double.uniform_value lo215 hi215 (rnd pos) in
          let base_365 := Double.uniform_value lo365 hi365 (rnd (1 + pos)%nat) in
          let base_685 := Double.uniform_value lo685 hi685 (rnd (2 + pos)%nat) in
          block = map (fun year =>
                    let decay :=
                      fsub 1 (fmul (fdiv (inject_Z (year - 2015)) 8) (fl 0.15)) in
                    PovertyRecord (country_code c) year
                      (round2 (fmul base_215 decay))
                      (round2 (fmul base_365 decay))
                      (round2 (fmul base_685 decay))
                      None)
                    survey_years
        else block = []) /\
    (forall r1 r2,
        In r1 (concat blocks) -> In r2 (concat blocks) ->
        pov_country_code r1 = pov_country_code r2 ->
        (pov_year r1 < pov_year r2)%Z ->
        poverty_headcount_215_pct r2 < poverty_headcount_215_pct r1 /\
        poverty_headcount_365_pct r2 < poverty_headcount_365_pct r1 /\
        poverty_headcount_685_pct r2 < poverty_headcount_685_pct r1) /\
    (forall c r,
        In c countries -> income_group c = "High income" ->
        In r (concat blocks) ->
        pov_country_code r <> country_code c).
Proof.
  intros Hrange Hnd H.
  apply double_load_poverty_data_Ok_inv in H as (rows & w1 & Hrows & ->).
  apply double_poverty_rows_trace in Hrows as (blocks & -> & Hlen & Hblocks).
  cbn [snd print emit rng_pos] in Hblocks.
  pose proof (double_poverty_blocks rnd countries _ blocks Hlen Hblocks) as HF.
  exists blocks. split; [apply lookup_insert_eq |].
  split; [exact Hlen |]. split; [| split].
  - intros i c block Hc Hb.
    specialize (Hblocks i c block Hc Hb).
    unfold Double.poverty_block_at in Hblocks.
    destruct (poverty_covered c); [| exact Hblocks].
    cbv zeta.
    destruct (poverty_ranges_of (income_group c))
      as [[[[[lo215 hi215] lo365] hi365] lo685] hi685].
    exact Hblocks.
  - intros r1 r2 H1 H2 Hcode Hlt.
    destruct (same_key_same_block country_code pov_country_code
                (fun c block => exists pos, Double.poverty_block_at rnd c pos block)
                countries blocks r1 r2 Hnd)
      as (c & block & _ & (pos & HB) & Hr1 & Hr2); try assumption.
    { intros c block r (pos & HB). apply (double_poverty_block_code _ _ _ _ _ HB). }
    exact (double_poverty_block_decreasing rnd c pos block r1 r2 Hrange HB
             Hr1 Hr2 Hlt).
  - intros c r Hc Hgroup Hr Hcode.
    destruct (In_concat_block _ _ _ _ HF Hr) as (c' & block & Hc' & (pos & HB) & Hrb).
    pose proof (double_poverty_block_code rnd c' pos block r HB Hrb) as Hcode'.
    assert (c' = c).
    { apply (NoDup_map_In_eq country_code countries); auto. congruence. }
    subst c'.
    unfold Double.poverty_block_at, poverty_covered in HB.
    rewrite Hgroup in HB. vm_compute in HB. subst block. destruct Hrb.
Qed.

Lemma C3_witness :
  exists blocks,
    db (snd (Double.load_poverty_data sample_rnd sample_env sample_conn catalog
               new_world))
      !! "poverty_indicators" = Some (map RPoverty (concat blocks)) /\
    length blocks = length catalog /\
    (forall i c block,
        catalog !! i = Some c -> blocks !! i = Some block ->
        if poverty_covered c then
          let pos := (rng_pos new_world + poverty_draws_before catalog i)%nat in
          let '(lo215, hi215, lo365, hi365, lo685, hi685) :=
            poverty_ranges_of (income_group c) in
          let base_215 := Double.uniform_value lo215 hi215 (sample_rnd pos) in
          let base_365 :=
            Double.uniform_value lo365 hi365 (sample_rnd (1 + pos)%nat) in
          let base_685 :=
            Double.uniform_value lo685 hi685 (sample_rnd (2 + pos)%nat) in
          block = map (fun year =>
                    let decay :=
                      fsub 1 (fmul (fdiv (inject_Z (year - 2015)) 8) (fl 0.15)) in
                    PovertyRecord (country_code c) year
                      (round2 (fmul base_215 decay))
                      (round2 (fmul base_365 decay))
                      (round2 (fmul base_685 decay))
                      None)
                    survey_years
        else block = []) /\
    (forall r1 r2,
        In r1 (concat blocks) -> In r2 (concat blocks) ->
        pov_country_code r1 = pov_country_code r2 ->
        (pov_year r1 < pov_year r2)%Z ->
        poverty_headcount_215_pct r2 < poverty_headcount_215_pct r1 /\
        poverty_headcount_365_pct r2 < poverty_headcount_365_pct r1 /\
        poverty_headcount_685_pct r2 < poverty_headcount_685_pct r1) /\
    (forall c r,
        In c catalog -> income_group c = "High income" ->
        In r (concat blocks) ->
        pov_country_code r <> country_code c).
Proof.
  apply (C3_poverty_rates_decrease sample_rnd sample_env sample_conn catalog
           new_world).
  - intros n. unfold sample_rnd. lra.
  - apply (bool_decide_unpack _). vm_compute. exact I.
  - vm_compute. reflexivity.
Defined.

Lemma skewed_draws_range : forall n, 0 <= skewed_draws n < 1.
Proof.
  intros n. unfold skewed_draws.
  destruct (n mod 3)%nat as [| [| m]];
    [vm_compute; split; [discriminate | reflexivity] ..| lra].
Qed.

(** C5, as stated, fails: with the draws [skewed_draws] the first poverty
    row of the catalog (China, 2015) has 13.60 at the 2.15 line and 7.50 at
    the 3.65 line. *)
Lemma C5_counterexample :
  ~ (forall rnd countries w rows w',
        (forall n, 0 <= rnd n < 1) ->
        Double.poverty_rows rnd countries w = (Ok rows, w') ->
        Forall (fun r =>
          poverty_headcount_215_pct r <= poverty_headcount_365_pct r /\
          poverty_headcount_365_pct r <= poverty_headcount_685_pct r) rows).
Proof.
  intros H.
  destruct (Double.poverty_rows skewed_draws catalog new_world)
    as [[rows | e] w'] eqn:E;
    vm_compute in E; [| discriminate].
  specialize (H skewed_draws catalog new_world rows w' skewed_draws_range).
  injection E as <- <-.
  specialize (H eq_refl).
  inversion H as [| r rest [H215 _] _]; subst.
  vm_compute in H215. apply H215. reflexivity.
Qed.

(** C5, amended. With draws in [0, 1), in every poverty row the rate at the
    2.15 line is at most the rate at the 6.85 line; the rate at the 3.65
    line is at least the one at the 2.15 line whenever the country's base at
    the 2.15 line is at most its base at the 3.65 line, and at most the one
    at the 6.85 line whenever the base at the 3.65 line is at most the base
    at the 6.85 line. The bases are the three draws of the country, each
    from its own range. *)
Theorem C5_poverty_lines_order rnd env conn countries w w' :
  (forall n, 0 <= rnd n < 1) ->
  Double.load_poverty_data rnd env conn countries w = (Ok tt, w') ->
  exists blocks,
    db w' !! "poverty_indicators" = Some (map RPoverty (concat blocks)) /\
    length blocks = length countries /\
    forall i c block,
      countries !! i = Some c -> blocks !! i = Some block ->
      let pos := (rng_pos w + poverty_draws_before countries i)%nat in
      let '(lo215, hi215, lo365, hi365, lo685, hi685) :=
        poverty_ranges_of (income_group c) in
      let base_215 := Double.uniform_value lo215 hi215 (rnd pos) in
      let base_365 := Double.uniform_value lo365 hi365 (rnd (1 + pos)%nat) in
      let base_685 := Double.uniform_value lo685 hi685 (rnd (2 + pos)%nat) in
      block = (if poverty_covered c
               then map (Double.poverty_row c base_215 base_365 base_685)
                      survey_years
               else []) /\
      Forall (fun r =>
        poverty_headcount_215_pct r <= poverty_headcount_685_pct r /\
        (base_215 <= base_365 ->
           poverty_headcount_215_pct r <= poverty_headcount_365_pct r) /\
        (base_365 <= base_685 ->
           poverty_headcount_365_pct r <= poverty_headcount_685_pct r)) block.
Proof.
  intros Hrange H.
  apply double_load_poverty_data_Ok_inv in H as (rows & w1 & Hrows & ->).
  apply double_poverty_rows_trace in Hrows as (blocks & -> & Hlen & Hblocks).
  cbn [snd print emit rng_pos] in Hblocks.
  exists blocks. split; [apply lookup_insert_eq |].
  split; [exact Hlen |].
  intros i c block Hc Hb. cbv zeta.
  specialize (Hblocks i c block Hc Hb).
  unfold Double.poverty_block_at in Hblocks.
  set (pos := (rng_pos w + poverty_draws_before countries i)%nat) in *.
  pose proof (double_poverty_bases rnd (income_group c) pos (1 + pos) (2 + pos)
                Hrange) as Hbases.
  destruct (poverty_ranges_of (income_group c))
    as [[[[[lo215 hi215] lo365] hi365] lo685] hi685].
  destruct Hbases as (Hr & B1 & B2 & B3).
  destruct (poverty_covered c); subst block; [| split; [reflexivity | constructor]].
  split; [reflexivity |].
  apply Forall_forall. intros r Hr0.
  apply list_elem_of_In, in_map_iff in Hr0 as (year & <- & Hy).
  cbn [Double.poverty_row poverty_headcount_215_pct poverty_headcount_365_pct
       poverty_headcount_685_pct].
  pose proof (double_reduction_factor_survey year Hy) as [Hf _].
  split; [| split].
  - apply double_rate_mono; lra.
  - intros Hle. apply double_rate_mono; [lra | exact Hle].
  - intros Hle. apply double_rate_mono; [lra | exact Hle].
Qed.

Lemma C5_witness :
  exists blocks,
    db (snd (Double.load_poverty_data skewed_draws sample_env sample_conn catalog
               new_world))
      !! "poverty_indicators" = Some (map RPoverty (concat blocks)) /\
    length blocks = length catalog /\
    forall i c block,
      catalog !! i = Some c -> blocks !! i = Some block ->
      let pos := (rng_pos new_world + poverty_draws_before catalog i)%nat in
      let '(lo215, hi215, lo365, hi365, lo685, hi685) :=
        poverty_ranges_of (income_group c) in
      let base_215 := Double.uniform_value lo215 hi215 (skewed_draws pos) in
      let base_365 :=
        Double.uniform_value lo365 hi365 (skewed_draws (1 + pos)%nat) in
      let base_685 :=
        Double.uniform_value lo685 hi685 (skewed_draws (2 + pos)%nat) in
      block = (if poverty_covered c
               then map (Double.poverty_row c base_215 base_365 base_685)
                      survey_years
               else []) /\
      Forall (fun r =>
        poverty_headcount_215_pct r <= poverty_headcount_685_pct r /\
        (base_215 <= base_365 ->
           poverty_headcount_215_pct r <= poverty_headcount_365_pct r) /\
        (base_365 <= base_685 ->
           poverty_headcount_365_pct r <= poverty_headcount_685_pct r)) block.
Proof.
  apply (C5_poverty_lines_order skewed_draws sample_env sample_conn catalog
           new_world).
  - intros n. unfold skewed_draws.
    destruct (n mod 3)%nat as [| [| m]];
      [vm_compute; split; [discriminate | reflexivity] ..| lra].
  - vm_compute. reflexivity.
Defined.

(** ** The trade and education table *)

Lemma returns_double_uniform rnd a b : returns (Double.uniform rnd a b).
Proof. intros w. rewrite double_uniform_eval. eauto. Qed.

Ltac dreturns_step :=
  lazymatch goal with
  | |- returns (if ?b then _ else _) => destruct b
  | |- returns (let '(_, _) := ?p in _) => destruct p
  | |- returns (ret _) => apply returns_ret
  | |- returns (Double.uniform _ _ _) => apply returns_double_uniform
  | |- returns (bind _ _) => apply returns_bind; [| intros ?]
  | |- returns (for_each _ _ _) => apply returns_for_each; intros ? ?
  end.

Lemma double_trade_rows_returns rnd countries :
  returns (Double.trade_rows rnd countries).
Proof. unfold Double.trade_rows. repeat dreturns_step. Qed.

(** The trade and education table, draw by draw. *)
Lemma double_trade_rows_trace rnd countries w rows w' :
  Double.trade_rows rnd countries w = (Ok rows, w') ->
  exists blocks,
    rows = concat blocks /\
    length blocks = length countries /\
    forall i c block,
      countries !! i = Some c -> blocks !! i = Some block ->
      Double.trade_block_at rnd c (rng_pos w + 22 * i) block.
Proof.
  unfold Double.trade_rows. intros H.
  apply (for_each_trace (fun c w0 block w1 =>
           Double.trade_block_at rnd c (rng_pos w0) block /\
           rng_pos w1 = (rng_pos w0 + 22)%nat)) in H as (blocks & -> & HT).
  { exists blocks. split; [reflexivity |].
    eapply (loop_trace_lookup _ (Double.trade_block_at rnd) 22); [| exact HT].
    intros c w0 block w1 HP. exact HP. }
  clear. intros c data w data' w' _ H.
  dpeel H.
  apply bind_Ok_inv in H as (bases & w1 & Hb & H).
  assert (Hbases :
    let '(slo, shi, tlo, thi, glo, ghi) := enrollment_ranges_of (income_group c) in
    bases = (Double.uniform_value slo shi (rnd (1 + rng_pos w)%nat),
             Double.uniform_value tlo thi (rnd (2 + rng_pos w)%nat),
             Double.uniform_value glo ghi (rnd (3 + rng_pos w)%nat)) /\
    rng_pos w1 = (4 + rng_pos w)%nat).
  { unfold enrollment_ranges_of.
    repeat match type of Hb with
           | (if ?b then _ else _) _ = _ => destruct b
           end;
      do 3 dpeel Hb; inversion Hb; subst; clear Hb; split; reflexivity. }
  clear Hb. unfold Double.trade_block_at.
  destruct (enrollment_ranges_of (income_group c))
    as [[[[[slo shi] tlo] thi] glo] ghi].
  destruct Hbases as [-> Hpos1].
  set (base_trade := Double.uniform_value 40 150 (rnd (rng_pos w))) in *.
  set (sec := Double.uniform_value slo shi (rnd (1 + rng_pos w)%nat)) in *.
  set (ter := Double.uniform_value tlo thi (rnd (2 + rng_pos w)%nat)) in *.
  set (gov := Double.uniform_value glo ghi (rnd (3 + rng_pos w)%nat)) in *.
  apply (for_each_trace (fun year w0 new w2 =>
           new = [Double.trade_row rnd c base_trade sec ter gov year (rng_pos w0)] /\
           rng_pos w2 = (rng_pos w0 + 2)%nat)) in H as (blocks & -> & HT).
  - exists (concat blocks). split; [reflexivity |].
    rewrite range_2015_2024 in HT.
    repeat match goal with
           | HT : loop_trace _ _ (_ :: _) _ _ |- _ =>
               inversion HT as [| ? ? ? ? ? ? ? [-> ?] ?]; subst; clear HT
           | HT : loop_trace _ _ [] _ _ |- _ =>
               inversion HT; subst; clear HT
           end.
    split; [| lia].
    rewrite range_2015_2024. cbn [concat app map].
    repeat (apply f_equal2;
            [ apply (f_equal (Double.trade_row _ _ _ _ _ _ _));
              unfold noise_draw;
              match goal with
              | |- context [Z.to_nat ?z] =>
                  let n := eval vm_compute in (Z.to_nat z) in
                  change (Z.to_nat z) with n
              end; lia |]).
    reflexivity.
  - clear. intros year row_data wy row_data' wy' _ H.
    do 2 dpeel H. inversion H; subst; clear H.
    eexists. split; [reflexivity |]. cbn [rng_pos]. split; [| lia].
    reflexivity.
Qed.

Lemma double_load_trade_education_Ok_inv rnd env conn countries w u w' :
  Double.load_trade_education rnd env conn countries w = (Ok u, w') ->
  exists rows w1,
    Double.trade_rows rnd countries
      (snd (print "Creating trade and education data..." w)) = (Ok rows, w1) /\
    w' = World (rng_pos w1) (<["trade_education" := map RTrade rows]> (db w))
           (console w ++ [Line "Creating trade and education data...";
                          LoadedLine (length rows) "trade/education records"])
           (conn_open w).
Proof.
  unfold Double.load_trade_education.
  apply load_table_Ok_inv, frame_double_trade_rows.
Qed.

(** The two enrollment rates of the rows of one country are determined by
    the second and third draw of the country. *)
Lemma double_trade_rows_of_enrollment rnd c :
  let '(slo, shi, tlo, thi, glo, ghi) := enrollment_ranges_of (income_group c) in
  map secondary_enrollment_rate (Double.trade_rows_of rnd c)
    = map (fun year =>
             round2 (py_min 105
                       (fadd (Double.uniform_value slo shi (rnd 1%nat))
                          (fmul (inject_Z (year - 2015)) 0.5))))
        (range 2015 2024) /\
  map tertiary_enrollment_rate (Double.trade_rows_of rnd c)
    = map (fun year =>
             round2 (fadd (Double.uniform_value tlo thi (rnd 2%nat))
                       (fmul (inject_Z (year - 2015)) (fl 0.3))))
        (range 2015 2024).
Proof.
  unfold Double.trade_rows_of.
  destruct (double_trade_rows_returns rnd [c] new_world) as (rows & w' & E).
  rewrite E.
  apply double_trade_rows_trace in E as (blocks & -> & Hlen & Hblocks).
  destruct blocks as [| block [| b2 rest]]; try discriminate.
  specialize (Hblocks 0%nat c block eq_refl eq_refl).
  cbn [concat]. rewrite app_nil_r.
  unfold Double.trade_block_at in Hblocks.
  change (rng_pos new_world + 22 * 0)%nat with 0%nat in Hblocks.
  cbn [Nat.add] in Hblocks.
  destruct (enrollment_ranges_of (income_group c))
    as [[[[[slo shi] tlo] thi] glo] ghi].
  subst block. rewrite !map_map. split; reflexivity.
Qed.

(** The notion is not empty: the trade share does include per-year noise. *)
Lemma double_trade_pct_gdp_includes_noise :
  Double.includes_per_year_noise trade_pct_gdp.
Proof.
  exists (Country "ETH" "Ethiopia" "Sub-Saharan Africa" "Low income" None),
    sample_rnd, redrawn_rnd.
  split; [intros n; unfold sample_rnd; lra |].
  split; [intros n; unfold redrawn_rnd; destruct (n <? 4)%nat; lra |].
  split.
  - intros n Hn. unfold sample_rnd, redrawn_rnd.
    apply Nat.ltb_lt in Hn. rewrite Hn. reflexivity.
  - intros H. vm_compute in H. discriminate.
Qed.

(** No two rows of the table share a noise draw, and no noise draw is one
    of the four base draws of a country. *)
Lemma noise_draw_fresh (pos i1 i2 a1 a2 : nat) (y1 y2 : Z) :
  (2015 <= y1 < 2024)%Z -> (2015 <= y2 < 2024)%Z ->
  (a1 < 2)%nat -> (a2 < 2)%nat ->
  ((a1 + noise_draw (pos + 22 * i1) y1 = a2 + noise_draw (pos + 22 * i2) y2)%nat ->
   i1 = i2 /\ y1 = y2 /\ a1 = a2) /\
  (forall j, (j < 4)%nat ->
     (a1 + noise_draw (pos + 22 * i1) y1)%nat <> (j + (pos + 22 * i2))%nat).
Proof.
  intros H1 H2 Ha1 Ha2. unfold noise_draw. split; intros; lia.
Qed.

(** ** Claims on the trade and education table *)

(** C9, as stated, fails: the stored secondary enrollment rate does not
    include per-year noise (nor does the tertiary one), so not each of the
    four per-year attributes does. *)
Lemma C9_counterexample :
  ~ (Double.includes_per_year_noise trade_pct_gdp /\
     Double.includes_per_year_noise secondary_enrollment_rate /\
     Double.includes_per_year_noise tertiary_enrollment_rate /\
     Double.includes_per_year_noise government_expenditure_education_pct).
Proof.
  intros (_ & (c & rnd1 & rnd2 & _ & _ & Hagree & Hne) & _).
  apply Hne.
  pose proof (double_trade_rows_of_enrollment rnd1 c) as H1.
  pose proof (double_trade_rows_of_enrollment rnd2 c) as H2.
  destruct (enrollment_ranges_of (income_group c))
    as [[[[[slo shi] tlo] thi] glo] ghi].
  destruct H1 as [-> _], H2 as [-> _].
  rewrite (Hagree 1%nat) by lia. reflexivity.
Qed.

(** C9, amended. With draws in [0, 1), the table [trade_education] a
    successful [load_trade_education] stores holds, for every country, one
    row per year of 2015..2023, computed in double precision from the four
    bases of the country, its first four draws: the secondary rate is the
    base plus 0.5 per elapsed year, capped at 105, and the tertiary rate the
    base plus 0.3 per elapsed year, both without noise; the trade share and
    the education expenditure are the base plus a draw of that row, from
    [-10, 10] and from [-0.5, 0.5]; no two rows share a noise draw and no
    noise draw is a base draw. *)
Theorem C9_trade_education_rows rnd env conn countries w w' :
  (forall n, 0 <= rnd n < 1) ->
  Double.load_trade_education rnd env conn countries w = (Ok tt, w') ->
  exists blocks,
    db w' !! "trade_education" = Some (map RTrade (concat blocks)) /\
    length blocks = length countries /\
    (forall i c block,
        countries !! i = Some c -> blocks !! i = Some block ->
        let pos := (rng_pos w + 22 * i)%nat in
        let '(slo, shi, tlo, thi, glo, ghi) :=
          enrollment_ranges_of (income_group c) in
        let base_trade := Double.uniform_value 40 150 (rnd pos) in
        let sec_enrollment := Double.uniform_value slo shi (rnd (1 + pos)%nat) in
        let ter_enrollment := Double.uniform_value tlo thi (rnd (2 + pos)%nat) in
        let gov_edu_exp := Double.uniform_value glo ghi (rnd (3 + pos)%nat) in
        Forall2 (fun year r =>
          let elapsed := inject_Z (year - 2015) in
          let trade_noise :=
            Double.uniform_value (-10) 10 (rnd (noise_draw pos year)) in
          let edu_noise :=
            Double.uniform_value (-0.5) 0.5 (rnd (1 + noise_draw pos year)%nat) in
          -10 <= trade_noise <= 10 /\
          -0.5 <= edu_noise <= 0.5 /\
          secondary_enrollment_rate r <= 105 /\
          r = TradeRecord (country_code c) year
                (round2 (fadd base_trade trade_noise))
                (round2 (py_min 105 (fadd sec_enrollment (fmul elapsed 0.5))))
                (round2 (fadd ter_enrollment (fmul elapsed (fl 0.3))))
                (round2 (fadd gov_edu_exp edu_noise)))
          (range 2015 2024) block) /\
    (forall i1 i2 a1 a2 y1 y2,
        In y1 (range 2015 2024) -> In y2 (range 2015 2024) ->
        (a1 < 2)%nat -> (a2 < 2)%nat ->
        ((a1 + noise_draw (rng_pos w + 22 * i1) y1
          = a2 + noise_draw (rng_pos w + 22 * i2) y2)%nat ->
         i1 = i2 /\ y1 = y2 /\ a1 = a2) /\
        (forall j, (j < 4)%nat ->
           (a1 + noise_draw (rng_pos w + 22 * i1) y1)%nat
           <> (j + (rng_pos w + 22 * i2))%nat)).
Proof.
  intros Hrange H.
  apply double_load_trade_education_Ok_inv in H as (rows & w1 & Hrows & ->).
  apply double_trade_rows_trace in Hrows as (blocks & -> & Hlen & Hblocks).
  cbn [snd print emit rng_pos] in Hblocks.
  exists blocks. split; [apply lookup_insert_eq |].
  split; [exact Hlen |]. split.
  - intros i c block Hc Hb. cbv zeta.
    specialize (Hblocks i c block Hc Hb).
    unfold Double.trade_block_at in Hblocks.
    destruct (enrollment_ranges_of (income_group c))
      as [[[[[slo shi] tlo] thi] glo] ghi].
    subst block. apply Forall2_map_self. intros year _.
    split; [| split; [| split]].
    + apply double_uniform_value_range;
        [vm_compute; reflexivity | vm_compute; reflexivity
         | vm_compute; reflexivity | lra | apply Hrange].
    + apply double_uniform_value_range;
        [vm_compute; reflexivity | vm_compute; reflexivity
         | vm_compute; reflexivity | lra | apply Hrange].
    + cbn [Double.trade_row secondary_enrollment_rate].
      apply (round2_le_Z _ 105). apply py_min_le_l.
    + reflexivity.
  - intros i1 i2 a1 a2 y1 y2 H1 H2.
    apply In_range in H1, H2.
    apply (noise_draw_fresh (rng_pos w) i1 i2 a1 a2 y1 y2 H1 H2).
Qed.

Lemma C9_witness :
  exists blocks,
    db (snd (Double.load_trade_education sample_rnd sample_env sample_conn
               catalog new_world))
      !! "trade_education" = Some (map RTrade (concat blocks)) /\
    length blocks = length catalog /\
    (forall i c block,
        catalog !! i = Some c -> blocks !! i = Some block ->
        let pos := (rng_pos new_world + 22 * i)%nat in
        let '(slo, shi, tlo, thi, glo, ghi) :=
          enrollment_ranges_of (income_group c) in
        let base_trade := Double.uniform_value 40 150 (sample_rnd pos) in
        let sec_enrollment :=
          Double.uniform_value slo shi (sample_rnd (1 + pos)%nat) in
        let ter_enrollment :=
          Double.uniform_value tlo thi (sample_rnd (2 + pos)%nat) in
        let gov_edu_exp :=
          Double.uniform_value glo ghi (sample_rnd (3 + pos)%nat) in
        Forall2 (fun year r =>
          let elapsed := inject_Z (year - 2015) in
          let trade_noise :=
            Double.uniform_value (-10) 10 (sample_rnd (noise_draw pos year)) in
          let edu_noise :=
            Double.uniform_value (-0.5) 0.5
              (sample_rnd (1 + noise_draw pos year)%nat) in
          -10 <= trade_noise <= 10 /\
          -0.5 <= edu_noise <= 0.5 /\
          secondary_enrollment_rate r <= 105 /\
          r = TradeRecord (country_code c) year
                (round2 (fadd base_trade trade_noise))
                (round2 (py_min 105 (fadd sec_enrollment (fmul elapsed 0.5))))
                (round2 (fadd ter_enrollment (fmul elapsed (fl 0.3))))
                (round2 (fadd gov_edu_exp edu_noise)))
          (range 2015 2024) block) /\
    (forall i1 i2 a1 a2 y1 y2,
        In y1 (range 2015 2024) -> In y2 (range 2015 2024) ->
        (a1 < 2)%nat -> (a2 < 2)%nat ->
        ((a1 + noise_draw (rng_pos new_world + 22 * i1) y1
          = a2 + noise_draw (rng_pos new_world + 22 * i2) y2)%nat ->
         i1 = i2 /\ y1 = y2 /\ a1 = a2) /\
        (forall j, (j < 4)%nat ->
           (a1 + noise_draw (rng_pos new_world + 22 * i1) y1)%nat
           <> (j + (rng_pos new_world + 22 * i2))%nat)).
Proof.
  apply (C9_trade_education_rows sample_rnd sample_env sample_conn catalog
           new_world).
  - intros n. unfold sample_rnd. lra.
  - vm_compute. reflexivity.
Defined.
